(** * JSON Lines COPY format (jsonlines.c): a shallow embedding

    The read path (line reader over a refilled input buffer, optional
    gzip inflate underneath, per-row jsonb decode) and the write path
    (row_to_json line, optional gzip deflate) of [jsonlines.c], with the
    PostgreSQL and zlib entry points the file calls taken as parameters
    of the development. *)

From Stdlib Require Import ZArith Lia Strings.Byte Strings.String.
From stdpp Require Import base list.

Local Open Scope Z_scope.

(** ** Bytes and C strings *)

#[global] Instance byte_eq_dec : EqDecision byte := Byte.byte_eq_dec.

Definition NUL : byte := x00.
Definition NL : byte := x0a.
Definition DOT : byte := x2e.
Definition DQ : byte := x22.

(** Byte content of a literal. *)
Definition bs (s : string) : list byte := list_byte_of_string s.

(** A [char *] that points at a NUL-terminated string is modelled by the
    bytes before the terminator; [c_string] says a list is such a content. *)
Definition c_string (s : list byte) : Prop := Forall (fun b => b <> NUL) s.

(** What a C-string routine sees of a length-delimited buffer handed to it
    as [char *]: the bytes up to the first NUL ([strlen] of them). *)
Fixpoint c_str (mem : list byte) : list byte :=
  match mem with
  | [] => []
  | b :: mem' => if decide (b = NUL) then [] else b :: c_str mem'
  end.

(** [strchr(s, c)] for [c <> 0], over the memory starting at [s]: the offset
    of the first [c] that comes before the first NUL, [None] for NULL. *)
Fixpoint strchr (mem : list byte) (c : byte) : option nat :=
  match mem with
  | [] => None
  | b :: mem' =>
      if decide (b = c) then Some O
      else if decide (b = NUL) then None
      else S <$> strchr mem' c
  end.

(** [strrchr(s, c)] for [c <> 0] on a C-string content: the suffix that
    starts at the last [c], [None] for NULL. *)
Fixpoint strrchr (s : list byte) (c : byte) : option (list byte) :=
  match s with
  | [] => None
  | b :: s' =>
      match strrchr s' c with
      | Some r => Some r
      | None => if decide (b = c) then Some s else None
      end
  end.

Definition byte_val (b : byte) : Z := Z.of_N (Byte.to_N b).

(** [strcmp] on C-string contents (the end of a list is the terminator). *)
Fixpoint strcmp (a b : list byte) : Z :=
  match a, b with
  | [], [] => 0
  | [], y :: _ => 0 - byte_val y
  | x :: _, [] => byte_val x
  | x :: a', y :: b' =>
      if decide (x = y) then strcmp a' b' else byte_val x - byte_val y
  end.

(** ** Outcomes

    [ereport(ERROR)] and [elog(ERROR)] abort the whole COPY; a NULL
    dereference is undefined behaviour. *)

Inductive pg_error : Type :=
| ErrGzipNotSupported
| ErrCompressionInit
| ErrCompress
| ErrDecompress
| ErrInvalidJsonb
| ErrConvert (text attname : list byte)
| ErrUnrecognizedJsonbType
| ErrInvalidCompressionSpec.

Inductive outcome (A : Type) : Type :=
| Ok (a : A)
| Raise (e : pg_error)
| Undefined.
Arguments Ok {A} a.
Arguments Raise {A} e.
Arguments Undefined {A}.

#[global] Instance outcome_ret : MRet outcome := fun A a => Ok a.
#[global] Instance outcome_bind : MBind outcome := fun A B f m =>
  match m with
  | Ok a => f a
  | Raise e => Raise e
  | Undefined => Undefined
  end.

Definition is_Ok {A} (o : outcome A) : Prop := exists a, o = Ok a.

(** ** Constants of the source *)

Definition GZIP_CHUNK_SIZE : Z := 256 * 1024.
Definition RAW_BUF_SIZE : Z := 65536.
Definition INPUT_BUF_SIZE : Z := 65536.

Inductive pg_compress_algorithm : Type :=
| PG_COMPRESSION_NONE
| PG_COMPRESSION_GZIP
| PG_COMPRESSION_LZ4
| PG_COMPRESSION_ZSTD.

#[global] Instance pg_compress_algorithm_eq_dec : EqDecision pg_compress_algorithm.
Proof. solve_decision. Defined.

(** zlib constants. *)
Definition Z_OK : Z := 0.
Definition Z_STREAM_END : Z := 1.
Definition Z_STREAM_ERROR : Z := -2.
Definition Z_NO_FLUSH : Z := 0.
Definition Z_FINISH : Z := 4.

(** ** The host: PostgreSQL and zlib as seen from jsonlines.c *)

Class HostTypes : Type := {
  Datum : Type;
  Numeric : Type;
  JsonbContainer : Type;
  Jsonb : Type;
  z_state : Type;
  Oid : Type
}.

(** [JsonbValue] with the variants [GetJsonbValueAsCString] switches on. *)
Inductive JsonbValue `{HostTypes} : Type :=
| jbvNull
| jbvString (val : list byte)
| jbvNumeric (numeric : Numeric)
| jbvBool (boolean : bool)
| jbvArray
| jbvObject
| jbvBinary (data : JsonbContainer)
| jbvDatetime.

(** What one call of [inflate] or [deflate] leaves in the [z_stream]:
    the return code, the internal state, [avail_in] after the call, and
    the bytes written at [next_out] ([avail_out] drops by their number). *)
Record z_result `{HostTypes} : Type := {
  z_ret : Z;
  z_next : z_state;
  z_avail_in : Z;
  z_out : list byte
}.

Class Host `{HostTypes} : Type := {
  (** [jsonb_in] through [DirectInputFunctionCallSafe]: [None] on failure. *)
  jsonb_in : list byte -> option Jsonb;
  getKeyJsonValueFromContainer : Jsonb -> list byte -> option JsonbValue;
  numeric_out : Numeric -> list byte;
  JsonbToCString : JsonbContainer -> list byte;
  (** the input function of a column type, set up by
      [JsonLinesCopyFromInFunc] from [atttypid]: text, typmod *)
  InputFunctionCall : Oid -> list byte -> Z -> option Datum;
  (** [row_to_json] then [text_to_cstring] *)
  row_to_json : list Datum -> list bool -> list byte;
  (** [inflateInit2(strm, windowBits)]: the state when it returns Z_OK *)
  inflateInit2 : Z -> option z_state;
  (** [inflate(strm, flush)]: state, bytes at next_in, avail_out, flush *)
  inflate : z_state -> list byte -> Z -> Z -> z_result;
  (** [deflateInit2(strm, level, ...)] *)
  deflateInit2 : Z -> option z_state;
  deflate : z_state -> list byte -> Z -> Z -> z_result;
  (** [parse_compress_specification] then
      [validate_compress_specification]: the level, or an error detail *)
  compress_specification :
    pg_compress_algorithm -> option (list byte) -> option Z
}.

(** zlib never reads more than [avail_in] nor writes more than [avail_out]. *)
Definition z_contract `{HostTypes}
    (f : z_state -> list byte -> Z -> Z -> z_result) : Prop :=
  forall s input avail_out flush,
    0 <= avail_out ->
    0 <= z_avail_in (f s input avail_out flush) <= Z.of_nat (length input) /\
    Z.of_nat (length (z_out (f s input avail_out flush))) <= avail_out.

(** [CopyFromGetData(cstate, buf, 1, maxread)]: the source is the sequence
    of chunks it still delivers; a read returns the next one, cut at
    [maxread], and 0 bytes once the source is exhausted. *)
Definition CopyFromGetData (source : list (list byte)) (maxread : Z)
    : list byte * list (list byte) :=
  match source with
  | [] => ([], [])
  | chunk :: rest =>
      if decide (Z.of_nat (length chunk) <= maxread) then (chunk, rest)
      else (take (Z.to_nat maxread) chunk, drop (Z.to_nat maxread) chunk :: rest)
  end.

(** ** Read path: state *)

Section ReadPath.
Context {host_types : HostTypes} {host : Host}.

(** A column of the tuple descriptor ([Form_pg_attribute]). *)
Record FormData_pg_attribute : Type := {
  attname : list byte;
  atttypid : Oid;
  atttypmod : Z
}.

(** The fields of [CopyFromStateData] that jsonlines.c touches.  [filename]
    is NULL ([None]) when the source is not a file. *)
Record CopyFromStateData : Type := {
  filename : option (list byte);
  source : list (list byte);
  bytes_processed : Z;
  cur_lineno : Z;
  attnumlist : list Z;
  tupdesc : list FormData_pg_attribute
}.

(** [CopyFromStateJsonLines].  [input_buf] holds the bytes 0..len of the C
    array: what the last refill stored and the NUL written behind it; the
    bytes after that sentinel are never read while index <= len. *)
Record CopyFromStateJsonLines : Type := {
  base : CopyFromStateData;
  compression : pg_compress_algorithm;
  strm : z_state;
  raw_buf : list byte;
  raw_buf_index : Z;
  raw_buf_len : Z;
  line_buf : list byte;
  input_buf : list byte;
  input_buf_index : Z;
  input_buf_len : Z;
  input_reached_eof : bool;
  input_reached_error : bool
}.

Definition set_base (f : CopyFromStateData -> CopyFromStateData)
    (c : CopyFromStateJsonLines) : CopyFromStateJsonLines :=
  {| base := f (base c); compression := compression c; strm := strm c;
     raw_buf := raw_buf c; raw_buf_index := raw_buf_index c;
     raw_buf_len := raw_buf_len c; line_buf := line_buf c;
     input_buf := input_buf c; input_buf_index := input_buf_index c;
     input_buf_len := input_buf_len c;
     input_reached_eof := input_reached_eof c;
     input_reached_error := input_reached_error c |}.

(** The effect of one [CopyFromGetData] on the base state, with the
    [bytes_processed += n] that follows it at both call sites. *)
Definition consume_source (rest : list (list byte)) (n : Z)
    (b : CopyFromStateData) : CopyFromStateData :=
  {| filename := filename b; source := rest;
     bytes_processed := bytes_processed b + n; cur_lineno := cur_lineno b;
     attnumlist := attnumlist b; tupdesc := tupdesc b |}.

Definition set_compression (v : pg_compress_algorithm)
    (c : CopyFromStateJsonLines) : CopyFromStateJsonLines :=
  {| base := base c; compression := v; strm := strm c;
     raw_buf := raw_buf c; raw_buf_index := raw_buf_index c;
     raw_buf_len := raw_buf_len c; line_buf := line_buf c;
     input_buf := input_buf c; input_buf_index := input_buf_index c;
     input_buf_len := input_buf_len c;
     input_reached_eof := input_reached_eof c;
     input_reached_error := input_reached_error c |}.

Definition set_strm (v : z_state)
    (c : CopyFromStateJsonLines) : CopyFromStateJsonLines :=
  {| base := base c; compression := compression c; strm := v;
     raw_buf := raw_buf c; raw_buf_index := raw_buf_index c;
     raw_buf_len := raw_buf_len c; line_buf := line_buf c;
     input_buf := input_buf c; input_buf_index := input_buf_index c;
     input_buf_len := input_buf_len c;
     input_reached_eof := input_reached_eof c;
     input_reached_error := input_reached_error c |}.

(** The raw buffer: content, index, length. *)
Definition set_raw (buf : list byte) (index len : Z)
    (c : CopyFromStateJsonLines) : CopyFromStateJsonLines :=
  {| base := base c; compression := compression c; strm := strm c;
     raw_buf := buf; raw_buf_index := index; raw_buf_len := len;
     line_buf := line_buf c;
     input_buf := input_buf c; input_buf_index := input_buf_index c;
     input_buf_len := input_buf_len c;
     input_reached_eof := input_reached_eof c;
     input_reached_error := input_reached_error c |}.

Definition set_line_buf (v : list byte)
    (c : CopyFromStateJsonLines) : CopyFromStateJsonLines :=
  {| base := base c; compression := compression c; strm := strm c;
     raw_buf := raw_buf c; raw_buf_index := raw_buf_index c;
     raw_buf_len := raw_buf_len c; line_buf := v;
     input_buf := input_buf c; input_buf_index := input_buf_index c;
     input_buf_len := input_buf_len c;
     input_reached_eof := input_reached_eof c;
     input_reached_error := input_reached_error c |}.

(** The input buffer: content, index, length. *)
Definition set_input (buf : list byte) (index len : Z)
    (c : CopyFromStateJsonLines) : CopyFromStateJsonLines :=
  {| base := base c; compression := compression c; strm := strm c;
     raw_buf := raw_buf c; raw_buf_index := raw_buf_index c;
     raw_buf_len := raw_buf_len c; line_buf := line_buf c;
     input_buf := buf; input_buf_index := index; input_buf_len := len;
     input_reached_eof := input_reached_eof c;
     input_reached_error := input_reached_error c |}.

Definition set_input_reached (eof error : bool)
    (c : CopyFromStateJsonLines) : CopyFromStateJsonLines :=
  {| base := base c; compression := compression c; strm := strm c;
     raw_buf := raw_buf c; raw_buf_index := raw_buf_index c;
     raw_buf_len := raw_buf_len c; line_buf := line_buf c;
     input_buf := input_buf c; input_buf_index := input_buf_index c;
     input_buf_len := input_buf_len c;
     input_reached_eof := eof; input_reached_error := error |}.

Definition RAW_BUF_BYTES (cstate : CopyFromStateJsonLines) : Z :=
  raw_buf_len cstate - raw_buf_index cstate.

Definition INPUT_BUF_BYTES (cstate : CopyFromStateJsonLines) : Z :=
  input_buf_len cstate - input_buf_index cstate.

(** The bytes of a buffer from [index] on, [n] of them. *)
Definition buf_slice (buf : list byte) (index n : Z) : list byte :=
  take (Z.to_nat n) (drop (Z.to_nat index) buf).

(** The unread portion of the input buffer. *)
Definition unread (cstate : CopyFromStateJsonLines) : list byte :=
  buf_slice (input_buf cstate) (input_buf_index cstate) (INPUT_BUF_BYTES cstate).

(** ** Read path: gzip *)

Definition initialize_inflate_gzip : outcome z_state :=
  match inflateInit2 (15 + 32) with
  | Some s => Ok s
  | None => Raise ErrCompressionInit
  end.

(** The first step of [read_gzip]: "Read compressed data to refill the
    raw_buf if it's empty". *)
Definition refill_raw (cstate : CopyFromStateJsonLines) : CopyFromStateJsonLines :=
  if decide (RAW_BUF_BYTES cstate = 0) then
    let '(data, rest) := CopyFromGetData (source (base cstate)) RAW_BUF_SIZE in
    let n := Z.of_nat (length data) in
    set_base (consume_source rest n) (set_raw data 0 n cstate)
  else cstate.

(** [read_gzip]: refill [raw_buf] when it is drained, run [inflate] once
    from the unread raw bytes into the whole of [input_buf]. *)
Definition read_gzip (cstate : CopyFromStateJsonLines)
    : outcome CopyFromStateJsonLines :=
  let cstate1 := refill_raw cstate in
  let inbytes := RAW_BUF_BYTES cstate1 in
  let next_in := buf_slice (raw_buf cstate1) (raw_buf_index cstate1) inbytes in
  let r := inflate (strm cstate1) next_in INPUT_BUF_SIZE Z_NO_FLUSH in
  let avail_out := INPUT_BUF_SIZE - Z.of_nat (length (z_out r)) in
  if decide (z_ret r < 0) then Raise ErrDecompress
  else
    let written := INPUT_BUF_SIZE - avail_out in
    Ok (set_input (z_out r ++ [NUL]) 0 written
         (set_raw (raw_buf cstate1)
                  (raw_buf_index cstate1 + (inbytes - z_avail_in r))
                  (raw_buf_len cstate1)
            (set_strm (z_next r) cstate1))).

(** ** Read path: the line reader *)

(** The refill of [JsonLineReadLine] ("Load more data if needed"). *)
Definition load_more (cstate : CopyFromStateJsonLines)
    : outcome CopyFromStateJsonLines :=
  match compression cstate with
  | PG_COMPRESSION_NONE =>
      let '(data, rest) := CopyFromGetData (source (base cstate)) INPUT_BUF_SIZE in
      let inbytes := Z.of_nat (length data) in
      Ok (set_base (consume_source rest inbytes)
            (set_input (data ++ [NUL]) 0 inbytes cstate))
  | PG_COMPRESSION_GZIP => read_gzip cstate
  | _ => Ok cstate
  end.

Inductive loop_step : Type :=
| Continue (cstate : CopyFromStateJsonLines)
| Break (cstate : CopyFromStateJsonLines) (result : bool).

(** From [strchr] to the end of the loop body. *)
Definition scan_newline (cstate : CopyFromStateJsonLines) : loop_step :=
  let index := input_buf_index cstate in
  match strchr (drop (Z.to_nat index) (input_buf cstate)) NL with
  | None =>
      Continue
        (set_input (input_buf cstate) (input_buf_len cstate) (input_buf_len cstate)
           (set_line_buf
              (line_buf cstate ++
                 buf_slice (input_buf cstate) index (input_buf_len cstate - index))
              cstate))
  | Some off =>
      let ptr := index + Z.of_nat off in
      let nbytes := ptr - index in
      Break
        (set_input (input_buf cstate) (index + nbytes + 1) (input_buf_len cstate)
           (set_line_buf
              (line_buf cstate ++ buf_slice (input_buf cstate) index nbytes)
              cstate))
        false
  end.

(** One turn of the [for (;;)] loop. *)
Definition JsonLineReadLine_body (cstate : CopyFromStateJsonLines)
    : outcome loop_step :=
  if decide (INPUT_BUF_BYTES cstate <= 0) then
    cstate1 ← load_more cstate;
    if decide (INPUT_BUF_BYTES cstate1 <= 0) then mret (Break cstate1 true)
    else mret (scan_newline cstate1)
  else mret (scan_newline cstate).

(** The loop, [fuel] turns at most; [None] when they do not suffice. *)
Fixpoint JsonLineReadLine_loop (fuel : nat) (cstate : CopyFromStateJsonLines)
    : option (outcome (bool * CopyFromStateJsonLines)) :=
  match fuel with
  | O => None
  | S fuel' =>
      match JsonLineReadLine_body cstate with
      | Ok (Continue cstate') => JsonLineReadLine_loop fuel' cstate'
      | Ok (Break cstate' result) => Some (Ok (result, cstate'))
      | Raise e => Some (Raise e)
      | Undefined => Some Undefined
      end
  end.

(** [JsonLineReadLine]: true at end of input, false with a line in
    [line_buf]. *)
Definition JsonLineReadLine (fuel : nat) (cstate : CopyFromStateJsonLines)
    : option (outcome (bool * CopyFromStateJsonLines)) :=
  JsonLineReadLine_loop fuel (set_line_buf [] cstate).

(** ** Read path: start and end *)

Definition JsonLinesCopyFromStart (cstate : CopyFromStateJsonLines)
    : outcome CopyFromStateJsonLines :=
  match filename (base cstate) with
  | None => Undefined
  | Some name =>
      match strrchr name DOT with
      | None => Undefined
      | Some extension =>
          cstate1 ←
            (if decide (strcmp extension (bs ".gz") = 0) then
               s ← initialize_inflate_gzip;
               mret (set_raw (raw_buf cstate) 0 0
                       (set_strm s (set_compression PG_COMPRESSION_GZIP cstate)))
             else mret (set_compression PG_COMPRESSION_NONE cstate));
          mret (set_line_buf []
                  (set_input_reached false false
                     (set_input (input_buf cstate1) 0 0 cstate1)))
      end
  end.

Definition JsonLinesCopyFromEnd (cstate : CopyFromStateJsonLines)
    : CopyFromStateJsonLines := cstate.

(** ** Read path: the row decoder *)

(** Write the C-string form of a [JsonbValue] to [str]. *)
Definition GetJsonbValueAsCString (v : JsonbValue) (str : list byte)
    : outcome (list byte) :=
  match v with
  | jbvNull => Ok str
  | jbvBool boolean => Ok (str ++ (if boolean then bs "true" else bs "false"))
  | jbvString val => Ok (str ++ val)
  | jbvNumeric numeric => Ok (str ++ numeric_out numeric)
  | jbvBinary data => Ok (str ++ JsonbToCString data)
  | _ => Raise ErrUnrecognizedJsonbType
  end.

Record CopyFromRowInfo : Type := {
  lineno : Z;
  tuplen : Z
}.

(** The caller's arrays and the scratch [buf] while the columns are
    walked. *)
Record row_arrays : Type := {
  values : list Datum;
  nulls : list bool;
  buf : list byte
}.

(** The body of [foreach(lc, cstate->base.attnumlist)].  An [attnum]
    outside the descriptor or the arrays is an out-of-bounds access. *)
Definition decode_column (desc : list FormData_pg_attribute) (jb : Jsonb)
    (a : row_arrays) (attnum : Z) : outcome row_arrays :=
  let i := Z.to_nat (attnum - 1) in
  match desc !! i with
  | Some att =>
      if decide (1 <= attnum /\ (i < length (values a))%nat /\
                 (i < length (nulls a))%nat) then
        match getKeyJsonValueFromContainer jb (attname att) with
        | None | Some jbvNull =>
            Ok {| values := values a; nulls := <[i := true]> (nulls a);
                  buf := buf a |}
        | Some v =>
            str ← GetJsonbValueAsCString v (buf a);
            match InputFunctionCall (atttypid att) (c_str str) (atttypmod att) with
            | Some d =>
                Ok {| values := <[i := d]> (values a);
                      nulls := <[i := false]> (nulls a); buf := [] |}
            | None => Raise (ErrConvert str (attname att))
            end
        end
      else Undefined
  | None => Undefined
  end.

Fixpoint foreach_attnum (desc : list FormData_pg_attribute) (jb : Jsonb)
    (attnums : list Z) (a : row_arrays) : outcome row_arrays :=
  match attnums with
  | [] => Ok a
  | attnum :: rest =>
      a' ← decode_column desc jb a attnum;
      foreach_attnum desc jb rest a'
  end.

(** What [JsonLinesCopyFromOneRow] hands back: its return value, the state,
    the caller's arrays and [*rowinfo] when the pointer is not NULL. *)
Record row_result : Type := {
  returned : bool;
  state_after : CopyFromStateJsonLines;
  values_after : list Datum;
  nulls_after : list bool;
  rowinfo_after : option CopyFromRowInfo
}.

(** [JsonLinesCopyFromOneRow] after the line is in [line_buf]. *)
Definition decode_line (cstate : CopyFromStateJsonLines)
    (values0 : list Datum) (nulls0 : list bool)
    (rowinfo : option CopyFromRowInfo) : outcome row_result :=
  match jsonb_in (c_str (line_buf cstate)) with
  | None => Raise ErrInvalidJsonb
  | Some jb =>
      a ← foreach_attnum (tupdesc (base cstate)) jb (attnumlist (base cstate))
             {| values := values0; nulls := nulls0; buf := [] |};
      mret {| returned := true; state_after := cstate;
              values_after := values a; nulls_after := nulls a;
              rowinfo_after :=
                (fun _ => {| lineno := cur_lineno (base cstate);
                             tuplen := Z.of_nat (length (line_buf cstate)) |})
                  <$> rowinfo |}
  end.

Definition JsonLinesCopyFromOneRow (fuel : nat) (cstate : CopyFromStateJsonLines)
    (values0 : list Datum) (nulls0 : list bool)
    (rowinfo : option CopyFromRowInfo) : option (outcome row_result) :=
  match JsonLineReadLine fuel cstate with
  | None => None
  | Some (Ok (true, cstate1)) =>
      Some (Ok {| returned := false; state_after := cstate1;
                  values_after := values0; nulls_after := nulls0;
                  rowinfo_after := rowinfo |})
  | Some (Ok (false, cstate1)) => Some (decode_line cstate1 values0 nulls0 rowinfo)
  | Some (Raise e) => Some (Raise e)
  | Some Undefined => Some Undefined
  end.

(** A cell of the decoded row as the executor reads it: the value counts
    only under a false null flag. *)
Definition cell (vs : list Datum) (ns : list bool) (i : nat) : option Datum :=
  match ns !! i with
  | Some false => vs !! i
  | _ => None
  end.

Definition cells (vs : list Datum) (ns : list bool) : list (option Datum) :=
  (fun i => cell vs ns i) <$> seq 0 (length ns).

(** The driver of the read path: call the one-row routine until it
    returns false, collecting the rows; [rows_fuel] bounds the calls. *)
Fixpoint CopyFrom (rows_fuel fuel : nat) (cstate : CopyFromStateJsonLines)
    (values0 : list Datum) (nulls0 : list bool)
    : option (outcome (list (list (option Datum)))) :=
  match rows_fuel with
  | O => None
  | S rows_fuel' =>
      match JsonLinesCopyFromOneRow fuel cstate values0 nulls0 None with
      | None => None
      | Some (Ok r) =>
          if returned r then
            match CopyFrom rows_fuel' fuel (state_after r)
                           (values_after r) (nulls_after r) with
            | Some (Ok rows) =>
                Some (Ok (cells (values_after r) (nulls_after r) :: rows))
            | other => other
            end
          else Some (Ok [])
      | Some (Raise e) => Some (Raise e)
      | Some Undefined => Some Undefined
      end
  end.

End ReadPath.

(** ** Write path *)

Section WritePath.
Context {host_types : HostTypes} {host : Host}.

(** The zlib calls of the write path, in order. *)
Inductive zcall : Type :=
| CallDeflate (flush : Z) (avail_in : Z)
| CallDeflateEnd.

(** [CopyToStateJsonLines].  [sink] is what [CopyToFlushData] has handed
    to the destination so far, [zcalls] the calls made on [strm]. *)
Record CopyToStateJsonLines : Type := {
  fe_msgbuf : list byte;
  sink : list byte;
  options_compression : pg_compress_algorithm;
  compression_detail_str : option (list byte);
  compression_level : Z;
  to_strm : z_state;
  inbuf : list byte;
  zcalls : list zcall
}.

Definition set_out (msgbuf out : list byte) (c : CopyToStateJsonLines)
    : CopyToStateJsonLines :=
  {| fe_msgbuf := msgbuf; sink := out;
     options_compression := options_compression c;
     compression_detail_str := compression_detail_str c;
     compression_level := compression_level c;
     to_strm := to_strm c; inbuf := inbuf c; zcalls := zcalls c |}.

Definition set_level (level : Z) (c : CopyToStateJsonLines)
    : CopyToStateJsonLines :=
  {| fe_msgbuf := fe_msgbuf c; sink := sink c;
     options_compression := options_compression c;
     compression_detail_str := compression_detail_str c;
     compression_level := level;
     to_strm := to_strm c; inbuf := inbuf c; zcalls := zcalls c |}.

Definition set_to_strm (s : z_state) (call : list zcall) (c : CopyToStateJsonLines)
    : CopyToStateJsonLines :=
  {| fe_msgbuf := fe_msgbuf c; sink := sink c;
     options_compression := options_compression c;
     compression_detail_str := compression_detail_str c;
     compression_level := compression_level c;
     to_strm := s; inbuf := inbuf c; zcalls := zcalls c ++ call |}.

Definition set_inbuf (v : list byte) (c : CopyToStateJsonLines)
    : CopyToStateJsonLines :=
  {| fe_msgbuf := fe_msgbuf c; sink := sink c;
     options_compression := options_compression c;
     compression_detail_str := compression_detail_str c;
     compression_level := compression_level c;
     to_strm := to_strm c; inbuf := v; zcalls := zcalls c |}.

(** [CopyToFlushData]: send [fe_msgbuf] and reset it. *)
Definition CopyToFlushData (c : CopyToStateJsonLines) : CopyToStateJsonLines :=
  set_out [] (sink c ++ fe_msgbuf c) c.

Definition initialize_deflate_gzip (level : Z) : outcome z_state :=
  match deflateInit2 level with
  | Some s => Ok s
  | None => Raise ErrCompressionInit
  end.

(** The [do ... while (avail_out == 0)] loop of [write_gzip]; [next_in]
    is what [strm.next_in] still points at. *)
Fixpoint write_gzip_loop (fuel : nat) (cstate : CopyToStateJsonLines)
    (next_in : list byte) (flush_flag : Z) : option (outcome CopyToStateJsonLines) :=
  match fuel with
  | O => None
  | S fuel' =>
      let avail_in := Z.of_nat (length next_in) in
      let r := deflate (to_strm cstate) next_in GZIP_CHUNK_SIZE flush_flag in
      let cstate1 := set_to_strm (z_next r) [CallDeflate flush_flag avail_in] cstate in
      if decide (z_ret r = Z_STREAM_ERROR) then Some (Raise ErrCompress)
      else
        let avail_out := GZIP_CHUNK_SIZE - Z.of_nat (length (z_out r)) in
        let written := GZIP_CHUNK_SIZE - avail_out in
        let cstate2 :=
          if decide (written > 0) then
            CopyToFlushData
              (set_out (fe_msgbuf cstate1 ++ take (Z.to_nat written) (z_out r))
                       (sink cstate1) cstate1)
          else cstate1 in
        if decide (avail_out = 0) then
          write_gzip_loop fuel' cstate2
            (drop (Z.to_nat (avail_in - z_avail_in r)) next_in) flush_flag
        else Some (Ok cstate2)
  end.

Definition write_gzip (fuel : nat) (cstate : CopyToStateJsonLines)
    (rowdata : list byte) (flush_flag : Z) : option (outcome CopyToStateJsonLines) :=
  write_gzip_loop fuel cstate (c_str rowdata) flush_flag.

Definition end_deflate_gzip (fuel : nat) (cstate : CopyToStateJsonLines)
    : option (outcome CopyToStateJsonLines) :=
  match write_gzip fuel cstate [] Z_FINISH with
  | Some (Ok cstate1) =>
      Some (Ok (set_to_strm (to_strm cstate1) [CallDeflateEnd] cstate1))
  | other => other
  end.

Definition JsonLinesCopyToStart (cstate : CopyToStateJsonLines)
    : outcome CopyToStateJsonLines :=
  match compress_specification (options_compression cstate)
                               (compression_detail_str cstate) with
  | None => Raise ErrInvalidCompressionSpec
  | Some level =>
      let cstate1 := set_level level cstate in
      match options_compression cstate1 with
      | PG_COMPRESSION_GZIP =>
          s ← initialize_deflate_gzip (compression_level cstate1);
          mret (set_inbuf [] (set_to_strm s [] cstate1))
      | _ => mret cstate1
      end
  end.

Definition JsonLinesCopyToOneRow (fuel : nat) (cstate : CopyToStateJsonLines)
    (slot_values : list Datum) (slot_isnull : list bool)
    : option (outcome CopyToStateJsonLines) :=
  let str := c_str (row_to_json slot_values slot_isnull) in
  match options_compression cstate with
  | PG_COMPRESSION_NONE =>
      Some (Ok (CopyToFlushData
                  (set_out (fe_msgbuf cstate ++ str ++ [NL]) (sink cstate) cstate)))
  | PG_COMPRESSION_GZIP =>
      let cstate1 := set_inbuf (str ++ [NL]) cstate in
      write_gzip fuel cstate1 (inbuf cstate1) Z_NO_FLUSH
  | _ => Some (Ok cstate)
  end.

Definition JsonLinesCopyToEnd (fuel : nat) (cstate : CopyToStateJsonLines)
    : option (outcome CopyToStateJsonLines) :=
  if decide (options_compression cstate = PG_COMPRESSION_GZIP) then
    end_deflate_gzip fuel cstate
  else Some (Ok cstate).

(** The driver of the write path: the one-row routine on every row. *)
Fixpoint CopyToRows (fuel : nat) (cstate : CopyToStateJsonLines)
    (rows : list (list Datum * list bool)) : option (outcome CopyToStateJsonLines) :=
  match rows with
  | [] => Some (Ok cstate)
  | (vs, ns) :: rest =>
      match JsonLinesCopyToOneRow fuel cstate vs ns with
      | Some (Ok cstate') => CopyToRows fuel cstate' rest
      | other => other
      end
  end.

(** Start once, every row, end once. *)
Definition DoCopyTo (fuel : nat) (cstate : CopyToStateJsonLines)
    (rows : list (list Datum * list bool)) : option (outcome CopyToStateJsonLines) :=
  match JsonLinesCopyToStart cstate with
  | Ok cstate1 =>
      match CopyToRows fuel cstate1 rows with
      | Some (Ok cstate2) => JsonLinesCopyToEnd fuel cstate2
      | other => other
      end
  | Raise e => Some (Raise e)
  | Undefined => Some Undefined
  end.

(** A [deflate] call of a per-row write, and one of the finish step. *)
Definition is_row_call (call : zcall) : Prop :=
  exists avail_in, call = CallDeflate Z_NO_FLUSH avail_in.

Definition is_finish_call (call : zcall) : Prop :=
  call = CallDeflate Z_FINISH 0.

Definition is_deflateEnd (call : zcall) : bool :=
  match call with
  | CallDeflateEnd => true
  | CallDeflate _ _ => false
  end.

(** How many times [deflateEnd] was called. *)
Fixpoint count_deflateEnd (calls : list zcall) : nat :=
  match calls with
  | [] => O
  | call :: rest => ((if is_deflateEnd call then 1 else 0) + count_deflateEnd rest)%nat
  end.

(** [deflate] cannot fill the output buffer for ever: each call that
    leaves [avail_out = 0] lowers a measure of what is still to come out. *)
Definition deflate_drains (pending_out : z_state -> list byte -> nat) : Prop :=
  forall s next_in flush,
    let r := deflate s next_in GZIP_CHUNK_SIZE flush in
    GZIP_CHUNK_SIZE - Z.of_nat (length (z_out r)) = 0 ->
    (pending_out (z_next r)
       (drop (Z.to_nat (Z.of_nat (length next_in) - z_avail_in r)) next_in)
     < pending_out s next_in)%nat.

End WritePath.

(** ** Invariants and measures *)

(** The Stream Buffer invariant. *)
Definition stream_buffer_inv (index len capacity : Z) : Prop :=
  0 <= index /\ index <= len /\ len <= capacity.

Section Invariants.
Context {host_types : HostTypes} {host : Host}.

Definition raw_buf_inv (cstate : CopyFromStateJsonLines) : Prop :=
  stream_buffer_inv (raw_buf_index cstate) (raw_buf_len cstate) RAW_BUF_SIZE.

(** The input buffer: the index invariant, and while bytes are unread the
    array holds [input_buf_len] bytes followed by the NUL sentinel. *)
Definition input_buf_inv (cstate : CopyFromStateJsonLines) : Prop :=
  stream_buffer_inv (input_buf_index cstate) (input_buf_len cstate) INPUT_BUF_SIZE /\
  (input_buf_index cstate < input_buf_len cstate ->
   exists data, input_buf cstate = data ++ [NUL] /\
                Z.of_nat (length data) = input_buf_len cstate).

(** What the line reader leaves alone in the base state. *)
Definition same_table (c c' : CopyFromStateJsonLines) : Prop :=
  compression c' = compression c /\
  tupdesc (base c') = tupdesc (base c) /\
  attnumlist (base c') = attnumlist (base c) /\
  cur_lineno (base c') = cur_lineno (base c).

(** The bytes the reader has still to see: unread input, then the source. *)
Definition pending (cstate : CopyFromStateJsonLines) : list byte :=
  unread cstate ++ concat (source (base cstate)).

Definition is_jbvNull (v : JsonbValue) : bool :=
  match v with
  | jbvNull => true
  | _ => false
  end.

(** An [attnum] that stays inside the descriptor and the caller's arrays. *)
Definition in_bounds (desc : list FormData_pg_attribute)
    (vs : list Datum) (ns : list bool) (attnum : Z) : Prop :=
  1 <= attnum /\
  (Z.to_nat (attnum - 1) < length desc)%nat /\
  (Z.to_nat (attnum - 1) < length vs)%nat /\
  (Z.to_nat (attnum - 1) < length ns)%nat.

(** What the decoder owes a column once the row is returned. *)
Definition column_done (desc : list FormData_pg_attribute) (jb : Jsonb)
    (vs : list Datum) (ns : list bool) (i : nat) : Prop :=
  forall att, desc !! i = Some att ->
    ((getKeyJsonValueFromContainer jb (attname att) = None \/
      getKeyJsonValueFromContainer jb (attname att) = Some jbvNull) ->
     ns !! i = Some true /\ cell vs ns i = None) /\
    (forall v, getKeyJsonValueFromContainer jb (attname att) = Some v ->
       v <> jbvNull ->
       exists str d,
         GetJsonbValueAsCString v [] = Ok str /\
         InputFunctionCall (atttypid att) (c_str str) (atttypmod att) = Some d /\
         ns !! i = Some false /\ cell vs ns i = Some d).

(** Turns the uncompressed read loop can still take from a state. *)
Definition turns_left (cstate : CopyFromStateJsonLines) : nat :=
  (2 * (length (source (base cstate)) + length (concat (source (base cstate)))) +
   (if decide (0 < INPUT_BUF_BYTES cstate)%Z then 1 else 0))%nat.

Definition nonempty_chunks (src : list (list byte)) : Prop :=
  Forall (fun chunk => chunk <> []) src.

End Invariants.

(** Turns of the read loop that an uncompressed source can still cause. *)
Definition source_fuel (src : list (list byte)) : nat :=
  (length src + length (concat src))%nat.

Definition read_fuel (src : list (list byte)) : nat :=
  (2 * source_fuel src + 2)%nat.

(** ** Round trip: what is asked of the host *)

Section RoundTripDefs.
Context {host_types : HostTypes} {host : Host}.

(** Every column of the descriptor, in order ([attnumlist] of a COPY without
    a column list). *)
Definition all_attnums (desc : list FormData_pg_attribute) : list Z :=
  Z.of_nat <$> seq 1 (length desc).

(** What the uncompressed write path sends for a list of rows. *)
Definition encode_rows (rows : list (list Datum * list bool)) : list byte :=
  concat ((fun row => c_str (row_to_json row.1 row.2) ++ [NL]) <$> rows).

(** What PostgreSQL's functions owe a cell that is not null, given the
    JSON value [v] found under the column's name: a text cell comes as a
    JSON string whose content the input function of the column's type reads
    back as the cell, a number cell as a JSON number whose [numeric_out]
    text it reads back, a boolean cell as a JSON boolean whose name it
    reads back.  Strings and number texts hold no NUL byte. *)
Definition cell_as_json (att : FormData_pg_attribute) (d : Datum)
    (v : JsonbValue) : Prop :=
  match v with
  | jbvString val =>
      c_string val /\
      InputFunctionCall (atttypid att) val (atttypmod att) = Some d
  | jbvNumeric numeric =>
      c_string (numeric_out numeric) /\
      InputFunctionCall (atttypid att) (numeric_out numeric) (atttypmod att) = Some d
  | jbvBool true =>
      InputFunctionCall (atttypid att) (bs "true") (atttypmod att) = Some d
  | jbvBool false =>
      InputFunctionCall (atttypid att) (bs "false") (atttypmod att) = Some d
  | _ => False
  end.

(** The contract of the host functions on one row of the descriptor:
    [row_to_json] gives a text without raw newline that [jsonb_in] parses to
    an object in which each column's name is absent or null for a null cell
    and otherwise holds the cell as a JSON string, number or boolean. *)
Definition host_carries_row (desc : list FormData_pg_attribute)
    (vs : list Datum) (ns : list bool) : Prop :=
  (NL ∉ c_str (row_to_json vs ns)) /\
  length vs = length desc /\ length ns = length desc /\
  exists jb, jsonb_in (c_str (row_to_json vs ns)) = Some jb /\
    forall i att, desc !! i = Some att ->
      match cell vs ns i with
      | None =>
          getKeyJsonValueFromContainer jb (attname att) = None \/
          getKeyJsonValueFromContainer jb (attname att) = Some jbvNull
      | Some d =>
          exists v, getKeyJsonValueFromContainer jb (attname att) = Some v /\
                    cell_as_json att d v
      end.

End RoundTripDefs.

(** ** States for examples *)

Section ExampleStates.
Context {host_types : HostTypes} {host : Host}.

(** A reader of an uncompressed source, [data] in the input buffer and
    [index] bytes of it consumed. *)
Definition plain_reader (s : z_state) (desc : list FormData_pg_attribute)
    (attnums : list Z) (src : list (list byte)) (data : list byte) (index : Z)
    : CopyFromStateJsonLines :=
  {| base := {| filename := None; source := src; bytes_processed := 0;
                cur_lineno := 0; attnumlist := attnums; tupdesc := desc |};
     compression := PG_COMPRESSION_NONE; strm := s;
     raw_buf := []; raw_buf_index := 0; raw_buf_len := 0;
     line_buf := [];
     input_buf := data ++ [NUL]; input_buf_index := index;
     input_buf_len := Z.of_nat (length data);
     input_reached_eof := false; input_reached_error := false |}.

(** A reader before [JsonLinesCopyFromStart], for the file [name]. *)
Definition unstarted_reader (s : z_state) (name : option (list byte))
    (src : list (list byte)) : CopyFromStateJsonLines :=
  set_base (fun b => {| filename := name; source := source b;
                        bytes_processed := bytes_processed b;
                        cur_lineno := cur_lineno b;
                        attnumlist := attnumlist b; tupdesc := tupdesc b |})
    (plain_reader s [] [] src [] 0).

(** A writer before [JsonLinesCopyToStart]. *)
Definition fresh_writer (s : z_state) (algorithm : pg_compress_algorithm)
    : CopyToStateJsonLines :=
  {| fe_msgbuf := []; sink := []; options_compression := algorithm;
     compression_detail_str := None; compression_level := 0;
     to_strm := s; inbuf := []; zcalls := [] |}.

End ExampleStates.

(** ** A small executable host

    Stand-ins for the PostgreSQL and zlib entry points, used to run the
    model on concrete input: flat JSON objects with string, digit-string,
    boolean and null members; columns named [a], [b], ...; a pass-through
    "compression" that keeps what does not fit in its state. *)

Module Toy.

Inductive toy_json : Type :=
| TNull
| TString (s : list byte)
| TNumber (digits : list byte)
| TBool (b : bool).

Inductive toy_datum : Type :=
| DInt (digits : list byte)
| DText (s : list byte).

Inductive toy_oid : Type := INT4OID | TEXTOID.

Definition toy_types : HostTypes :=
  {| Datum := toy_datum; Numeric := list byte; JsonbContainer := list byte;
     Jsonb := list (list byte * toy_json); z_state := list byte;
     Oid := toy_oid |}.

Definition is_digit (b : byte) : bool :=
  (48 <=? byte_val b) && (byte_val b <=? 57).

Fixpoint span_string (l : list byte) : option (list byte * list byte) :=
  match l with
  | [] => None
  | b :: l' =>
      if decide (b = DQ) then Some ([], l')
      else match span_string l' with
           | Some (s, r) => Some (b :: s, r)
           | None => None
           end
  end.

Fixpoint span_digits (l : list byte) : list byte * list byte :=
  match l with
  | [] => ([], [])
  | b :: l' =>
      if is_digit b then let '(d, r) := span_digits l' in (b :: d, r)
      else ([], l)
  end.

Definition strip_prefix (p l : list byte) : option (list byte) :=
  if decide (take (length p) l = p) then Some (drop (length p) l) else None.

Definition parse_value (l : list byte) : option (toy_json * list byte) :=
  match l with
  | [] => None
  | b :: l' =>
      if decide (b = DQ) then
        match span_string l' with
        | Some (s, r) => Some (TString s, r)
        | None => None
        end
      else
        match strip_prefix (bs "true") l, strip_prefix (bs "false") l,
              strip_prefix (bs "null") l with
        | Some r, _, _ => Some (TBool true, r)
        | _, Some r, _ => Some (TBool false, r)
        | _, _, Some r => Some (TNull, r)
        | _, _, _ =>
            let '(d, r) := span_digits l in
            if decide (d = []) then None else Some (TNumber d, r)
        end
  end.

(** Members from the opening quote of a key to the closing brace. *)
Fixpoint parse_members (fuel : nat) (l : list byte)
    : option (list (list byte * toy_json)) :=
  match fuel with
  | O => None
  | S fuel' =>
      match l with
      | [] => None
      | q :: l1 =>
          if decide (q = DQ) then
            match span_string l1 with
            | Some (k, colon :: r2) =>
                if decide (colon = x3a) then
                  match parse_value r2 with
                  | Some (v, [close]) =>
                      if decide (close = x7d) then Some [(k, v)] else None
                  | Some (v, comma :: r4) =>
                      if decide (comma = x2c) then
                        match parse_members fuel' r4 with
                        | Some rest => Some ((k, v) :: rest)
                        | None => None
                        end
                      else None
                  | _ => None
                  end
                else None
            | _ => None
            end
          else None
      end
  end.

Definition toy_jsonb_in (text : list byte) : option (list (list byte * toy_json)) :=
  match text with
  | [] => None
  | open :: l =>
      if decide (open = x7b) then
        if decide (l = [x7d]) then Some [] else parse_members (length l) l
      else None
  end.

Fixpoint toy_lookup (jb : list (list byte * toy_json)) (key : list byte)
    : option toy_json :=
  match jb with
  | [] => None
  | (k, v) :: jb' => if decide (k = key) then Some v else toy_lookup jb' key
  end.

Definition toy_value (v : toy_json) : @JsonbValue toy_types :=
  match v with
  | TNull => jbvNull
  | TString s => jbvString s
  | TNumber d => @jbvNumeric toy_types d
  | TBool b => jbvBool b
  end.

Definition toy_input (oid : toy_oid) (text : list byte) (typmod : Z)
    : option toy_datum :=
  match oid with
  | INT4OID =>
      if decide (text <> []) then
        if forallb is_digit text then Some (DInt text) else None
      else None
  | TEXTOID => Some (DText text)
  end.

Definition toy_member (name : byte) (d : toy_datum) (isnull : bool) : list byte :=
  [DQ; name; DQ; x3a] ++
  (if isnull then bs "null"
   else match d with
        | DInt digits => digits
        | DText s => [DQ] ++ s ++ [DQ]
        end).

Fixpoint toy_members (name : nat) (vs : list toy_datum) (ns : list bool)
    : list (list byte) :=
  match vs, ns with
  | d :: vs', n :: ns' =>
      match Byte.of_nat name with
      | Some b => toy_member b d n :: toy_members (S name) vs' ns'
      | None => []
      end
  | _, _ => []
  end.

Fixpoint join_comma (parts : list (list byte)) : list byte :=
  match parts with
  | [] => []
  | [p] => p
  | p :: rest => p ++ [x2c] ++ join_comma rest
  end.

Definition toy_row_to_json (vs : list toy_datum) (ns : list bool) : list byte :=
  [x7b] ++ join_comma (toy_members 97 vs ns) ++ [x7d].

Definition toy_inflate (s input : list byte) (avail_out flush : Z)
    : @z_result toy_types :=
  let out := take (Z.to_nat avail_out) input in
  @Build_z_result toy_types Z_OK s
    (Z.of_nat (length input) - Z.of_nat (length out)) out.

Definition toy_deflate (s input : list byte) (avail_out flush : Z)
    : @z_result toy_types :=
  let all := s ++ input in
  @Build_z_result toy_types Z_OK (drop (Z.to_nat avail_out) all) 0
    (take (Z.to_nat avail_out) all).

Definition toy_host : @Host toy_types :=
  @Build_Host toy_types
    toy_jsonb_in
    (fun jb key => toy_value <$> toy_lookup jb key)
    (fun numeric => numeric)
    (fun container => container)
    toy_input
    toy_row_to_json
    (fun _ => Some [])
    toy_inflate
    (fun _ => Some [])
    toy_deflate
    (fun _ _ => Some 6).

(** A gzip reader of the schema over the raw chunks [src]. *)
Definition gzip_reader (src : list (list byte)) : @CopyFromStateJsonLines toy_types :=
  set_compression PG_COMPRESSION_GZIP (@plain_reader toy_types [] [] [] src [] 0).

(** What is still to come out of the toy [deflate]. *)
Definition toy_pending_out (s next_in : list byte) : nat :=
  (length s + length next_in)%nat.

(** The schema [(a int, b text)]. *)
Definition att_a : @FormData_pg_attribute toy_types :=
  @Build_FormData_pg_attribute toy_types (bs "a") INT4OID (-1).
Definition att_b : @FormData_pg_attribute toy_types :=
  @Build_FormData_pg_attribute toy_types (bs "b") TEXTOID (-1).
Definition desc_ab : list (@FormData_pg_attribute toy_types) := [att_a; att_b].

(** The lines [{"a":1,"b":"x"}] and [{"a":2,"b":null}] of the scenario. *)
Definition line_1x : list byte :=
  [x7b; DQ; x61; DQ; x3a; x31; x2c; DQ; x62; DQ; x3a; DQ; x78; DQ; x7d].
Definition line_2null : list byte :=
  [x7b; DQ; x61; DQ; x3a; x32; x2c; DQ; x62; DQ; x3a] ++ bs "null" ++ [x7d].

(** A drained reader of the schema over the chunks [src]. *)
Definition reader_of (src : list (list byte)) : @CopyFromStateJsonLines toy_types :=
  @plain_reader toy_types [] desc_ab [1; 2] src [] 0.

(** A reader with [data] unread in its input buffer and nothing behind. *)
Definition reader_holding (data : list byte) : @CopyFromStateJsonLines toy_types :=
  @plain_reader toy_types [] desc_ab [1; 2] [] data 0.

(** The bytes [a NUL b]. *)
Definition a_nul_b : list byte := [x61; x00; x62].

(** The reader once [line] and its newline, alone in the input buffer,
    have been read. *)
Definition reader_after (line : list byte) : @CopyFromStateJsonLines toy_types :=
  set_input ((line ++ [NL]) ++ [NUL])
    (Z.of_nat (length line) + 1) (Z.of_nat (length (line ++ [NL])))
    (set_line_buf line (reader_holding (line ++ [NL]))).

(** [{"a":1,"z":true}]: no key [b], a key [z] that names no column. *)
Definition line_1_extra : list byte :=
  [x7b; DQ; x61; DQ; x3a; x31; x2c; DQ; x7a; DQ; x3a] ++ bs "true" ++ [x7d].

(** [{"a":1}]: the same without the key [z]. *)
Definition line_1_only : list byte := [x7b; DQ; x61; DQ; x3a; x31; x7d].

(** [{"a":"x","b":"y"}]: the text [x] is no integer. *)
Definition line_bad_int : list byte :=
  [x7b; DQ; x61; DQ; x3a; DQ; x78; DQ; x2c; DQ; x62; DQ; x3a; DQ; x79; DQ; x7d].

(** [{"a":]: not a JSON value. *)
Definition line_not_json : list byte := [x7b; DQ; x61; DQ; x3a].

(** The rows [(1, "x")] and [(2, NULL)] as slots: values and null flags. *)
Definition two_rows : list (list (@Datum toy_types) * list bool) :=
  [([DInt (bs "1"); DText (bs "x")], [false; false]);
   ([DInt (bs "2"); DText (bs "x")], [false; true])].

(** The two lines of the scenario, each with its newline. *)
Definition two_lines : list byte := line_1x ++ [NL] ++ line_2null ++ [NL].

(** A writer before the start routine. *)
Definition writer (algorithm : pg_compress_algorithm) : @CopyToStateJsonLines toy_types :=
  @fresh_writer toy_types [] algorithm.

(** The arrays as a row [(9, "old")] left them. *)
Definition old_values : list (@Datum toy_types) := [DInt (bs "9"); DText (bs "old")].
Definition old_nulls : list bool := [false; false].

End Toy.

(** ** Further definitions: whole streams, the raw buffer, write options *)

Section MoreDefs.
Context {host_types : HostTypes} {host : Host}.

(** The bytes of a list of lines, each followed by its newline. *)
Definition lines_stream (lines : list (list byte)) : list byte :=
  concat ((fun line => line ++ [NL]) <$> lines).

(** The rows (or the error) the decoder makes of a list of lines, the
    caller's arrays going from one row to the next as in the driver. *)
Fixpoint decode_lines (desc : list FormData_pg_attribute) (attnums : list Z)
    (lines : list (list byte)) (values0 : list Datum) (nulls0 : list bool)
    : outcome (list (list (option Datum))) :=
  match lines with
  | [] => Ok []
  | line :: rest =>
      match jsonb_in (c_str line) with
      | None => Raise ErrInvalidJsonb
      | Some jb =>
          a ← foreach_attnum desc jb attnums
                 {| values := values0; nulls := nulls0; buf := [] |};
          rows ← decode_lines desc attnums rest (values a) (nulls a);
          mret (cells (values a) (nulls a) :: rows)
      end
  end.

(** The raw buffer holds exactly [raw_buf_len] bytes (what the last
    [CopyFromGetData] stored). *)
Definition raw_buf_filled (cstate : CopyFromStateJsonLines) : Prop :=
  Z.of_nat (length (raw_buf cstate)) = raw_buf_len cstate.

(** The compressed bytes not yet fed to [inflate]. *)
Definition unfed (cstate : CopyFromStateJsonLines) : list byte :=
  buf_slice (raw_buf cstate) (raw_buf_index cstate) (RAW_BUF_BYTES cstate).

(** The result of the one [inflate] call of [read_gzip]. *)
Definition inflate_step (cstate : CopyFromStateJsonLines) : z_result :=
  inflate (strm (refill_raw cstate)) (unfed (refill_raw cstate))
          INPUT_BUF_SIZE Z_NO_FLUSH.

(** Source bytes are either counted in [bytes_processed] or still to come. *)
Definition bytes_seen (cstate : CopyFromStateJsonLines) : Z :=
  bytes_processed (base cstate) +
  Z.of_nat (length (concat (source (base cstate)))).

End MoreDefs.

(** ** Write path: the stream as zlib sees it *)

Section DeflateRuns.
Context {host_types : HostTypes} {host : Host}.

(** One run of the loop of [write_gzip] on a stream in state [s] with
    [next_in] to take in: [deflate] with room for [GZIP_CHUNK_SIZE] bytes,
    again on what it left of the input while it fills that room.  [out] is
    what the calls wrote, in order, [s'] the state they leave, [calls] the
    calls made. *)
Inductive deflate_run (flush : Z)
    : z_state -> list byte -> list byte -> z_state -> list zcall -> Prop :=
| deflate_run_last (s : z_state) (next_in : list byte) :
    z_ret (deflate s next_in GZIP_CHUNK_SIZE flush) <> Z_STREAM_ERROR ->
    GZIP_CHUNK_SIZE -
      Z.of_nat (length (z_out (deflate s next_in GZIP_CHUNK_SIZE flush))) <> 0 ->
    deflate_run flush s next_in
      (z_out (deflate s next_in GZIP_CHUNK_SIZE flush))
      (z_next (deflate s next_in GZIP_CHUNK_SIZE flush))
      [CallDeflate flush (Z.of_nat (length next_in))]
| deflate_run_more (s : z_state) (next_in out : list byte) (s' : z_state)
    (calls : list zcall) :
    z_ret (deflate s next_in GZIP_CHUNK_SIZE flush) <> Z_STREAM_ERROR ->
    GZIP_CHUNK_SIZE -
      Z.of_nat (length (z_out (deflate s next_in GZIP_CHUNK_SIZE flush))) = 0 ->
    deflate_run flush
      (z_next (deflate s next_in GZIP_CHUNK_SIZE flush))
      (drop (Z.to_nat (Z.of_nat (length next_in) -
                       z_avail_in (deflate s next_in GZIP_CHUNK_SIZE flush)))
            next_in)
      out s' calls ->
    deflate_run flush s next_in
      (z_out (deflate s next_in GZIP_CHUNK_SIZE flush) ++ out) s'
      (CallDeflate flush (Z.of_nat (length next_in)) :: calls).

(** The runs of the per-row writes of a list of rows, one after the other
    on the same stream: each row's JSON text and a newline, without flush. *)
Inductive rows_run
    : z_state -> list (list Datum * list bool) -> list byte -> z_state ->
      list zcall -> Prop :=
| rows_run_nil (s : z_state) : rows_run s [] [] s []
| rows_run_cons (s : z_state) (vs : list Datum) (ns : list bool)
    (rows : list (list Datum * list bool)) (out1 : list byte) (s1 : z_state)
    (calls1 : list zcall) (out : list byte) (s' : z_state) (calls : list zcall) :
    deflate_run Z_NO_FLUSH s (c_str (c_str (row_to_json vs ns) ++ [NL]))
      out1 s1 calls1 ->
    rows_run s1 rows out s' calls ->
    rows_run s ((vs, ns) :: rows) (out1 ++ out) s' (calls1 ++ calls).

End DeflateRuns.

(** ** Write path: the options of the format *)

Section WriteOptions.
Context {host_types : HostTypes} {host : Host}.

(** [parse_compress_algorithm] of PostgreSQL: the algorithm a name stands
    for, if any. *)
Variable parse_compress_algorithm : list byte -> option pg_compress_algorithm.

(** A [DefElem] as the routine reads it: its name and what [defGetString]
    returns for its value. *)
Record DefElem : Type := {
  defname : list byte;
  defGetString : list byte
}.

Inductive option_error : Type :=
| ErrUnrecognizedAlgorithm (optval : list byte)
| ErrLZ4NotSupported
| ErrZstdNotSupported.

(** The return value of the routine and the state it leaves, or its error. *)
Inductive option_outcome : Type :=
| OptionDone (handled : bool) (cstate : CopyToStateJsonLines)
| OptionRaise (e : option_error).

Definition set_options_compression (v : pg_compress_algorithm)
    (c : CopyToStateJsonLines) : CopyToStateJsonLines :=
  {| fe_msgbuf := fe_msgbuf c; sink := sink c;
     options_compression := v;
     compression_detail_str := compression_detail_str c;
     compression_level := compression_level c;
     to_strm := to_strm c; inbuf := inbuf c; zcalls := zcalls c |}.

Definition set_compression_detail_str (v : option (list byte))
    (c : CopyToStateJsonLines) : CopyToStateJsonLines :=
  {| fe_msgbuf := fe_msgbuf c; sink := sink c;
     options_compression := options_compression c;
     compression_detail_str := v;
     compression_level := compression_level c;
     to_strm := to_strm c; inbuf := inbuf c; zcalls := zcalls c |}.

Definition JsonLinesCopyToProcessOneOption (cstate : CopyToStateJsonLines)
    (option : DefElem) : option_outcome :=
  if decide (strcmp (defname option) (bs "compression") = 0) then
    let optval := defGetString option in
    match parse_compress_algorithm optval with
    | None => OptionRaise (ErrUnrecognizedAlgorithm optval)
    | Some algorithm =>
        let cstate1 := set_options_compression algorithm cstate in
        if decide (options_compression cstate1 = PG_COMPRESSION_LZ4) then
          OptionRaise ErrLZ4NotSupported
        else if decide (options_compression cstate1 = PG_COMPRESSION_ZSTD) then
          OptionRaise ErrZstdNotSupported
        else OptionDone true cstate1
    end
  else if decide (strcmp (defname option) (bs "compression_detail") = 0) then
    OptionDone true
      (set_compression_detail_str (Some (defGetString option)) cstate)
  else OptionDone false cstate.

(** The algorithms the write path implements. *)
Definition implemented (algorithm : pg_compress_algorithm) : Prop :=
  algorithm = PG_COMPRESSION_NONE \/ algorithm = PG_COMPRESSION_GZIP.

End WriteOptions.

(** ** Further example states *)

Module ToyMore.

(** A reader of the schema that copies column [b] only, [line] read. *)
Definition reader_b_only (line : list byte) : @CopyFromStateJsonLines Toy.toy_types :=
  set_line_buf line (@plain_reader Toy.toy_types [] Toy.desc_ab [2] [] [] 0).

(** A reader of the schema that copies [b] before [a], [data] unread. *)
Definition reader_b_then_a (data : list byte) : @CopyFromStateJsonLines Toy.toy_types :=
  @plain_reader Toy.toy_types [] Toy.desc_ab [2; 1] [] data 0.

(** The object of [{"a":2,"b":null}]. *)
Definition object_2null : @Jsonb Toy.toy_types :=
  [(bs "a", Toy.TNumber (bs "2")); (bs "b", Toy.TNull)].

(** The lines of the scenario and an unterminated [{"a":], cut into three
    chunks in the middle of the lines. *)
Definition ragged_chunks : list (list byte) :=
  [take 5 Toy.line_1x;
   drop 5 Toy.line_1x ++ [NL] ++ take 3 Toy.line_2null;
   drop 3 Toy.line_2null ++ [NL] ++ Toy.line_not_json].

(** A stricter toy zlib for the read path: a fresh stream wants the two
    magic bytes of gzip, eats them without output and fails on anything
    else; after them it passes the bytes through. *)
Definition Z_DATA_ERROR : Z := -3.

Definition strict_inflate (s input : list byte) (avail_out flush : Z)
    : @z_result Toy.toy_types :=
  match s with
  | [] =>
      match input with
      | x1f :: x8b :: rest =>
          @Build_z_result Toy.toy_types Z_OK [x01] (Z.of_nat (length rest)) []
      | _ =>
          @Build_z_result Toy.toy_types Z_DATA_ERROR s (Z.of_nat (length input)) []
      end
  | _ => Toy.toy_inflate s input avail_out flush
  end.

Definition strict_host : @Host Toy.toy_types :=
  @Build_Host Toy.toy_types
    Toy.toy_jsonb_in
    (fun jb key => Toy.toy_value <$> Toy.toy_lookup jb key)
    (fun numeric => numeric)
    (fun container => container)
    Toy.toy_input
    Toy.toy_row_to_json
    (fun _ => Some [])
    strict_inflate
    (fun _ => Some [])
    Toy.toy_deflate
    (fun _ _ => Some 6).

(** A compressed source whose first chunk is the gzip magic alone, with a
    whole line behind it. *)
Definition magic_then_line : list (list byte) := [[x1f; x8b]; Toy.line_1x ++ [NL]].

(** The algorithm names of PostgreSQL. *)
Definition toy_parse (name : list byte) : option pg_compress_algorithm :=
  if decide (name = bs "none") then Some PG_COMPRESSION_NONE
  else if decide (name = bs "gzip") then Some PG_COMPRESSION_GZIP
  else if decide (name = bs "lz4") then Some PG_COMPRESSION_LZ4
  else if decide (name = bs "zstd") then Some PG_COMPRESSION_ZSTD
  else None.

(** A reader before the start routine, for the file [name]. *)
Definition reader_for (name : list byte) : @CopyFromStateJsonLines Toy.toy_types :=
  @unstarted_reader Toy.toy_types [] (Some name) [].

Definition object_nul_blank : list byte := Toy.line_1x ++ [NUL; NL; NL].

(** A toy [deflate] that holds everything back until the finish: without
    the finish hint it takes the input in and writes nothing, with it it
    writes what it holds, as much as fits. *)
Definition holding_deflate (s input : list byte) (avail_out flush : Z)
    : @z_result Toy.toy_types :=
  if decide (flush = Z_FINISH) then
    @Build_z_result Toy.toy_types Z_OK
      (drop (Z.to_nat avail_out) (s ++ input)) 0
      (take (Z.to_nat avail_out) (s ++ input))
  else @Build_z_result Toy.toy_types Z_OK (s ++ input) 0 [].

Definition holding_host : @Host Toy.toy_types :=
  @Build_Host Toy.toy_types
    Toy.toy_jsonb_in
    (fun jb key => Toy.toy_value <$> Toy.toy_lookup jb key)
    (fun numeric => numeric)
    (fun container => container)
    Toy.toy_input
    Toy.toy_row_to_json
    (fun _ => Some [])
    Toy.toy_inflate
    (fun _ => Some [])
    holding_deflate
    (fun _ _ => Some 6).

(** A toy host with integer, text and boolean columns. *)
Inductive typed_datum : Type :=
| VInt (digits : list byte)
| VText (s : list byte)
| VBool (b : bool).

Inductive typed_oid : Type := OID_INT4 | OID_TEXT | OID_BOOL.

Definition typed_types : HostTypes :=
  {| Datum := typed_datum; Numeric := list byte; JsonbContainer := list byte;
     Jsonb := list (list byte * Toy.toy_json); z_state := list byte;
     Oid := typed_oid |}.

Definition typed_value (v : Toy.toy_json) : @JsonbValue typed_types :=
  match v with
  | Toy.TNull => jbvNull
  | Toy.TString s => jbvString s
  | Toy.TNumber d => @jbvNumeric typed_types d
  | Toy.TBool b => jbvBool b
  end.

Definition typed_input (oid : typed_oid) (text : list byte) (typmod : Z)
    : option typed_datum :=
  match oid with
  | OID_INT4 =>
      if decide (text <> []) then
        if forallb Toy.is_digit text then Some (VInt text) else None
      else None
  | OID_TEXT => Some (VText text)
  | OID_BOOL =>
      if decide (text = bs "true") then Some (VBool true)
      else if decide (text = bs "false") then Some (VBool false)
      else None
  end.

Definition typed_member (name : byte) (d : typed_datum) (isnull : bool)
    : list byte :=
  [DQ; name; DQ; x3a] ++
  (if isnull then bs "null"
   else match d with
        | VInt digits => digits
        | VText s => [DQ] ++ s ++ [DQ]
        | VBool b => if b then bs "true" else bs "false"
        end).

Fixpoint typed_members (name : nat) (vs : list typed_datum) (ns : list bool)
    : list (list byte) :=
  match vs, ns with
  | d :: vs', n :: ns' =>
      match Byte.of_nat name with
      | Some b => typed_member b d n :: typed_members (S name) vs' ns'
      | None => []
      end
  | _, _ => []
  end.

Definition typed_row_to_json (vs : list typed_datum) (ns : list bool) : list byte :=
  [x7b] ++ Toy.join_comma (typed_members 97 vs ns) ++ [x7d].

Definition typed_host : @Host typed_types :=
  @Build_Host typed_types
    Toy.toy_jsonb_in
    (fun jb key => typed_value <$> Toy.toy_lookup jb key)
    (fun numeric => numeric)
    (fun container => container)
    typed_input
    typed_row_to_json
    (fun _ => Some [])
    (fun s input avail_out flush =>
       @Build_z_result typed_types Z_OK s
         (Z.of_nat (length input) -
          Z.of_nat (length (take (Z.to_nat avail_out) input)))
         (take (Z.to_nat avail_out) input))
    (fun _ => Some [])
    (fun s input avail_out flush =>
       @Build_z_result typed_types Z_OK (drop (Z.to_nat avail_out) (s ++ input)) 0
         (take (Z.to_nat avail_out) (s ++ input)))
    (fun _ _ => Some 6).

(** The schema [(a int, b text, c boolean)]. *)
Definition desc_abc : list (@FormData_pg_attribute typed_types) :=
  [@Build_FormData_pg_attribute typed_types (bs "a") OID_INT4 (-1);
   @Build_FormData_pg_attribute typed_types (bs "b") OID_TEXT (-1);
   @Build_FormData_pg_attribute typed_types (bs "c") OID_BOOL (-1)].

(** The rows [(1, "x", true)] and [(2, NULL, false)] as slots. *)
Definition typed_rows : list (list typed_datum * list bool) :=
  [([VInt (bs "1"); VText (bs "x"); VBool true], [false; false; false]);
   ([VInt (bs "2"); VText (bs "x"); VBool false], [false; true; false])].

(** The lines [{"a":1,"b":"x","c":true}] and [{"a":2,"b":null,"c":false}],
    each with its newline. *)
Definition typed_lines : list byte :=
  ([x7b; DQ; x61; DQ; x3a; x31; x2c; DQ; x62; DQ; x3a; DQ; x78; DQ; x2c;
    DQ; x63; DQ; x3a] ++ bs "true" ++ [x7d; NL]) ++
  ([x7b; DQ; x61; DQ; x3a; x32; x2c; DQ; x62; DQ; x3a] ++ bs "null" ++
   [x2c; DQ; x63; DQ; x3a] ++ bs "false" ++ [x7d; NL]).

Definition typed_writer : @CopyToStateJsonLines typed_types :=
  @fresh_writer typed_types [] PG_COMPRESSION_NONE.

(** A drained reader of the schema over the chunks [src]. *)
Definition typed_reader (src : list (list byte)) : @CopyFromStateJsonLines typed_types :=
  @plain_reader typed_types [] desc_abc [1; 2; 3] src [] 0.

End ToyMore.

(** ** Proof steps used more than once *)

(** Closed goals over decidable propositions, by evaluation. *)
Ltac by_compute := apply (bool_decide_unpack _); vm_compute; exact I.

(** The invariant of an example reader. *)
Ltac example_inv :=
  split;
  [ unfold stream_buffer_inv, INPUT_BUF_SIZE; simpl; lia
  | intros _; eexists; split; reflexivity ].

(** Lookups in an array after a store. *)
Ltac lookup_insert :=
  repeat first
    [ rewrite list_lookup_insert_eq by lia
    | rewrite list_lookup_insert_ne by done ].

(** * Properties *)

(** ** C strings *)

Lemma c_str_c_string (s : list byte) : c_string s -> c_str s = s.
Proof.
  induction 1 as [|b s Hb _ IH]; simpl; [done|].
  destruct (decide (b = NUL)); [done|]. by rewrite IH.
Qed.

Lemma c_str_is_c_string (mem : list byte) : c_string (c_str mem).
Proof.
  induction mem as [|b mem IH]; simpl; [constructor|].
  destruct (decide (b = NUL)); [constructor|]. by constructor.
Qed.

Lemma c_str_idemp (mem : list byte) : c_str (c_str mem) = c_str mem.
Proof. apply c_str_c_string, c_str_is_c_string. Qed.

(** The scan finds the first newline when no NUL comes before it. *)
Lemma strchr_first (l r : list byte) :
  NL ∉ l -> NUL ∉ l -> strchr (l ++ NL :: r) NL = Some (length l).
Proof.
  induction l as [|b l IH]; simpl; intros Hnl Hnul.
  - by destruct (decide (NL = NL)).
  - apply not_elem_of_cons in Hnl as [? ?], Hnul as [? ?].
    destruct (decide (b = NL)); [congruence|].
    destruct (decide (b = NUL)); [congruence|].
    by rewrite IH.
Qed.

(** Without a newline before the sentinel the scan returns NULL. *)
Lemma strchr_none (l r : list byte) :
  NL ∉ l -> strchr (l ++ NUL :: r) NL = None.
Proof.
  induction l as [|b l IH]; simpl; intros Hnl.
  - destruct (decide (NUL = NL)); [discriminate|]. by destruct (decide (NUL = NUL)).
  - apply not_elem_of_cons in Hnl as [? ?].
    destruct (decide (b = NL)); [congruence|].
    destruct (decide (b = NUL)); [done|]. by rewrite IH.
Qed.

(** What a successful scan has skipped and found. *)
Lemma strchr_Some (mem : list byte) (k : nat) :
  strchr mem NL = Some k ->
  mem !! k = Some NL /\ (NL ∉ take k mem) /\ (NUL ∉ take k mem).
Proof.
  revert k. induction mem as [|b mem IH]; simpl; intros k H; [done|].
  destruct (decide (b = NL)) as [->|Hb].
  - injection H as <-. simpl. split; [done|]. split; apply not_elem_of_nil.
  - destruct (decide (b = NUL)) as [|Hb0]; [done|].
    destruct (strchr mem NL) as [k'|] eqn:E; [|done].
    injection H as <-. destruct (IH k' eq_refl) as (? & ? & ?).
    simpl. split; [done|].
    split; apply not_elem_of_cons; split; congruence.
Qed.

Lemma strchr_None (mem : list byte) :
  strchr mem NL = None ->
  NL ∉ c_str mem.
Proof.
  induction mem as [|b mem IH]; simpl; intros H; [apply not_elem_of_nil|].
  destruct (decide (b = NL)); [done|].
  destruct (decide (b = NUL)); [apply not_elem_of_nil|].
  destruct (strchr mem NL); [done|].
  apply not_elem_of_cons. split; [congruence|by apply IH].
Qed.

(** ** The line reader, one turn at a time *)

Section LineReader.
Context {host_types : HostTypes} {host : Host}.

Lemma unread_drained (c : CopyFromStateJsonLines) :
  INPUT_BUF_BYTES c <= 0 -> unread c = [].
Proof.
  intros H. unfold unread, buf_slice.
  replace (Z.to_nat (INPUT_BUF_BYTES c)) with O by lia. apply take_0.
Qed.

Lemma unread_terminated (c : CopyFromStateJsonLines) :
  input_buf_inv c -> input_buf_index c < input_buf_len c ->
  drop (Z.to_nat (input_buf_index c)) (input_buf c) = unread c ++ [NUL] /\
  Z.of_nat (length (unread c)) = INPUT_BUF_BYTES c.
Proof.
  intros [(Hi & Hl & Hc) Hs] Hlt. destruct (Hs Hlt) as (data & Hbuf & Hlen).
  unfold unread, buf_slice, INPUT_BUF_BYTES. rewrite Hbuf.
  rewrite drop_app_le by lia.
  rewrite take_app_le by (rewrite length_drop; lia).
  rewrite take_ge by (rewrite length_drop; lia).
  split; [done|]. rewrite length_drop. lia.
Qed.

Lemma unread_length (c : CopyFromStateJsonLines) :
  input_buf_inv c -> Z.of_nat (length (unread c)) = INPUT_BUF_BYTES c.
Proof.
  intros Hinv. destruct (decide (input_buf_index c < input_buf_len c)) as [Hlt|Hge].
  - by apply unread_terminated.
  - destruct Hinv as [(? & ? & ?) _].
    rewrite unread_drained; unfold INPUT_BUF_BYTES; simpl; lia.
Qed.

(** The scan found no newline: the whole unread portion goes to the line
    buffer, the input buffer is marked consumed and the loop goes on. *)
Lemma scan_newline_none (c : CopyFromStateJsonLines) :
  input_buf_inv c -> 0 < INPUT_BUF_BYTES c ->
  strchr (unread c ++ [NUL]) NL = None ->
  exists c', scan_newline c = Continue c' /\
    line_buf c' = line_buf c ++ unread c /\
    input_buf_index c' = input_buf_len c /\
    input_buf_len c' = input_buf_len c /\
    INPUT_BUF_BYTES c' = 0 /\
    base c' = base c /\ same_table c c' /\ input_buf_inv c' /\
    raw_buf_index c' = raw_buf_index c /\ raw_buf_len c' = raw_buf_len c.
Proof.
  intros Hinv Hpos Hscan. unfold INPUT_BUF_BYTES in Hpos.
  destruct (unread_terminated c Hinv) as [Hdrop Hlen]; [lia|].
  unfold scan_newline. rewrite Hdrop, Hscan.
  eexists; split; [reflexivity|]. simpl.
  destruct Hinv as [(? & ? & ?) _].
  repeat split; simpl; try done; try lia.
  unfold INPUT_BUF_BYTES; simpl; lia.
Qed.

(** The scan found a newline [k] bytes into the unread portion. *)
Lemma scan_newline_some (c : CopyFromStateJsonLines) (k : nat) :
  input_buf_inv c -> 0 < INPUT_BUF_BYTES c ->
  strchr (unread c ++ [NUL]) NL = Some k ->
  (k < length (unread c))%nat /\
  exists c', scan_newline c = Break c' false /\
    line_buf c' = line_buf c ++ take k (unread c) /\
    unread c' = drop (S k) (unread c) /\
    input_buf_index c' = input_buf_index c + Z.of_nat k + 1 /\
    input_buf_len c' = input_buf_len c /\
    base c' = base c /\ same_table c c' /\ input_buf_inv c' /\
    raw_buf_index c' = raw_buf_index c /\ raw_buf_len c' = raw_buf_len c.
Proof.
  intros Hinv Hpos Hscan. unfold INPUT_BUF_BYTES in Hpos.
  destruct (unread_terminated c Hinv) as [Hdrop Hlen]; [lia|].
  destruct (strchr_Some _ _ Hscan) as (Hk & _ & _).
  assert (k < length (unread c))%nat as Hlt.
  { destruct (decide (k < length (unread c))%nat) as [|Hge]; [done|].
    apply lookup_lt_Some in Hk as Hk'. rewrite length_app in Hk'. simpl in Hk'.
    assert (k = length (unread c)) as -> by lia.
    rewrite list_lookup_middle in Hk by done. discriminate. }
  split; [done|].
  unfold scan_newline. rewrite Hdrop, Hscan.
  eexists; split; [reflexivity|]. simpl.
  unfold INPUT_BUF_BYTES in Hlen.
  destruct Hinv as [(Hi & Hl & Hc) Hs].
  assert (line_buf c ++
          buf_slice (input_buf c) (input_buf_index c)
            (input_buf_index c + Z.of_nat k - input_buf_index c) =
          line_buf c ++ take k (unread c)) as ->.
  { f_equal. unfold buf_slice. rewrite Hdrop.
    replace (Z.to_nat (input_buf_index c + Z.of_nat k - input_buf_index c))
      with k by lia.
    apply take_app_le. lia. }
  repeat split; simpl; try done; try lia.
  - remember (unread c) as u eqn:Hu.
    unfold unread, buf_slice, INPUT_BUF_BYTES. simpl.
    replace (Z.to_nat (input_buf_index c +
               (input_buf_index c + Z.of_nat k - input_buf_index c) + 1))
      with (Z.to_nat (input_buf_index c) + S k)%nat by lia.
    rewrite <- drop_drop, Hdrop.
    rewrite drop_app_le by lia.
    rewrite take_app_le by (rewrite length_drop; lia).
    apply take_ge. rewrite length_drop. lia.
  - intros _. apply Hs. lia.
Qed.

(** Where the first newline of a stream falls with respect to a prefix. *)
Lemma split_at_newline (u x L rest : list byte) :
  u ++ x = L ++ NL :: rest -> NL ∉ L ->
  (exists u2, u = L ++ NL :: u2 /\ rest = u2 ++ x) \/
  (exists L2, L = u ++ L2 /\ x = L2 ++ NL :: rest /\ NL ∉ u).
Proof.
  intros Heq Hnl. apply app_eq_inv in Heq as [(k & Hu & Hx)|(k & HL & Hx)].
  - destruct k as [|b k].
    + right. exists []. rewrite app_nil_r in Hu. subst u. simpl in Hx.
      rewrite app_nil_r. done.
    + left. simpl in Hx. injection Hx as <- ->. by exists k.
  - right. exists k. subst L. apply not_elem_of_app in Hnl as [? ?]. done.
Qed.

Lemma CopyFromGetData_spec (src : list (list byte)) (maxread : Z)
    (data : list byte) (rest : list (list byte)) :
  0 < maxread -> CopyFromGetData src maxread = (data, rest) ->
  Z.of_nat (length data) <= maxread /\
  data ++ concat rest = concat src /\
  (source_fuel rest <= source_fuel src)%nat /\
  (data <> [] -> (source_fuel rest < source_fuel src)%nat) /\
  (Forall (fun chunk => chunk <> []) src ->
   Forall (fun chunk => chunk <> []) rest /\ (src <> [] -> data <> [])).
Proof.
  intros Hmax. unfold CopyFromGetData, source_fuel.
  destruct src as [|chunk src].
  { intros [= <- <-]. simpl. split_and!; try done; try lia. }
  destruct (decide (Z.of_nat (length chunk) <= maxread)) as [Hle|Hgt];
    intros [= <- <-]; simpl.
  - rewrite length_app. split_and!; try done; try lia.
    intros Hall. apply Forall_cons in Hall as [Hc Hall]. done.
  - rewrite !length_app, length_take, length_drop.
    rewrite <- (take_drop (Z.to_nat maxread) chunk) at 4.
    rewrite <- app_assoc. split_and!; try done; try lia.
    intros Hall. apply Forall_cons in Hall as [Hc Hall]. split.
    + constructor; [|done].
      intros Hd. apply (f_equal length) in Hd. rewrite length_drop in Hd.
      simpl in Hd. lia.
    + intros _ Hd. apply (f_equal length) in Hd. rewrite length_take in Hd.
      simpl in Hd. lia.
Qed.

(** The refill of the uncompressed path. *)
Lemma load_more_plain (c : CopyFromStateJsonLines) :
  compression c = PG_COMPRESSION_NONE ->
  exists c' data rest,
    CopyFromGetData (source (base c)) INPUT_BUF_SIZE = (data, rest) /\
    load_more c = Ok c' /\
    unread c' = data /\
    INPUT_BUF_BYTES c' = Z.of_nat (length data) /\
    input_buf_index c' = 0 /\
    source (base c') = rest /\
    line_buf c' = line_buf c /\
    same_table c c' /\ input_buf_inv c' /\
    raw_buf_index c' = raw_buf_index c /\ raw_buf_len c' = raw_buf_len c.
Proof.
  intros Hnone. unfold load_more. rewrite Hnone.
  destruct (CopyFromGetData (source (base c)) INPUT_BUF_SIZE) as [data rest] eqn:E.
  assert (0 < INPUT_BUF_SIZE) as Hsize by (unfold INPUT_BUF_SIZE; lia).
  destruct (CopyFromGetData_spec _ _ _ _ Hsize E) as (Hlen & _).
  eexists _, data, rest. split; [done|]. split; [reflexivity|]. simpl.
  unfold same_table, input_buf_inv, stream_buffer_inv. simpl.
  split_and!; try done; try lia.
  - unfold unread, buf_slice, INPUT_BUF_BYTES. simpl.
    rewrite Z.sub_0_r, Nat2Z.id. apply take_app_length.
  - unfold INPUT_BUF_BYTES. simpl. lia.
  - intros _. by exists data.
Qed.

(** One scan over unread bytes of a stream whose next line is [L]. *)
Lemma scan_step (c : CopyFromStateJsonLines) (L rest : list byte) :
  input_buf_inv c -> 0 < INPUT_BUF_BYTES c ->
  pending c = L ++ NL :: rest -> NL ∉ L -> NUL ∉ L ->
  (exists c', scan_newline c = Break c' false /\
     line_buf c' = line_buf c ++ L /\ pending c' = rest /\
     base c' = base c /\ same_table c c' /\ input_buf_inv c') \/
  (exists c' L2, scan_newline c = Continue c' /\
     L = unread c ++ L2 /\
     line_buf c' = line_buf c ++ unread c /\ pending c' = L2 ++ NL :: rest /\
     INPUT_BUF_BYTES c' = 0 /\
     base c' = base c /\ same_table c c' /\ input_buf_inv c').
Proof.
  intros Hinv Hpos Hpend HnlL HnulL. unfold pending in Hpend.
  destruct (split_at_newline _ _ _ _ Hpend HnlL) as [(u2 & Hu & Hrest)|(L2 & HL & Hx & Hnl)].
  - left.
    assert (strchr (unread c ++ [NUL]) NL = Some (length L)) as Hscan.
    { rewrite Hu, <- app_assoc. simpl. by apply strchr_first. }
    destruct (scan_newline_some c _ Hinv Hpos Hscan)
      as (_ & c' & Hs & Hline & Hun & _ & _ & Hbase & Htab & Hinv' & _).
    exists c'. split_and!; try done.
    + rewrite Hline, Hu. by rewrite take_app_length.
    + unfold pending. rewrite Hun, Hbase, Hu.
      change (S (length L)) with (1 + length L)%nat.
      rewrite Nat.add_comm, <- drop_drop, drop_app_length. simpl. by rewrite drop_0.
  - right.
    assert (strchr (unread c ++ [NUL]) NL = None) as Hscan by by apply strchr_none.
    destruct (scan_newline_none c Hinv Hpos Hscan)
      as (c' & Hs & Hline & _ & _ & Hzero & Hbase & Htab & Hinv' & _).
    exists c', L2. split_and!; try done.
    unfold pending. rewrite unread_drained by lia. by rewrite Hbase.
Qed.

(** The loop assembles the next line of the stream, whatever the chunks:
    the line is free of NUL, the source delivers no empty chunk. *)
Lemma read_loop_line (fuel : nat) :
  forall (c : CopyFromStateJsonLines) (L rest : list byte),
  input_buf_inv c -> compression c = PG_COMPRESSION_NONE ->
  nonempty_chunks (source (base c)) ->
  pending c = L ++ NL :: rest -> NL ∉ L -> NUL ∉ L ->
  (turns_left c < fuel)%nat ->
  exists c', JsonLineReadLine_loop fuel c = Some (Ok (false, c')) /\
    line_buf c' = line_buf c ++ L /\ pending c' = rest /\
    same_table c c' /\ input_buf_inv c' /\
    nonempty_chunks (source (base c')) /\
    (source_fuel (source (base c')) <= source_fuel (source (base c)))%nat.
Proof.
  induction fuel as [|fuel IH]; intros c L rest Hinv Hnone Hne Hpend HnlL HnulL Hfuel;
    [lia|].
  simpl. unfold JsonLineReadLine_body.
  destruct (decide (INPUT_BUF_BYTES c <= 0)) as [Hdrained|Hunread].
  - destruct (load_more_plain c Hnone)
      as (c1 & data & src' & Hget & -> & Hun1 & Hbytes1 & _ & Hsrc1 & Hline1 & Htab1 & Hinv1 & _).
    simpl.
    assert (0 < INPUT_BUF_SIZE) as Hsize by (unfold INPUT_BUF_SIZE; lia).
    destruct (CopyFromGetData_spec _ _ _ _ Hsize Hget) as (_ & Hcat & Hle & Hlt & Hne').
    destruct (Hne' Hne) as [Hne1 Hdata].
    unfold pending in Hpend. rewrite unread_drained in Hpend by done. simpl in Hpend.
    assert (data <> []) as Hdata'.
    { apply Hdata. intros E. rewrite E in Hpend. by destruct L. }
    assert (0 < INPUT_BUF_BYTES c1) as Hpos1.
    { rewrite Hbytes1. destruct data; [done|simpl; lia]. }
    destruct (decide (INPUT_BUF_BYTES c1 <= 0)); [lia|]. simpl.
    assert (pending c1 = L ++ NL :: rest) as Hpend1.
    { unfold pending. by rewrite Hun1, Hsrc1, Hcat. }
    specialize (Hlt Hdata'). unfold source_fuel in *.
    destruct (scan_step c1 L rest Hinv1 Hpos1 Hpend1 HnlL HnulL)
      as [(c' & -> & Hl & Hp & Hb & Ht & Hi)|(c' & L2 & -> & HL & Hl & Hp & Hz & Hb & Ht & Hi)].
    + exists c'. rewrite Hb, Hsrc1. split_and!; try done; try lia.
      * by rewrite Hl, Hline1.
      * destruct Ht as (? & ? & ? & ?), Htab1 as (? & ? & ? & ?).
        unfold same_table. split_and!; congruence.
    + destruct (IH c' L2 rest) as (c'' & Hloop & Hl2 & Hp2 & Ht2 & Hi2 & Hn2 & Hf2);
        try done.
      * destruct Ht as (? & _), Htab1 as (? & _). congruence.
      * by rewrite Hb, Hsrc1.
      * subst L. by apply not_elem_of_app in HnlL as [? ?].
      * subst L. by apply not_elem_of_app in HnulL as [? ?].
      * unfold turns_left in *. rewrite Hb, Hsrc1.
        destruct (decide (0 < INPUT_BUF_BYTES c')); [lia|].
        destruct (decide (0 < INPUT_BUF_BYTES c)); lia.
      * exists c''. rewrite Hb, Hsrc1 in *. split_and!; try done; try lia.
        -- rewrite Hl2, Hl, Hline1, Hun1, HL. rewrite <- app_assoc. f_equal.
           by rewrite HL, Hun1 in *.
        -- destruct Ht2 as (? & ? & ? & ?), Ht as (? & ? & ? & ?), Htab1 as (? & ? & ? & ?).
           unfold same_table. split_and!; congruence.
  - simpl.
    destruct (scan_step c L rest Hinv ltac:(lia) Hpend HnlL HnulL)
      as [(c' & -> & Hl & Hp & Hb & Ht & Hi)|(c' & L2 & -> & HL & Hl & Hp & Hz & Hb & Ht & Hi)].
    + exists c'. rewrite Hb. split_and!; done.
    + destruct (IH c' L2 rest) as (c'' & Hloop & Hl2 & Hp2 & Ht2 & Hi2 & Hn2 & Hf2);
        try done.
      * destruct Ht as (? & _). congruence.
      * by rewrite Hb.
      * subst L. by apply not_elem_of_app in HnlL as [? ?].
      * subst L. by apply not_elem_of_app in HnulL as [? ?].
      * unfold turns_left in *. rewrite Hb.
        destruct (decide (0 < INPUT_BUF_BYTES c')); [lia|].
        destruct (decide (0 < INPUT_BUF_BYTES c)); lia.
      * exists c''. rewrite Hb in *. split_and!; try done.
        -- rewrite Hl2, Hl, HL. by rewrite <- app_assoc.
        -- destruct Ht2 as (? & ? & ? & ?), Ht as (? & ? & ? & ?).
           unfold same_table. split_and!; congruence.
Qed.

(** With no newline left in the stream the loop ends at end of input. *)
Lemma read_loop_eof (fuel : nat) :
  forall (c : CopyFromStateJsonLines),
  input_buf_inv c -> compression c = PG_COMPRESSION_NONE ->
  NL ∉ pending c ->
  (turns_left c < fuel)%nat ->
  exists c', JsonLineReadLine_loop fuel c = Some (Ok (true, c')) /\
    same_table c c' /\ input_buf_inv c' /\ INPUT_BUF_BYTES c' <= 0.
Proof.
  induction fuel as [|fuel IH]; intros c Hinv Hnone Hpend Hfuel; [lia|].
  simpl. unfold JsonLineReadLine_body.
  unfold pending in Hpend. apply not_elem_of_app in Hpend as [Hnu Hns].
  destruct (decide (INPUT_BUF_BYTES c <= 0)) as [Hdrained|Hunread].
  - destruct (load_more_plain c Hnone)
      as (c1 & data & src' & Hget & -> & Hun1 & Hbytes1 & _ & Hsrc1 & Hline1 & Htab1 & Hinv1 & _).
    simpl.
    assert (0 < INPUT_BUF_SIZE) as Hsize by (unfold INPUT_BUF_SIZE; lia).
    destruct (CopyFromGetData_spec _ _ _ _ Hsize Hget) as (_ & Hcat & Hle & Hlt & _).
    destruct (decide (INPUT_BUF_BYTES c1 <= 0)) as [Hz|Hpos1]; simpl.
    { exists c1. done. }
    rewrite <- Hcat in Hns. apply not_elem_of_app in Hns as [Hnd Hnr].
    assert (strchr (unread c1 ++ [NUL]) NL = None) as Hscan
      by (rewrite Hun1; by apply strchr_none).
    destruct (scan_newline_none c1 Hinv1 ltac:(lia) Hscan)
      as (c2 & -> & Hl2 & _ & _ & Hz2 & Hb2 & Ht2 & Hi2 & _).
    assert (data <> []) as Hdata by (intros ->; simpl in *; lia).
    specialize (Hlt Hdata). unfold source_fuel in *.
    destruct (IH c2) as (c' & Hloop & Ht' & Hi' & Hz'); try done.
    + destruct Ht2 as (? & _), Htab1 as (? & _). congruence.
    + unfold pending. rewrite unread_drained by lia. by rewrite Hb2, Hsrc1.
    + unfold turns_left in *. rewrite Hb2, Hsrc1.
      destruct (decide (0 < INPUT_BUF_BYTES c2)); [lia|].
      destruct (decide (0 < INPUT_BUF_BYTES c)); lia.
    + exists c'. split_and!; try done.
      destruct Ht' as (? & ? & ? & ?), Ht2 as (? & ? & ? & ?), Htab1 as (? & ? & ? & ?).
      unfold same_table. split_and!; congruence.
  - simpl.
    assert (strchr (unread c ++ [NUL]) NL = None) as Hscan by by apply strchr_none.
    destruct (scan_newline_none c Hinv ltac:(lia) Hscan)
      as (c2 & -> & Hl2 & _ & _ & Hz2 & Hb2 & Ht2 & Hi2 & _).
    destruct (IH c2) as (c' & Hloop & Ht' & Hi' & Hz'); try done.
    + destruct Ht2 as (? & _). congruence.
    + unfold pending. rewrite unread_drained by lia. by rewrite Hb2.
    + unfold turns_left in *. rewrite Hb2.
      destruct (decide (0 < INPUT_BUF_BYTES c2)); [lia|].
      destruct (decide (0 < INPUT_BUF_BYTES c)); lia.
    + exists c'. split_and!; try done.
      destruct Ht' as (? & ? & ? & ?), Ht2 as (? & ? & ? & ?).
      unfold same_table. split_and!; congruence.
Qed.

Lemma turns_left_read_fuel (c : CopyFromStateJsonLines) :
  (turns_left c < read_fuel (source (base c)))%nat.
Proof.
  unfold turns_left, read_fuel, source_fuel.
  destruct (decide (0 < INPUT_BUF_BYTES c)); lia.
Qed.

(** [JsonLineReadLine] on a stream whose next line is [L]. *)
Lemma JsonLineReadLine_line (fuel : nat) (c : CopyFromStateJsonLines)
    (L rest : list byte) :
  input_buf_inv c -> compression c = PG_COMPRESSION_NONE ->
  nonempty_chunks (source (base c)) ->
  pending c = L ++ NL :: rest -> NL ∉ L -> NUL ∉ L ->
  (read_fuel (source (base c)) <= fuel)%nat ->
  exists c', JsonLineReadLine fuel c = Some (Ok (false, c')) /\
    line_buf c' = L /\ pending c' = rest /\
    same_table c c' /\ input_buf_inv c' /\
    nonempty_chunks (source (base c')) /\
    (read_fuel (source (base c')) <= read_fuel (source (base c)))%nat.
Proof.
  intros Hinv Hnone Hne Hpend HnlL HnulL Hfuel. unfold JsonLineReadLine.
  pose proof (turns_left_read_fuel c) as Hturns.
  destruct (read_loop_line fuel (set_line_buf [] c) L rest)
    as (c' & Hloop & Hl & Hp & Ht & Hi & Hn & Hf); try done.
  - unfold turns_left in *. simpl. unfold INPUT_BUF_BYTES in *. simpl. lia.
  - exists c'. simpl in *. unfold read_fuel. split_and!; try done. lia.
Qed.

(** [JsonLineReadLine] on a stream with no newline left. *)
Lemma JsonLineReadLine_eof (fuel : nat) (c : CopyFromStateJsonLines) :
  input_buf_inv c -> compression c = PG_COMPRESSION_NONE ->
  NL ∉ pending c ->
  (read_fuel (source (base c)) <= fuel)%nat ->
  exists c', JsonLineReadLine fuel c = Some (Ok (true, c')) /\
    same_table c c' /\ input_buf_inv c' /\ INPUT_BUF_BYTES c' <= 0.
Proof.
  intros Hinv Hnone Hpend Hfuel. unfold JsonLineReadLine.
  pose proof (turns_left_read_fuel c) as Hturns.
  destruct (read_loop_eof fuel (set_line_buf [] c))
    as (c' & Hloop & Ht & Hi & Hz); try done.
  - unfold turns_left in *. simpl. unfold INPUT_BUF_BYTES in *. simpl. lia.
  - by exists c'.
Qed.

End LineReader.

(** ** Compression detection by file name *)

Lemma byte_val_inj (x y : byte) : byte_val x = byte_val y -> x = y.
Proof.
  unfold byte_val. intros E. apply N2Z.inj in E.
  apply (f_equal Byte.of_N) in E. rewrite !Byte.of_to_N in E. congruence.
Qed.

Lemma strcmp_eq (a b : list byte) :
  c_string a -> c_string b -> strcmp a b = 0 <-> a = b.
Proof.
  intros Ha. revert b. induction Ha as [|x a Hx Ha IH]; intros b Hb.
  - destruct Hb as [|y b Hy Hb]; simpl; [done|].
    split; [|done]. intros E. exfalso. apply Hy, byte_val_inj.
    change (byte_val NUL) with 0. lia.
  - destruct Hb as [|y b Hy Hb]; simpl.
    + split; [|done]. intros E. exfalso. apply Hx, byte_val_inj.
      change (byte_val NUL) with 0. lia.
    + destruct (decide (x = y)) as [->|Hne].
      * rewrite IH by done. split; congruence.
      * split; [|congruence]. intros E. exfalso. apply Hne, byte_val_inj. lia.
Qed.

Lemma strrchr_None (s : list byte) (c : byte) :
  strrchr s c = None <-> c ∉ s.
Proof.
  induction s as [|b s IH]; simpl.
  - split; [intros _; apply not_elem_of_nil|done].
  - rewrite not_elem_of_cons. destruct (strrchr s c) as [r|].
    + split; [done|]. intros [_ Hs]. by apply IH in Hs.
    + destruct (decide (b = c)) as [->|Hne].
      * split; [done|]. by intros [? _].
      * split; [|done]. intros _. split; [congruence|]. by apply IH.
Qed.

Lemma strrchr_Some (s r : list byte) (c : byte) :
  strrchr s c = Some r ->
  exists p e, s = p ++ c :: e /\ r = c :: e /\ c ∉ e.
Proof.
  revert r. induction s as [|b s IH]; simpl; intros r Hr; [done|].
  destruct (strrchr s c) as [r'|] eqn:E.
  - injection Hr as <-. destruct (IH r' eq_refl) as (p & e & -> & -> & He).
    by exists (b :: p), e.
  - destruct (decide (b = c)) as [->|]; [|done]. injection Hr as <-.
    exists [], s. split_and!; [done..|]. by apply strrchr_None.
Qed.

(** The extension test of [JsonLinesCopyFromStart] on a name with a dot:
    it holds exactly for the names that end in ".gz". *)
Lemma extension_is_gz (name extension : list byte) :
  c_string name -> strrchr name DOT = Some extension ->
  strcmp extension (bs ".gz") = 0 <-> exists p, name = p ++ bs ".gz".
Proof.
  intros Hname Hext.
  destruct (strrchr_Some _ _ _ Hext) as (p & e & -> & -> & He).
  apply Forall_app in Hname as [_ Hname].
  rewrite strcmp_eq; [|done|repeat constructor; discriminate].
  split.
  - intros ->. by exists p.
  - intros [p' Heq]. change (bs ".gz") with (DOT :: bs "gz") in *.
    apply app_eq_inv in Heq as [(k & Hp & Hk)|(k & Hp & Hk)].
    + destruct k as [|b k]; [simpl in Hk; congruence|].
      simpl in Hk. injection Hk as <- Hk.
      assert (DOT ∈ bs "gz") as Hin
        by (rewrite Hk; apply elem_of_app; right; apply list_elem_of_here).
      exfalso. revert Hin. cbv [bs list_byte_of_string]. simpl.
      rewrite !elem_of_cons, elem_of_nil. unfold DOT. intros [|[|[]]]; discriminate.
    + destruct k as [|b k]; [simpl in Hk; congruence|].
      simpl in Hk. injection Hk as <- Hk. exfalso. apply He. rewrite Hk.
      apply elem_of_app. right. apply list_elem_of_here.
Qed.

Section ReadStart.
Context {host_types : HostTypes} {host : Host}.

(** On a file name with a dot the start routine picks gzip exactly for the
    suffix ".gz"; it can then only fail in [inflateInit2]. *)
Lemma JsonLinesCopyFromStart_dotted (c : CopyFromStateJsonLines) (name : list byte) :
  filename (base c) = Some name -> c_string name -> DOT ∈ name ->
  ((exists p, name = p ++ bs ".gz") ->
     JsonLinesCopyFromStart c = Raise ErrCompressionInit \/
     exists c', JsonLinesCopyFromStart c = Ok c' /\
                compression c' = PG_COMPRESSION_GZIP) /\
  (~ (exists p, name = p ++ bs ".gz") ->
     exists c', JsonLinesCopyFromStart c = Ok c' /\
                compression c' = PG_COMPRESSION_NONE).
Proof.
  intros Hfile Hname Hdot. unfold JsonLinesCopyFromStart. rewrite Hfile.
  destruct (strrchr name DOT) as [extension|] eqn:Hext;
    [|by apply strrchr_None in Hext].
  pose proof (extension_is_gz name extension Hname Hext) as Hgz.
  destruct (decide (strcmp extension (bs ".gz") = 0)) as [Hz|Hnz].
  - split; [|intros Hn; by apply Hgz in Hz].
    intros _. unfold initialize_inflate_gzip.
    destruct (inflateInit2 (15 + 32)); simpl; [right|by left].
    eexists; split; reflexivity.
  - split; [intros Hs; by apply Hgz in Hs|].
    intros _. simpl. eexists; split; reflexivity.
Qed.

(** C2 (the code misses a case): a file name without any dot, here
    [data], makes [strrchr] return NULL and the start routine hand that
    NULL to [strcmp]; no compression path is selected. *)
Theorem JsonLinesCopyFromStart_no_dot (s : z_state) (src : list (list byte)) :
  JsonLinesCopyFromStart (unstarted_reader s (Some (bs "data")) src) = Undefined.
Proof. reflexivity. Qed.

End ReadStart.

(** ** The line reader: newline, chunks, end of input, blank lines *)

Section LineClaims.
Context {host_types : HostTypes} {host : Host}.


(** C5 (amended: the line holds no NUL byte): a line of any length, also
    longer than the input buffer, is assembled the same whatever non-empty
    chunks the source delivers it in; on each turn that sees no newline in
    the unread input, all of it goes to the line buffer, the input buffer
    is marked consumed and the loop goes on to the next refill. *)
Theorem line_assembled_across_chunks (fuel : nat) (c : CopyFromStateJsonLines)
    (chunks : list (list byte)) (L rest : list byte) :
  input_buf_inv c -> compression c = PG_COMPRESSION_NONE ->
  source (base c) = chunks -> nonempty_chunks chunks ->
  unread c ++ concat chunks = L ++ NL :: rest ->
  NL ∉ L -> NUL ∉ L -> (read_fuel chunks <= fuel)%nat ->
  (exists c', JsonLineReadLine fuel c = Some (Ok (false, c')) /\
     line_buf c' = L /\ pending c' = rest) /\
  (forall c0, input_buf_inv c0 -> 0 < INPUT_BUF_BYTES c0 -> NL ∉ unread c0 ->
     exists c1, JsonLineReadLine_body c0 = Ok (Continue c1) /\
       line_buf c1 = line_buf c0 ++ unread c0 /\
       input_buf_index c1 = input_buf_len c1 /\ INPUT_BUF_BYTES c1 = 0).
Proof.
  intros Hinv Hnone Hsrc Hne Hstream HnlL HnulL Hfuel. split.
  - subst chunks.
    destruct (JsonLineReadLine_line fuel c L rest)
      as (c' & Hread & Hline & Hpend & _); try done.
    by exists c'.
  - intros c0 Hinv0 Hpos Hnl0. unfold JsonLineReadLine_body.
    destruct (decide (INPUT_BUF_BYTES c0 <= 0)); [lia|]. simpl.
    assert (strchr (unread c0 ++ [NUL]) NL = None) as Hscan by by apply strchr_none.
    destruct (scan_newline_none c0 Hinv0 Hpos Hscan)
      as (c1 & -> & Hline & Hidx & Hlen & Hz & _).
    exists c1. split_and!; try done. congruence.
Qed.

(** C4: when the bytes still to come hold no newline (a dangling tail,
    possibly after a few turns that gathered part of it in the line
    buffer), the line reader reports end of input and the one-row routine
    returns false with the caller's arrays untouched: no row is made from
    the tail.  In any compression mode, a refill that leaves the input
    buffer empty ends the loop with end of input whatever the line buffer
    holds. *)
Theorem dangling_tail_emits_no_row (fuel : nat) (c : CopyFromStateJsonLines)
    (values0 : list Datum) (nulls0 : list bool) (rowinfo : option CopyFromRowInfo) :
  input_buf_inv c -> compression c = PG_COMPRESSION_NONE ->
  NL ∉ pending c -> (read_fuel (source (base c)) <= fuel)%nat ->
  (exists c', JsonLineReadLine fuel c = Some (Ok (true, c')) /\
     JsonLinesCopyFromOneRow fuel c values0 nulls0 rowinfo =
       Some (Ok {| returned := false; state_after := c';
                   values_after := values0; nulls_after := nulls0;
                   rowinfo_after := rowinfo |}) /\
     forall rows_fuel,
       CopyFrom (S rows_fuel) fuel c values0 nulls0 = Some (Ok [])) /\
  (forall c0 c1, INPUT_BUF_BYTES c0 <= 0 -> load_more c0 = Ok c1 ->
     INPUT_BUF_BYTES c1 <= 0 ->
     JsonLineReadLine_body c0 = Ok (Break c1 true)).
Proof.
  intros Hinv Hnone Hpend Hfuel. split.
  - destruct (JsonLineReadLine_eof fuel c Hinv Hnone Hpend Hfuel)
      as (c' & Hread & _).
    exists c'. split; [done|].
    unfold CopyFrom, JsonLinesCopyFromOneRow. rewrite Hread. done.
  - intros c0 c1 Hz Hload Hz1. unfold JsonLineReadLine_body.
    destruct (decide (INPUT_BUF_BYTES c0 <= 0)); [|lia].
    rewrite Hload. simpl. by destruct (decide (INPUT_BUF_BYTES c1 <= 0)).
Qed.

End LineClaims.

Section LineExamples.
#[local] Existing Instance Toy.toy_types.
#[local] Existing Instance Toy.toy_host.



Lemma line_assembled_across_chunks_witness :
  input_buf_inv
    (Toy.reader_of [take 4 Toy.line_1x;
                    drop 4 Toy.line_1x ++ [NL] ++ Toy.line_2null ++ [NL]]) /\
  nonempty_chunks
    [take 4 Toy.line_1x; drop 4 Toy.line_1x ++ [NL] ++ Toy.line_2null ++ [NL]] /\
  (NL ∉ Toy.line_1x) /\ (NUL ∉ Toy.line_1x) /\
  (read_fuel [take 4 Toy.line_1x;
              drop 4 Toy.line_1x ++ [NL] ++ Toy.line_2null ++ [NL]] <= 80)%nat /\
  (exists c',
     JsonLineReadLine 80
       (Toy.reader_of [take 4 Toy.line_1x;
                       drop 4 Toy.line_1x ++ [NL] ++ Toy.line_2null ++ [NL]]) =
       Some (Ok (false, c')) /\
     line_buf c' = Toy.line_1x /\ pending c' = Toy.line_2null ++ [NL]) /\
  (forall c0 : CopyFromStateJsonLines,
     input_buf_inv c0 -> 0 < INPUT_BUF_BYTES c0 -> NL ∉ unread c0 ->
     exists c1, JsonLineReadLine_body c0 = Ok (Continue c1) /\
       line_buf c1 = line_buf c0 ++ unread c0 /\
       input_buf_index c1 = input_buf_len c1 /\ INPUT_BUF_BYTES c1 = 0).
Proof.
  assert (input_buf_inv
            (Toy.reader_of [take 4 Toy.line_1x;
                            drop 4 Toy.line_1x ++ [NL] ++ Toy.line_2null ++ [NL]]))
    as Hinv by example_inv.
  assert (nonempty_chunks
            [take 4 Toy.line_1x; drop 4 Toy.line_1x ++ [NL] ++ Toy.line_2null ++ [NL]])
    as Hne by (repeat constructor; discriminate).
  assert (NL ∉ Toy.line_1x) as Hnl by by_compute.
  assert (NUL ∉ Toy.line_1x) as Hnul by by_compute.
  assert (read_fuel [take 4 Toy.line_1x;
                     drop 4 Toy.line_1x ++ [NL] ++ Toy.line_2null ++ [NL]] <= 80)%nat
    as Hfuel by by_compute.
  split_and!; [done..| |];
    apply (@line_assembled_across_chunks Toy.toy_types Toy.toy_host 80 _ _
             Toy.line_1x (Toy.line_2null ++ [NL]) Hinv eq_refl eq_refl Hne eq_refl
             Hnl Hnul Hfuel).
Defined.

(** C5 as stated fails: the stream [a NUL b newline] gives the line
    [a NUL b] when the newline comes in a chunk of its own, and no line at
    all (end of input) when the four bytes come in one chunk. *)
Lemma line_with_NUL_depends_on_chunks :
  concat [Toy.a_nul_b; [NL]] = concat [Toy.a_nul_b ++ [NL]] /\
  nonempty_chunks [Toy.a_nul_b; [NL]] /\
  nonempty_chunks [Toy.a_nul_b ++ [NL]] /\
  (exists c', JsonLineReadLine 3 (Toy.reader_of [Toy.a_nul_b; [NL]]) =
                Some (Ok (false, c')) /\
              line_buf c' = Toy.a_nul_b) /\
  (exists c', JsonLineReadLine 3 (Toy.reader_of [Toy.a_nul_b ++ [NL]]) =
                Some (Ok (true, c'))) /\
  forall fuel,
    ~ exists c', JsonLineReadLine fuel (Toy.reader_of [Toy.a_nul_b ++ [NL]]) =
                   Some (Ok (false, c')).
Proof.
  assert (forall fuel, exists c0,
            JsonLineReadLine (S (S fuel)) (Toy.reader_of [Toy.a_nul_b ++ [NL]]) =
              Some (Ok (true, c0))) as Heof
    by (intros fuel; eexists; vm_compute; reflexivity).
  split_and!; [reflexivity|repeat constructor; discriminate..| | |].
  - eexists. split; [vm_compute; reflexivity|reflexivity].
  - apply (Heof 1%nat).
  - intros [|[|fuel]] [c' Hc'].
    + discriminate Hc'.
    + assert (JsonLineReadLine 1 (Toy.reader_of [Toy.a_nul_b ++ [NL]]) = None) as Hout
        by (vm_compute; reflexivity).
      congruence.
    + destruct (Heof fuel) as [c0 Hc0]. congruence.
Qed.

Lemma dangling_tail_emits_no_row_witness :
  input_buf_inv (Toy.reader_holding (take 7 Toy.line_2null)) /\
  (NL ∉ pending (Toy.reader_holding (take 7 Toy.line_2null))) /\
  (read_fuel [] <= 2)%nat /\
  (exists c',
     JsonLineReadLine 2 (Toy.reader_holding (take 7 Toy.line_2null)) =
       Some (Ok (true, c')) /\
     JsonLinesCopyFromOneRow 2 (Toy.reader_holding (take 7 Toy.line_2null))
         [Toy.DInt (bs "1"); Toy.DText (bs "x")] [false; false] None =
       Some (Ok {| returned := false; state_after := c';
                   values_after := [Toy.DInt (bs "1"); Toy.DText (bs "x")];
                   nulls_after := [false; false]; rowinfo_after := None |}) /\
     forall rows_fuel,
       CopyFrom (S rows_fuel) 2 (Toy.reader_holding (take 7 Toy.line_2null))
         [Toy.DInt (bs "1"); Toy.DText (bs "x")] [false; false] = Some (Ok [])) /\
  (forall c0 c1 : CopyFromStateJsonLines,
     INPUT_BUF_BYTES c0 <= 0 -> load_more c0 = Ok c1 -> INPUT_BUF_BYTES c1 <= 0 ->
     JsonLineReadLine_body c0 = Ok (Break c1 true)).
Proof.
  assert (input_buf_inv (Toy.reader_holding (take 7 Toy.line_2null)))
    as Hinv by example_inv.
  assert (NL ∉ pending (Toy.reader_holding (take 7 Toy.line_2null)))
    as Hnl by by_compute.
  assert (read_fuel [] <= 2)%nat as Hfuel by by_compute.
  split_and!; [done..| |];
    apply (@dangling_tail_emits_no_row Toy.toy_types Toy.toy_host 2
             (Toy.reader_holding (take 7 Toy.line_2null))
             [Toy.DInt (bs "1"); Toy.DText (bs "x")] [false; false] None
             Hinv eq_refl Hnl Hfuel).
Defined.

(** The scenario of the specification: two lines, schema [(a int, b text)],
    decoded to the rows [(1, "x")] and [(2, NULL)]; then the same stream
    with a blank line between the two, which ends the copy with an error. *)
Example scenario_two_rows :
  CopyFrom 3 80 (Toy.reader_of [Toy.line_1x ++ [NL] ++ Toy.line_2null ++ [NL]])
    [Toy.DInt []; Toy.DInt []] [true; true] =
  Some (Ok [[Some (Toy.DInt (bs "1")); Some (Toy.DText (bs "x"))];
            [Some (Toy.DInt (bs "2")); None]]).
Proof. reflexivity. Qed.

Example scenario_blank_line :
  CopyFrom 3 80 (Toy.reader_of [Toy.line_1x ++ [NL; NL] ++ Toy.line_2null ++ [NL]])
    [Toy.DInt []; Toy.DInt []] [true; true] =
  Some (Raise ErrInvalidJsonb).
Proof. reflexivity. Qed.

End LineExamples.

(** ** The row decoder *)

Section Decoder.
Context {host_types : HostTypes} {host : Host}.

Lemma column_done_ext (desc : list FormData_pg_attribute) (jb : Jsonb)
    (vs vs' : list Datum) (ns ns' : list bool) (j : nat) :
  vs' !! j = vs !! j -> ns' !! j = ns !! j ->
  column_done desc jb vs ns j -> column_done desc jb vs' ns' j.
Proof.
  intros Hv Hn Hdone att Hatt. unfold cell. rewrite Hv, Hn. by apply Hdone.
Qed.

(** The body of the column loop for an [attnum] within bounds. *)
Lemma decode_column_unfold (desc : list FormData_pg_attribute) (jb : Jsonb)
    (a : row_arrays) (attnum : Z) (att : FormData_pg_attribute) :
  desc !! Z.to_nat (attnum - 1) = Some att ->
  1 <= attnum ->
  (Z.to_nat (attnum - 1) < length (values a))%nat ->
  (Z.to_nat (attnum - 1) < length (nulls a))%nat ->
  decode_column desc jb a attnum =
    let i := Z.to_nat (attnum - 1) in
    let as_null := Ok {| values := values a; nulls := <[i := true]> (nulls a);
                         buf := buf a |} in
    match getKeyJsonValueFromContainer jb (attname att) with
    | None => as_null
    | Some v =>
        if is_jbvNull v then as_null
        else
          str ← GetJsonbValueAsCString v (buf a);
          match InputFunctionCall (atttypid att) (c_str str) (atttypmod att) with
          | Some d => Ok {| values := <[i := d]> (values a);
                            nulls := <[i := false]> (nulls a); buf := [] |}
          | None => Raise (ErrConvert str (attname att))
          end
    end.
Proof.
  intros Hatt H1 Hvs Hns. unfold decode_column. rewrite Hatt.
  destruct (decide (1 <= attnum /\ _)) as [_|Hn]; [|exfalso; by apply Hn].
  destruct (getKeyJsonValueFromContainer jb (attname att)) as [v|]; [|done].
  by destruct v.
Qed.

Lemma is_jbvNull_true (v : JsonbValue) : is_jbvNull v = true <-> v = jbvNull.
Proof. destruct v; simpl; split; congruence. Qed.

Lemma decode_column_bounds (desc : list FormData_pg_attribute) (jb : Jsonb)
    (a a' : row_arrays) (attnum : Z) :
  decode_column desc jb a attnum = Ok a' ->
  exists att, desc !! Z.to_nat (attnum - 1) = Some att /\
    1 <= attnum /\
    (Z.to_nat (attnum - 1) < length (values a))%nat /\
    (Z.to_nat (attnum - 1) < length (nulls a))%nat.
Proof.
  unfold decode_column.
  destruct (desc !! Z.to_nat (attnum - 1)) as [att|]; [|done].
  destruct (decide (1 <= attnum /\ _)) as [(? & ? & ?)|?]; [|done].
  intros _. by exists att.
Qed.

(** One column: the scratch buffer is empty again, the arrays keep their
    length, the column is done, the other columns are as before. *)
Lemma decode_column_inv (desc : list FormData_pg_attribute) (jb : Jsonb)
    (a a' : row_arrays) (attnum : Z) :
  decode_column desc jb a attnum = Ok a' -> buf a = [] ->
  buf a' = [] /\
  length (values a') = length (values a) /\
  length (nulls a') = length (nulls a) /\
  column_done desc jb (values a') (nulls a') (Z.to_nat (attnum - 1)) /\
  (forall j, column_done desc jb (values a) (nulls a) j ->
             column_done desc jb (values a') (nulls a') j).
Proof.
  intros Hdec Hbuf.
  destruct (decode_column_bounds _ _ _ _ _ Hdec) as (att & Hatt & H1 & Hvs & Hns).
  rewrite (decode_column_unfold _ _ _ _ att) in Hdec by done.
  set (i := Z.to_nat (attnum - 1)) in *. simpl in Hdec. rewrite Hbuf in Hdec.
  assert (length (values a') = length (values a) ->
          length (nulls a') = length (nulls a) ->
          (forall j, j <> i -> values a' !! j = values a !! j /\
                               nulls a' !! j = nulls a !! j) ->
          column_done desc jb (values a') (nulls a') i ->
          forall j, column_done desc jb (values a) (nulls a) j ->
                    column_done desc jb (values a') (nulls a') j) as Hkeep.
  { intros _ _ Hother Hi j Hj. destruct (decide (j = i)) as [->|Hne]; [done|].
    destruct (Hother j Hne) as [? ?]. by eapply column_done_ext. }
  assert (forall ns', values a' = values a -> nulls a' = <[i:=true]> (nulls a) ->
            (getKeyJsonValueFromContainer jb (attname att) = None \/
             getKeyJsonValueFromContainer jb (attname att) = Some jbvNull) ->
            ns' = nulls a' -> column_done desc jb (values a') ns' i) as Hnull.
  { intros ns' Hv Hn Hkey -> att' Hatt'. assert (att' = att) as -> by congruence.
    unfold cell. rewrite Hn. split.
    - intros _. by lookup_insert.
    - intros v Hv' Hnn. destruct Hkey as [Hk|Hk]; rewrite Hk in Hv'; congruence. }
  destruct (getKeyJsonValueFromContainer jb (attname att)) as [v|] eqn:Hkey.
  - destruct (is_jbvNull v) eqn:Hv.
    + apply is_jbvNull_true in Hv as ->. injection Hdec as <-. simpl in *.
      assert (column_done desc jb (values a) (<[i:=true]> (nulls a)) i) as Hi
        by (apply (Hnull _ eq_refl eq_refl); auto).
      split_and!; try done; [by rewrite length_insert|].
      apply Hkeep; rewrite ?length_insert; try done.
      intros j Hj. by lookup_insert.
    + destruct (GetJsonbValueAsCString v []) as [str| |] eqn:Hstr; try done.
      simpl in Hdec.
      destruct (InputFunctionCall _ _ _) as [d|] eqn:Hin; [|done].
      injection Hdec as <-. simpl in *.
      assert (column_done desc jb (<[i:=d]> (values a)) (<[i:=false]> (nulls a)) i) as Hi.
      { intros att' Hatt'. assert (att' = att) as -> by congruence.
        unfold cell. rewrite Hkey. split.
        - intros [?|[= ->]]; done.
        - intros v' [= <-] _. exists str, d. split_and!; try done; by lookup_insert. }
      split_and!; try done; [by rewrite length_insert..|].
      apply Hkeep; rewrite ?length_insert; try done.
      intros j Hj. by lookup_insert.
  - injection Hdec as <-. simpl in *.
    assert (column_done desc jb (values a) (<[i:=true]> (nulls a)) i) as Hi
      by (apply (Hnull _ eq_refl eq_refl); auto).
    split_and!; try done; [by rewrite length_insert|].
    apply Hkeep; rewrite ?length_insert; try done.
    intros j Hj. by lookup_insert.
Qed.

(** The whole column loop. *)
Lemma foreach_attnum_inv (desc : list FormData_pg_attribute) (jb : Jsonb)
    (attnums : list Z) :
  forall a a', foreach_attnum desc jb attnums a = Ok a' -> buf a = [] ->
  buf a' = [] /\
  length (values a') = length (values a) /\
  length (nulls a') = length (nulls a) /\
  (forall attnum, attnum ∈ attnums ->
     column_done desc jb (values a') (nulls a') (Z.to_nat (attnum - 1))) /\
  (forall j, column_done desc jb (values a) (nulls a) j ->
             column_done desc jb (values a') (nulls a') j).
Proof.
  induction attnums as [|attnum0 attnums IH]; simpl; intros a a' Hloop Hbuf.
  - injection Hloop as <-. split_and!; try done. intros attnum Hin.
    by apply elem_of_nil in Hin.
  - destruct (decode_column desc jb a attnum0) as [a1| |] eqn:Hcol; try done.
    simpl in Hloop.
    destruct (decode_column_inv _ _ _ _ _ Hcol Hbuf) as (Hb1 & Hv1 & Hn1 & Hd1 & Hk1).
    destruct (IH _ _ Hloop Hb1) as (Hb' & Hv' & Hn' & Hd' & Hk').
    split_and!; try done; try congruence.
    + intros attnum [->|Hin]%elem_of_cons; [by apply Hk'|by apply Hd'].
    + intros j Hj. by apply Hk', Hk1.
Qed.

(** The loop only asks the object for the names of the listed columns. *)
Lemma foreach_attnum_ext (desc : list FormData_pg_attribute) (jb jb' : Jsonb)
    (attnums : list Z) :
  (forall attnum att, attnum ∈ attnums ->
     desc !! Z.to_nat (attnum - 1) = Some att ->
     getKeyJsonValueFromContainer jb' (attname att) =
     getKeyJsonValueFromContainer jb (attname att)) ->
  forall a, foreach_attnum desc jb' attnums a = foreach_attnum desc jb attnums a.
Proof.
  induction attnums as [|attnum0 attnums IH]; simpl; intros Hagree a; [done|].
  assert (decode_column desc jb' a attnum0 = decode_column desc jb a attnum0) as ->.
  { unfold decode_column.
    destruct (desc !! Z.to_nat (attnum0 - 1)) as [att|] eqn:Hatt; [|done].
    rewrite (Hagree attnum0 att); [done|apply list_elem_of_here|done]. }
  destruct (decode_column desc jb a attnum0); simpl; try done.
  apply IH. intros attnum att Hin. apply Hagree. by apply list_elem_of_further.
Qed.



(** C6: in a decoded row, a listed column whose name is no key of the
    object, or is a key holding JSON null, has its null flag set and reads
    as null whatever the arrays held from the row before; a column whose
    key holds another value has its null flag cleared and holds what the
    input function made of the value's text.  The result only depends on
    the object through the names of the listed columns: a key that names
    none of them changes nothing. *)
Theorem absent_or_null_key_is_null (cstate : CopyFromStateJsonLines)
    (values0 : list Datum) (nulls0 : list bool) (rowinfo : option CopyFromRowInfo)
    (jb : Jsonb) (r : row_result) :
  jsonb_in (c_str (line_buf cstate)) = Some jb ->
  decode_line cstate values0 nulls0 rowinfo = Ok r ->
  (forall attnum att,
     attnum ∈ attnumlist (base cstate) ->
     tupdesc (base cstate) !! Z.to_nat (attnum - 1) = Some att ->
     ((getKeyJsonValueFromContainer jb (attname att) = None \/
       getKeyJsonValueFromContainer jb (attname att) = Some jbvNull) ->
      nulls_after r !! Z.to_nat (attnum - 1) = Some true /\
      cell (values_after r) (nulls_after r) (Z.to_nat (attnum - 1)) = None) /\
     (forall v, getKeyJsonValueFromContainer jb (attname att) = Some v ->
        v <> jbvNull ->
        exists str d,
          GetJsonbValueAsCString v [] = Ok str /\
          InputFunctionCall (atttypid att) (c_str str) (atttypmod att) = Some d /\
          nulls_after r !! Z.to_nat (attnum - 1) = Some false /\
          cell (values_after r) (nulls_after r) (Z.to_nat (attnum - 1)) = Some d)) /\
  (forall jb',
     (forall attnum att,
        attnum ∈ attnumlist (base cstate) ->
        tupdesc (base cstate) !! Z.to_nat (attnum - 1) = Some att ->
        getKeyJsonValueFromContainer jb' (attname att) =
        getKeyJsonValueFromContainer jb (attname att)) ->
     foreach_attnum (tupdesc (base cstate)) jb' (attnumlist (base cstate))
       {| values := values0; nulls := nulls0; buf := [] |} =
     Ok {| values := values_after r; nulls := nulls_after r; buf := [] |}).
Proof.
  intros Hjson Hdec. unfold decode_line in Hdec. rewrite Hjson in Hdec.
  destruct (foreach_attnum _ jb _ _) as [a'| |] eqn:Hloop; try done.
  simpl in Hdec. injection Hdec as <-. simpl.
  destruct (foreach_attnum_inv _ _ _ _ _ Hloop eq_refl) as (Hb & _ & _ & Hdone & _).
  split.
  - intros attnum att Hin Hatt. by apply (Hdone attnum Hin att Hatt).
  - intros jb' Hagree. rewrite (foreach_attnum_ext _ jb jb' _ Hagree), Hloop.
    destruct a'. simpl in *. by subst.
Qed.



End Decoder.

Section DecoderExamples.
#[local] Existing Instance Toy.toy_types.
#[local] Existing Instance Toy.toy_host.

(** The line [{"a":1,"z":true}] after the row [(9, "old")]: column [b] has
    no key and reads as null, not as "old"; column [a] is 1; the key [z]
    is ignored, the object [{"a":1}] decodes to the same arrays. *)
Lemma absent_or_null_key_is_null_witness :
  jsonb_in (c_str (line_buf (Toy.reader_after Toy.line_1_extra))) =
    Some [(bs "a", Toy.TNumber (bs "1")); (bs "z", Toy.TBool true)] /\
  decode_line (Toy.reader_after Toy.line_1_extra) Toy.old_values Toy.old_nulls None =
    Ok {| returned := true; state_after := Toy.reader_after Toy.line_1_extra;
          values_after := [Toy.DInt (bs "1"); Toy.DText (bs "old")];
          nulls_after := [false; true]; rowinfo_after := None |} /\
  cell [Toy.DInt (bs "1"); Toy.DText (bs "old")] [false; true] 1 = None /\
  cell [Toy.DInt (bs "1"); Toy.DText (bs "old")] [false; true] 0 =
    Some (Toy.DInt (bs "1")) /\
  foreach_attnum Toy.desc_ab [(bs "a", Toy.TNumber (bs "1"))] [1; 2]
    {| values := Toy.old_values; nulls := Toy.old_nulls; buf := [] |} =
  Ok {| values := [Toy.DInt (bs "1"); Toy.DText (bs "old")];
        nulls := [false; true]; buf := [] |}.
Proof.
  destruct (@absent_or_null_key_is_null Toy.toy_types Toy.toy_host
              (Toy.reader_after Toy.line_1_extra) Toy.old_values Toy.old_nulls None
              [(bs "a", Toy.TNumber (bs "1")); (bs "z", Toy.TBool true)]
              {| returned := true; state_after := Toy.reader_after Toy.line_1_extra;
                 values_after := [Toy.DInt (bs "1"); Toy.DText (bs "old")];
                 nulls_after := [false; true]; rowinfo_after := None |}
              eq_refl eq_refl) as [Hcols Hextra].
  split_and!; [reflexivity|reflexivity| | |].
  - destruct (Hcols 2 Toy.att_b)
      as [Hnull _]; [by_compute|reflexivity|].
    apply Hnull. by left.
  - destruct (Hcols 1 Toy.att_a)
      as [_ Hval]; [by_compute|reflexivity|].
    destruct (Hval (Toy.toy_value (Toy.TNumber (bs "1"))) eq_refl ltac:(discriminate))
      as (str & d & Hstr & Hin & _ & Hcell).
    injection Hstr as <-. simpl in Hin. injection Hin as <-. exact Hcell.
  - apply (Hextra [(bs "a", Toy.TNumber (bs "1"))]).
    intros attnum att Hin Hatt.
    apply elem_of_cons in Hin as [->|Hin];
      [|apply elem_of_cons in Hin as [->|Hin]; [|by apply elem_of_nil in Hin]];
      simpl in Hatt; injection Hatt as <-; reflexivity.
Defined.



End DecoderExamples.

(** ** The Stream Buffer invariant *)

Section StreamBuffers.
Context {host_types : HostTypes} {host : Host}.

Lemma buf_slice_length (b : list byte) (index n : Z) :
  Z.of_nat (length (buf_slice b index n)) <= Z.max 0 n.
Proof. unfold buf_slice. rewrite length_take. lia. Qed.

Lemma refill_raw_inv (c : CopyFromStateJsonLines) :
  raw_buf_inv c -> raw_buf_inv (refill_raw c).
Proof.
  intros Hraw. unfold refill_raw.
  destruct (decide (RAW_BUF_BYTES c = 0)); [|done].
  destruct (CopyFromGetData (source (base c)) RAW_BUF_SIZE) as [data rest] eqn:E.
  assert (0 < RAW_BUF_SIZE) as Hsize by (unfold RAW_BUF_SIZE; lia).
  destruct (CopyFromGetData_spec _ _ _ _ Hsize E) as (Hlen & _).
  unfold raw_buf_inv, stream_buffer_inv. simpl. lia.
Qed.

Lemma refill_raw_input (c : CopyFromStateJsonLines) :
  input_buf (refill_raw c) = input_buf c /\
  input_buf_index (refill_raw c) = input_buf_index c /\
  input_buf_len (refill_raw c) = input_buf_len c.
Proof.
  unfold refill_raw. destruct (decide (RAW_BUF_BYTES c = 0)); [|done].
  by destruct (CopyFromGetData (source (base c)) RAW_BUF_SIZE).
Qed.

(** One step of the decompression adapter. *)
Lemma read_gzip_step (c c' : CopyFromStateJsonLines) :
  read_gzip c = Ok c' ->
  raw_buf_index c' =
    raw_buf_index (refill_raw c) +
    (RAW_BUF_BYTES (refill_raw c) -
     z_avail_in (inflate (strm (refill_raw c))
                   (buf_slice (raw_buf (refill_raw c)) (raw_buf_index (refill_raw c))
                      (RAW_BUF_BYTES (refill_raw c)))
                   INPUT_BUF_SIZE Z_NO_FLUSH)) /\
  raw_buf_len c' = raw_buf_len (refill_raw c) /\
  input_buf_len c' =
    Z.of_nat (length (z_out (inflate (strm (refill_raw c))
                   (buf_slice (raw_buf (refill_raw c)) (raw_buf_index (refill_raw c))
                      (RAW_BUF_BYTES (refill_raw c)))
                   INPUT_BUF_SIZE Z_NO_FLUSH))) /\
  input_buf_index c' = 0 /\
  input_buf c' =
    z_out (inflate (strm (refill_raw c))
             (buf_slice (raw_buf (refill_raw c)) (raw_buf_index (refill_raw c))
                (RAW_BUF_BYTES (refill_raw c)))
             INPUT_BUF_SIZE Z_NO_FLUSH) ++ [NUL].
Proof.
  unfold read_gzip. simpl.
  destruct (decide (z_ret _ < 0)); [done|].
  intros [= <-]. simpl. split_and!; try done. lia.
Qed.

Lemma read_gzip_inv (c c' : CopyFromStateJsonLines) :
  z_contract inflate ->
  raw_buf_inv c -> read_gzip c = Ok c' ->
  raw_buf_inv c' /\ input_buf_inv c'.
Proof.
  intros Hz Hraw Hread.
  destruct (read_gzip_step _ _ Hread) as (Hidx & Hlen & Hilen & Hiidx & Hibuf).
  pose proof (refill_raw_inv c Hraw) as (H0 & H1 & H2).
  set (c1 := refill_raw c) in *.
  set (next_in := buf_slice (raw_buf c1) (raw_buf_index c1) (RAW_BUF_BYTES c1)) in *.
  assert (0 <= INPUT_BUF_SIZE) as Hsize by (unfold INPUT_BUF_SIZE; lia).
  destruct (Hz (strm c1) next_in INPUT_BUF_SIZE Z_NO_FLUSH Hsize) as [Hin Hout].
  pose proof (buf_slice_length (raw_buf c1) (raw_buf_index c1) (RAW_BUF_BYTES c1)) as Hsl.
  fold next_in in Hsl. unfold RAW_BUF_BYTES in *.
  split.
  - unfold raw_buf_inv, stream_buffer_inv. rewrite Hidx, Hlen. lia.
  - split.
    + unfold stream_buffer_inv. rewrite Hiidx, Hilen. lia.
    + intros _. rewrite Hibuf, Hilen. by eexists.
Qed.

Lemma load_more_inv (c c' : CopyFromStateJsonLines) :
  z_contract inflate ->
  raw_buf_inv c -> input_buf_inv c -> load_more c = Ok c' ->
  raw_buf_inv c' /\ input_buf_inv c'.
Proof.
  intros Hz Hraw Hinv. unfold load_more.
  destruct (compression c) eqn:Hc.
  - destruct (load_more_plain c Hc)
      as (c1 & data & rest & _ & Hload & _ & _ & _ & _ & _ & _ & Hinv1 & Hr1 & Hr2).
    unfold load_more in Hload. rewrite Hc in Hload. rewrite Hload.
    intros [= <-]. split; [|done].
    unfold raw_buf_inv in *. by rewrite Hr1, Hr2.
  - by apply read_gzip_inv.
  - by intros [= <-].
  - by intros [= <-].
Qed.

Lemma scan_newline_inv (c : CopyFromStateJsonLines) :
  raw_buf_inv c -> input_buf_inv c -> 0 < INPUT_BUF_BYTES c ->
  exists c' r, (scan_newline c = Continue c' \/ scan_newline c = Break c' r) /\
    raw_buf_inv c' /\ input_buf_inv c'.
Proof.
  intros Hraw Hinv Hpos.
  destruct (strchr (unread c ++ [NUL]) NL) as [k|] eqn:Hscan.
  - destruct (scan_newline_some c k Hinv Hpos Hscan)
      as (_ & c' & Hs & _ & _ & _ & _ & _ & _ & Hinv' & Hr1 & Hr2).
    exists c', false. split_and!; [by right| |done].
    unfold raw_buf_inv in *. by rewrite Hr1, Hr2.
  - destruct (scan_newline_none c Hinv Hpos Hscan)
      as (c' & Hs & _ & _ & _ & _ & _ & _ & Hinv' & Hr1 & Hr2).
    exists c', false. split_and!; [by left| |done].
    unfold raw_buf_inv in *. by rewrite Hr1, Hr2.
Qed.

Lemma JsonLineReadLine_body_inv (c : CopyFromStateJsonLines) (step : loop_step) :
  z_contract inflate ->
  raw_buf_inv c -> input_buf_inv c -> JsonLineReadLine_body c = Ok step ->
  match step with
  | Continue c' | Break c' _ => raw_buf_inv c' /\ input_buf_inv c'
  end.
Proof.
  intros Hz Hraw Hinv. unfold JsonLineReadLine_body.
  destruct (decide (INPUT_BUF_BYTES c <= 0)) as [Hdrained|Hunread].
  - destruct (load_more c) as [c1| |] eqn:Hload; simpl; try done.
    destruct (load_more_inv _ _ Hz Hraw Hinv Hload) as [Hraw1 Hinv1].
    destruct (decide (INPUT_BUF_BYTES c1 <= 0)); simpl.
    + by intros [= <-].
    + destruct (scan_newline_inv c1 Hraw1 Hinv1 ltac:(lia))
        as (c' & r & [Hs|Hs] & ? & ?); rewrite Hs; by intros [= <-].
  - simpl.
    destruct (scan_newline_inv c Hraw Hinv ltac:(lia))
      as (c' & r & [Hs|Hs] & ? & ?); rewrite Hs; by intros [= <-].
Qed.

Lemma JsonLineReadLine_loop_inv (fuel : nat) :
  z_contract inflate ->
  forall c r c', raw_buf_inv c -> input_buf_inv c ->
  JsonLineReadLine_loop fuel c = Some (Ok (r, c')) ->
  raw_buf_inv c' /\ input_buf_inv c'.
Proof.
  intros Hz. induction fuel as [|fuel IH]; intros c r c' Hraw Hinv; simpl; [done|].
  destruct (JsonLineReadLine_body c) as [step| |] eqn:Hbody; try done.
  pose proof (JsonLineReadLine_body_inv _ _ Hz Hraw Hinv Hbody) as Hstep.
  destruct step as [c1|c1 r1].
  - destruct Hstep. by apply IH.
  - by intros [= <- <-].
Qed.

(** C8: with a zlib that keeps to [avail_in] and [avail_out], the index
    invariant [0 <= index <= len <= capacity] of the raw buffer and of the
    input buffer is set up by the start routine and kept by the adapter
    step, the line reader and the one-row routine; the input buffer is
    refilled only when no byte of it is unread and the raw buffer only when
    none of it is unfed, either refill setting the index to 0; and one
    adapter step moves the raw index by the bytes [inflate] consumed and
    sets the input length to the bytes it produced. *)
Theorem stream_buffer_invariant :
  z_contract inflate ->
  (forall c c', JsonLinesCopyFromStart c = Ok c' ->
     input_buf_inv c' /\
     (compression c' = PG_COMPRESSION_GZIP -> raw_buf_inv c') /\
     (raw_buf_inv c -> raw_buf_inv c')) /\
  (forall c c', raw_buf_inv c -> input_buf_inv c -> read_gzip c = Ok c' ->
     raw_buf_inv c' /\ input_buf_inv c') /\
  (forall fuel c r c', raw_buf_inv c -> input_buf_inv c ->
     JsonLineReadLine fuel c = Some (Ok (r, c')) ->
     raw_buf_inv c' /\ input_buf_inv c') /\
  (forall fuel c vs ns rowinfo res, raw_buf_inv c -> input_buf_inv c ->
     JsonLinesCopyFromOneRow fuel c vs ns rowinfo = Some (Ok res) ->
     raw_buf_inv (state_after res) /\ input_buf_inv (state_after res)) /\
  (forall c, input_buf_inv c -> INPUT_BUF_BYTES c <> 0 ->
     JsonLineReadLine_body c = Ok (scan_newline c) /\
     source (base (match scan_newline c with Continue c' | Break c' _ => c' end)) =
       source (base c) /\
     input_buf_len (match scan_newline c with Continue c' | Break c' _ => c' end) =
       input_buf_len c) /\
  (forall c c', compression c = PG_COMPRESSION_NONE \/
                compression c = PG_COMPRESSION_GZIP ->
     load_more c = Ok c' -> input_buf_index c' = 0) /\
  (forall c, RAW_BUF_BYTES c <> 0 -> refill_raw c = c) /\
  (forall c, RAW_BUF_BYTES c = 0 -> raw_buf_index (refill_raw c) = 0) /\
  (forall c c', read_gzip c = Ok c' ->
     raw_buf_index c' =
       raw_buf_index (refill_raw c) +
       (RAW_BUF_BYTES (refill_raw c) -
        z_avail_in (inflate (strm (refill_raw c))
                      (buf_slice (raw_buf (refill_raw c))
                         (raw_buf_index (refill_raw c))
                         (RAW_BUF_BYTES (refill_raw c)))
                      INPUT_BUF_SIZE Z_NO_FLUSH)) /\
     input_buf_len c' =
       Z.of_nat (length (z_out (inflate (strm (refill_raw c))
                      (buf_slice (raw_buf (refill_raw c))
                         (raw_buf_index (refill_raw c))
                         (RAW_BUF_BYTES (refill_raw c)))
                      INPUT_BUF_SIZE Z_NO_FLUSH))) /\
     input_buf_index c' = 0).
Proof.
  intros Hz. split_and!.
  - intros c c'. unfold JsonLinesCopyFromStart.
    destruct (filename (base c)) as [name|]; [|done].
    destruct (strrchr name DOT) as [extension|]; [|done].
    destruct (decide (strcmp extension (bs ".gz") = 0)).
    + unfold initialize_inflate_gzip. destruct (inflateInit2 (15 + 32)); [|done].
      simpl. intros [= <-]. unfold input_buf_inv, raw_buf_inv, stream_buffer_inv,
        INPUT_BUF_SIZE, RAW_BUF_SIZE. simpl. split_and!; try lia; try done.
    + simpl. intros [= <-]. unfold input_buf_inv, raw_buf_inv, stream_buffer_inv,
        INPUT_BUF_SIZE. simpl. split_and!; try lia; try done.
  - intros c c' Hraw _. by apply read_gzip_inv.
  - intros fuel c r c' Hraw Hinv. unfold JsonLineReadLine.
    by apply JsonLineReadLine_loop_inv.
  - intros fuel c vs ns rowinfo res Hraw Hinv. unfold JsonLinesCopyFromOneRow.
    destruct (JsonLineReadLine fuel c) as [[[r c1]| |]|] eqn:Hread; try done.
    assert (raw_buf_inv c1 /\ input_buf_inv c1) as Hc1.
    { revert Hread. unfold JsonLineReadLine. by apply JsonLineReadLine_loop_inv. }
    destruct r.
    + by intros [= <-].
    + unfold decode_line. destruct (jsonb_in _); [|done].
      destruct (foreach_attnum _ _ _ _); simpl; try done. by intros [= <-].
  - intros c Hinv Hne. unfold JsonLineReadLine_body.
    destruct Hinv as [(? & ? & ?) Hs].
    destruct (decide (INPUT_BUF_BYTES c <= 0)); [unfold INPUT_BUF_BYTES in *; lia|].
    split; [done|]. unfold scan_newline. by destruct (strchr _ _).
  - intros c c' Hc. unfold load_more. destruct Hc as [-> | ->].
    + destruct (CopyFromGetData _ _). by intros [= <-].
    + intros Hread. by destruct (read_gzip_step _ _ Hread) as (_ & _ & _ & ? & _).
  - intros c Hne. unfold refill_raw. by destruct (decide (RAW_BUF_BYTES c = 0)).
  - intros c Hz0. unfold refill_raw. destruct (decide (RAW_BUF_BYTES c = 0)); [|done].
    by destruct (CopyFromGetData _ _).
  - intros c c' Hread.
    by destruct (read_gzip_step _ _ Hread) as (? & _ & ? & ? & _).
Qed.

End StreamBuffers.

Lemma toy_inflate_contract : @z_contract Toy.toy_types Toy.toy_inflate.
Proof.
  intros s input avail_out flush Hout. unfold Toy.toy_inflate. simpl.
  rewrite length_take. lia.
Qed.

Section StreamBufferExamples.
#[local] Existing Instance Toy.toy_types.
#[local] Existing Instance Toy.toy_host.

(** One adapter step on a freshly started gzip reader: the raw buffer takes
    the 16-byte chunk, the pass-through [inflate] consumes and produces all
    16 bytes. *)
Lemma stream_buffer_invariant_witness :
  z_contract inflate /\
  raw_buf_inv (Toy.gzip_reader [Toy.line_1x ++ [NL]]) /\
  input_buf_inv (Toy.gzip_reader [Toy.line_1x ++ [NL]]) /\
  exists c', read_gzip (Toy.gzip_reader [Toy.line_1x ++ [NL]]) = Ok c' /\
    raw_buf_inv c' /\ input_buf_inv c' /\
    raw_buf_index c' = 16 /\ input_buf_len c' = 16 /\ input_buf_index c' = 0.
Proof.
  assert (raw_buf_inv (Toy.gzip_reader [Toy.line_1x ++ [NL]])) as Hraw
    by (unfold raw_buf_inv, stream_buffer_inv, RAW_BUF_SIZE; simpl; lia).
  assert (input_buf_inv (Toy.gzip_reader [Toy.line_1x ++ [NL]])) as Hinv
    by (split; [unfold stream_buffer_inv, INPUT_BUF_SIZE; simpl; lia|simpl; lia]).
  split_and!; [exact toy_inflate_contract|done|done|].
  eexists. split; [reflexivity|].
  destruct (@stream_buffer_invariant Toy.toy_types Toy.toy_host toy_inflate_contract)
    as (_ & Hgzip & _).
  destruct (Hgzip (Toy.gzip_reader [Toy.line_1x ++ [NL]]) _ Hraw Hinv eq_refl)
    as [Hraw' Hinv'].
  split_and!; [exact Hraw'|exact Hinv'|reflexivity..].
Defined.

End StreamBufferExamples.

(** ** The write path: the finish step *)

Section Finish.
Context {host_types : HostTypes} {host : Host}.

(** The calls one run of the [write_gzip] loop adds. *)
Lemma write_gzip_loop_calls (fuel : nat) :
  forall (c c' : CopyToStateJsonLines) (next_in : list byte) (flush : Z),
  write_gzip_loop fuel c next_in flush = Some (Ok c') ->
  options_compression c' = options_compression c /\
  exists calls, zcalls c' = zcalls c ++ calls /\ calls <> [] /\
    Forall (fun call => exists avail_in, call = CallDeflate flush avail_in) calls /\
    (next_in = [] -> Forall (fun call => call = CallDeflate flush 0) calls).
Proof.
  induction fuel as [|fuel IH]; intros c c' next_in flush; simpl; [done|].
  destruct (decide (z_ret _ = Z_STREAM_ERROR)); [done|].
  set (r := deflate (to_strm c) next_in GZIP_CHUNK_SIZE flush).
  set (call := CallDeflate flush (Z.of_nat (length next_in))).
  set (c1 := set_to_strm (z_next r) [call] c).
  set (c2 := if decide (_ > 0) then _ else c1).
  assert (options_compression c2 = options_compression c /\
          zcalls c2 = zcalls c ++ [call]) as [Hopt2 Hcalls2]
    by (subst c2; by destruct (decide (_ > 0))).
  assert (next_in = [] -> call = CallDeflate flush 0) as Hcall0
    by (intros ->; done).
  destruct (decide (_ = 0)).
  - intros Hloop. destruct (IH _ _ _ _ Hloop) as (Hopt & calls & Hcalls & _ & Hall & Hall0).
    split; [congruence|].
    exists (call :: calls). rewrite Hcalls, Hcalls2, <- app_assoc.
    split_and!; [done|done| |].
    + constructor; [by eexists|done].
    + intros ->. constructor; [by apply Hcall0|]. apply Hall0. by rewrite drop_nil.
  - intros [= <-]. split; [done|]. exists [call].
    split_and!; [done|done| |].
    + constructor; [by eexists|constructor].
    + intros Hnil. constructor; [by apply Hcall0|constructor].
Qed.

Lemma write_gzip_loop_mono (fuel : nat) :
  forall (fuel' : nat) (c : CopyToStateJsonLines) (next_in : list byte) (flush : Z) o,
  write_gzip_loop fuel c next_in flush = Some o -> (fuel <= fuel')%nat ->
  write_gzip_loop fuel' c next_in flush = Some o.
Proof.
  induction fuel as [|fuel IH]; intros fuel' c next_in flush o; simpl; [done|].
  intros Hloop Hle. destruct fuel' as [|fuel']; [lia|]. simpl.
  destruct (decide (z_ret _ = Z_STREAM_ERROR)); [done|].
  destruct (decide (_ = 0)); [|done].
  apply (IH fuel'); [done|lia].
Qed.

Lemma write_gzip_loop_total (pending_out : z_state -> list byte -> nat) (fuel : nat) :
  deflate_drains pending_out ->
  forall (c : CopyToStateJsonLines) (next_in : list byte) (flush : Z),
  (pending_out (to_strm c) next_in < fuel)%nat ->
  exists o, write_gzip_loop fuel c next_in flush = Some o.
Proof.
  intros Hdrain. induction fuel as [|fuel IH]; intros c next_in flush Hfuel; [lia|].
  simpl. destruct (decide (z_ret _ = Z_STREAM_ERROR)); [eauto|].
  destruct (decide (_ = 0)) as [Hfull|]; [|eauto].
  apply IH. specialize (Hdrain (to_strm c) next_in flush Hfull).
  destruct (decide (_ > 0)); simpl; lia.
Qed.

(** The per-row routine only makes [Z_NO_FLUSH] calls. *)
Lemma JsonLinesCopyToOneRow_calls (fuel : nat) (c c' : CopyToStateJsonLines)
    (vs : list Datum) (ns : list bool) :
  JsonLinesCopyToOneRow fuel c vs ns = Some (Ok c') ->
  options_compression c' = options_compression c /\
  exists calls, zcalls c' = zcalls c ++ calls /\ Forall is_row_call calls.
Proof.
  unfold JsonLinesCopyToOneRow.
  destruct (options_compression c) eqn:Hopt.
  - intros [= <-]. split; [done|]. exists []. by rewrite app_nil_r.
  - unfold write_gzip. intros Hloop.
    destruct (write_gzip_loop_calls _ _ _ _ _ Hloop) as (Ho & calls & Hcalls & _ & Hall & _).
    split; [by rewrite Ho|]. by exists calls.
  - intros [= <-]. split; [done|]. exists []. by rewrite app_nil_r.
  - intros [= <-]. split; [done|]. exists []. by rewrite app_nil_r.
Qed.

Lemma CopyToRows_calls (fuel : nat) (rows : list (list Datum * list bool)) :
  forall c c', CopyToRows fuel c rows = Some (Ok c') ->
  options_compression c' = options_compression c /\
  exists calls, zcalls c' = zcalls c ++ calls /\ Forall is_row_call calls.
Proof.
  induction rows as [|[vs ns] rows IH]; intros c c'; simpl.
  - intros [= <-]. split; [done|]. exists []. by rewrite app_nil_r.
  - destruct (JsonLinesCopyToOneRow fuel c vs ns) as [[c1| |]|] eqn:Hrow; try done.
    intros Hrest.
    destruct (JsonLinesCopyToOneRow_calls _ _ _ _ _ Hrow) as (Ho1 & calls1 & Hc1 & Hall1).
    destruct (IH _ _ Hrest) as (Ho & calls & Hc & Hall).
    split; [congruence|]. exists (calls1 ++ calls).
    rewrite Hc, Hc1, <- app_assoc. split; [done|]. by apply Forall_app.
Qed.

(** The end routine of a gzip stream: the finish calls, then [deflateEnd]. *)
Lemma JsonLinesCopyToEnd_calls (fuel : nat) (c c' : CopyToStateJsonLines) :
  options_compression c = PG_COMPRESSION_GZIP ->
  JsonLinesCopyToEnd fuel c = Some (Ok c') ->
  exists finish_calls,
    zcalls c' = zcalls c ++ finish_calls ++ [CallDeflateEnd] /\
    finish_calls <> [] /\ Forall is_finish_call finish_calls.
Proof.
  intros Hgzip. unfold JsonLinesCopyToEnd, end_deflate_gzip, write_gzip.
  destruct (decide (options_compression c = PG_COMPRESSION_GZIP)); [|done].
  simpl. destruct (write_gzip_loop fuel c [] Z_FINISH) as [[c1| |]|] eqn:Hloop; try done.
  intros [= <-]. simpl.
  destruct (write_gzip_loop_calls _ _ _ _ _ Hloop) as (_ & calls & Hcalls & Hne & _ & Hall).
  exists calls. rewrite Hcalls, <- app_assoc. split_and!; [done|done|by apply Hall].
Qed.

Lemma JsonLinesCopyToOneRow_mono (fuel fuel' : nat) (c : CopyToStateJsonLines)
    (vs : list Datum) (ns : list bool) o :
  JsonLinesCopyToOneRow fuel c vs ns = Some o -> (fuel <= fuel')%nat ->
  JsonLinesCopyToOneRow fuel' c vs ns = Some o.
Proof.
  unfold JsonLinesCopyToOneRow, write_gzip.
  destruct (options_compression c); try done.
  apply write_gzip_loop_mono.
Qed.

Lemma CopyToRows_mono (fuel fuel' : nat) (rows : list (list Datum * list bool)) :
  forall c o, CopyToRows fuel c rows = Some o -> (fuel <= fuel')%nat ->
  CopyToRows fuel' c rows = Some o.
Proof.
  induction rows as [|[vs ns] rows IH]; intros c o; simpl; [done|].
  destruct (JsonLinesCopyToOneRow fuel c vs ns) as [o1|] eqn:Hrow; [|done].
  intros Hrest Hle.
  rewrite (JsonLinesCopyToOneRow_mono _ _ _ _ _ _ Hrow Hle).
  destruct o1; try done. by apply IH.
Qed.

Lemma JsonLinesCopyToEnd_mono (fuel fuel' : nat) (c : CopyToStateJsonLines) o :
  JsonLinesCopyToEnd fuel c = Some o -> (fuel <= fuel')%nat ->
  JsonLinesCopyToEnd fuel' c = Some o.
Proof.
  unfold JsonLinesCopyToEnd, end_deflate_gzip, write_gzip.
  destruct (decide (options_compression c = PG_COMPRESSION_GZIP)); [|done].
  destruct (write_gzip_loop fuel c (c_str []) Z_FINISH) as [o1|] eqn:Hloop; [|done].
  intros Hend Hle. by rewrite (write_gzip_loop_mono _ _ _ _ _ _ Hloop Hle).
Qed.

Lemma JsonLinesCopyToOneRow_total (pending_out : z_state -> list byte -> nat)
    (c : CopyToStateJsonLines) (vs : list Datum) (ns : list bool) :
  deflate_drains pending_out ->
  exists fuel o, JsonLinesCopyToOneRow fuel c vs ns = Some o.
Proof.
  intros Hdrain. unfold JsonLinesCopyToOneRow, write_gzip.
  destruct (options_compression c); try (by exists O; eauto).
  set (c1 := set_inbuf _ c).
  exists (S (pending_out (to_strm c1) (c_str (inbuf c1)))).
  apply (write_gzip_loop_total pending_out); [done|lia].
Qed.

Lemma CopyToRows_total (pending_out : z_state -> list byte -> nat)
    (rows : list (list Datum * list bool)) :
  deflate_drains pending_out ->
  forall c, exists fuel o, CopyToRows fuel c rows = Some o.
Proof.
  intros Hdrain. induction rows as [|[vs ns] rows IH]; intros c; simpl.
  - exists O. eauto.
  - destruct (JsonLinesCopyToOneRow_total pending_out c vs ns Hdrain) as (f1 & o1 & Hrow).
    destruct o1 as [c1| |].
    + destruct (IH c1) as (f2 & o2 & Hrest).
      exists (max f1 f2), o2.
      rewrite (JsonLinesCopyToOneRow_mono _ (max f1 f2) _ _ _ _ Hrow) by lia.
      apply (CopyToRows_mono f2); [done|lia].
    + exists f1. rewrite Hrow. eauto.
    + exists f1. rewrite Hrow. eauto.
Qed.

Lemma JsonLinesCopyToEnd_total (pending_out : z_state -> list byte -> nat)
    (c : CopyToStateJsonLines) :
  deflate_drains pending_out ->
  exists fuel o, JsonLinesCopyToEnd fuel c = Some o.
Proof.
  intros Hdrain. unfold JsonLinesCopyToEnd, end_deflate_gzip, write_gzip.
  destruct (decide (options_compression c = PG_COMPRESSION_GZIP)); [|by exists O; eauto].
  destruct (write_gzip_loop_total pending_out (S (pending_out (to_strm c) (c_str [])))
              Hdrain c (c_str []) Z_FINISH ltac:(lia)) as [o Hloop].
  eexists. rewrite Hloop. destruct o; eauto.
Qed.

Lemma count_deflateEnd_app (l1 l2 : list zcall) :
  count_deflateEnd (l1 ++ l2) = (count_deflateEnd l1 + count_deflateEnd l2)%nat.
Proof. induction l1 as [|call l1 IH]; simpl; [done|]. rewrite IH. lia. Qed.

Lemma count_deflateEnd_deflate (calls : list zcall) :
  Forall (fun call => exists flush avail_in, call = CallDeflate flush avail_in) calls ->
  count_deflateEnd calls = O.
Proof.
  induction 1 as [|call calls (flush & avail_in & ->) _ IH]; simpl; [done|]. by rewrite IH.
Qed.

Lemma JsonLinesCopyToStart_calls (c c1 : CopyToStateJsonLines) :
  JsonLinesCopyToStart c = Ok c1 ->
  options_compression c1 = options_compression c /\ zcalls c1 = zcalls c.
Proof.
  unfold JsonLinesCopyToStart.
  destruct (compress_specification _ _) as [level|]; [|done]. simpl.
  destruct (options_compression c) eqn:Hopt; simpl; try by intros [= <-].
  unfold initialize_deflate_gzip. destruct (deflateInit2 level); [|done].
  simpl. intros [= <-]. simpl. by rewrite app_nil_r.
Qed.

(** One run of the loop of [write_gzip] is a run of [deflate] on the
    stream of the state: what the calls wrote has been sent, in order. *)
Lemma write_gzip_loop_run (fuel : nat) :
  forall (c c' : CopyToStateJsonLines) (next_in : list byte) (flush : Z),
  write_gzip_loop fuel c next_in flush = Some (Ok c') ->
  exists out calls,
    deflate_run flush (to_strm c) next_in out (to_strm c') calls /\
    sink c' ++ fe_msgbuf c' = sink c ++ fe_msgbuf c ++ out /\
    zcalls c' = zcalls c ++ calls.
Proof.
  induction fuel as [|fuel IH]; intros c c' next_in flush; simpl; [done|].
  destruct (decide (z_ret _ = Z_STREAM_ERROR)) as [|Hok]; [done|].
  set (r := deflate (to_strm c) next_in GZIP_CHUNK_SIZE flush) in *.
  set (call := CallDeflate flush (Z.of_nat (length next_in))).
  set (c1 := set_to_strm (z_next r) [call] c).
  set (c2 := if decide (_ > 0) then _ else c1).
  assert (to_strm c2 = z_next r /\ zcalls c2 = zcalls c ++ [call] /\
          sink c2 ++ fe_msgbuf c2 = sink c ++ fe_msgbuf c ++ z_out r)
    as (Hs2 & Hz2 & Hout2).
  { subst c2. destruct (decide (_ > 0)) as [Hw|Hw]; simpl.
    - split_and!; [done|done|].
      rewrite take_ge by lia. by rewrite app_nil_r.
    - split_and!; [done|done|].
      assert (z_out r = []) as -> by (apply length_zero_iff_nil; lia).
      by rewrite app_nil_r. }
  destruct (decide (_ = 0)) as [Hfull|Hroom].
  - intros Hloop. destruct (IH _ _ _ _ Hloop) as (out & calls & Hrun & Hout & Hcalls).
    exists (z_out r ++ out), (call :: calls). split_and!.
    + rewrite Hs2 in Hrun. by apply deflate_run_more.
    + rewrite Hout, app_assoc, Hout2. by rewrite <- !app_assoc.
    + by rewrite Hcalls, Hz2, <- app_assoc.
  - intros [= <-]. exists (z_out r), [call]. split_and!; [|done|done].
    rewrite Hs2. by apply deflate_run_last.
Qed.

(** The calls of a run carry its flush hint; on no input they carry no
    input either. *)
Lemma deflate_run_calls (flush : Z) (s : z_state) (next_in out : list byte)
    (s' : z_state) (calls : list zcall) :
  deflate_run flush s next_in out s' calls ->
  calls <> [] /\
  Forall (fun call => exists avail_in, call = CallDeflate flush avail_in) calls /\
  (next_in = [] -> Forall (fun call => call = CallDeflate flush 0) calls).
Proof.
  induction 1 as [s next_in Hok Hroom|s next_in out s' calls Hok Hfull Hrun IH].
  - split_and!; [done|repeat constructor; by eexists|].
    intros ->. by repeat constructor.
  - destruct IH as (_ & Hall & Hnil). split_and!; [done| |].
    + constructor; [by eexists|done].
    + intros ->. constructor; [done|]. apply Hnil. by rewrite drop_nil.
Qed.

(** The per-row routine on a gzip stream: one run without flush on the
    row's text and its newline. *)
Lemma JsonLinesCopyToOneRow_run (fuel : nat) (c c' : CopyToStateJsonLines)
    (vs : list Datum) (ns : list bool) :
  options_compression c = PG_COMPRESSION_GZIP ->
  JsonLinesCopyToOneRow fuel c vs ns = Some (Ok c') ->
  exists out calls,
    deflate_run Z_NO_FLUSH (to_strm c) (c_str (c_str (row_to_json vs ns) ++ [NL]))
      out (to_strm c') calls /\
    sink c' ++ fe_msgbuf c' = sink c ++ fe_msgbuf c ++ out /\
    zcalls c' = zcalls c ++ calls /\ Forall is_row_call calls.
Proof.
  intros Hgzip. unfold JsonLinesCopyToOneRow, write_gzip. rewrite Hgzip.
  intros Hloop.
  destruct (write_gzip_loop_run _ _ _ _ _ Hloop) as (out & calls & Hrun & Hout & Hcalls).
  exists out, calls. split_and!; try done.
  by destruct (deflate_run_calls _ _ _ _ _ _ Hrun) as (_ & Hall & _).
Qed.

Lemma CopyToRows_run (fuel : nat) (rows : list (list Datum * list bool)) :
  forall c c' : CopyToStateJsonLines,
  options_compression c = PG_COMPRESSION_GZIP ->
  CopyToRows fuel c rows = Some (Ok c') ->
  exists out calls,
    rows_run (to_strm c) rows out (to_strm c') calls /\
    sink c' ++ fe_msgbuf c' = sink c ++ fe_msgbuf c ++ out /\
    zcalls c' = zcalls c ++ calls /\ Forall is_row_call calls.
Proof.
  induction rows as [|[vs ns] rows IH]; intros c c' Hgzip; simpl.
  - intros [= <-]. exists [], []. rewrite !app_nil_r.
    split_and!; [constructor|done|done|constructor].
  - destruct (JsonLinesCopyToOneRow fuel c vs ns) as [[c1| |]|] eqn:Hrow; try done.
    intros Hrest.
    destruct (JsonLinesCopyToOneRow_run _ _ _ _ _ Hgzip Hrow)
      as (out1 & calls1 & Hrun1 & Hout1 & Hcalls1 & Hall1).
    destruct (JsonLinesCopyToOneRow_calls _ _ _ _ _ Hrow) as (Ho1 & _).
    destruct (IH c1 c' ltac:(congruence) Hrest)
      as (out & calls & Hrun & Hout & Hcalls & Hall).
    exists (out1 ++ out), (calls1 ++ calls). split_and!.
    + by eapply rows_run_cons.
    + rewrite Hout, app_assoc, Hout1. by rewrite <- !app_assoc.
    + by rewrite Hcalls, Hcalls1, <- app_assoc.
    + by apply Forall_app.
Qed.

(** The end routine on a gzip stream: one run with the finish hint and no
    input, then [deflateEnd]. *)
Lemma JsonLinesCopyToEnd_run (fuel : nat) (c c' : CopyToStateJsonLines) :
  options_compression c = PG_COMPRESSION_GZIP ->
  JsonLinesCopyToEnd fuel c = Some (Ok c') ->
  exists out calls,
    deflate_run Z_FINISH (to_strm c) [] out (to_strm c') calls /\
    sink c' ++ fe_msgbuf c' = sink c ++ fe_msgbuf c ++ out /\
    zcalls c' = zcalls c ++ calls ++ [CallDeflateEnd] /\
    calls <> [] /\ Forall is_finish_call calls.
Proof.
  intros Hgzip. unfold JsonLinesCopyToEnd, end_deflate_gzip, write_gzip.
  destruct (decide (options_compression c = PG_COMPRESSION_GZIP)); [|done].
  simpl. destruct (write_gzip_loop fuel c [] Z_FINISH) as [[c1| |]|] eqn:Hloop; try done.
  intros [= <-]. simpl.
  destruct (write_gzip_loop_run _ _ _ _ _ Hloop) as (out & calls & Hrun & Hout & Hcalls).
  destruct (deflate_run_calls _ _ _ _ _ _ Hrun) as (Hne & _ & Hall).
  exists out, calls. rewrite Hcalls, <- app_assoc. split_and!; try done.
  by apply Hall.
Qed.

(** The start routine on a gzip stream: the level of the specification, a
    fresh stream, nothing sent, no call. *)
Lemma JsonLinesCopyToStart_gzip (c c1 : CopyToStateJsonLines) :
  options_compression c = PG_COMPRESSION_GZIP ->
  JsonLinesCopyToStart c = Ok c1 ->
  exists level,
    compress_specification PG_COMPRESSION_GZIP (compression_detail_str c) =
      Some level /\
    deflateInit2 level = Some (to_strm c1) /\
    options_compression c1 = PG_COMPRESSION_GZIP /\
    sink c1 = sink c /\ fe_msgbuf c1 = fe_msgbuf c /\ zcalls c1 = zcalls c.
Proof.
  intros Hgzip. unfold JsonLinesCopyToStart. rewrite Hgzip.
  destruct (compress_specification _ _) as [level|]; [|done]. simpl.
  rewrite Hgzip. unfold initialize_deflate_gzip. simpl.
  destruct (deflateInit2 level) as [s0|] eqn:Hinit; [|done].
  simpl. intros [= <-]. simpl. exists level. rewrite app_nil_r. by split_and!.
Qed.

(** C9: the finish step of a gzip write stream is what the end routine
    does, and nothing else does it.  A per-row write is one run of [deflate]
    without flush on the row's text: it makes no call with the finish hint
    and never releases the stream.  The end routine is one run of [deflate]
    with the finish hint and no input, repeated while the output room fills,
    whose output is all sent, followed by one [deflateEnd].  So a copy
    (start once, every row, end once) on a stream whose [deflate] drains
    runs to an outcome, and when it completes, the stream opened by the
    start routine has taken the rows' runs and then the finish run, what
    has been sent is their output in that order, and the calls made are
    those of the rows, then those of the one finish run, then the one
    [deflateEnd]. *)
Theorem finish_runs_once_at_end (pending_out : z_state -> list byte -> nat) :
  (forall (fuel : nat) (c c' : CopyToStateJsonLines) (vs : list Datum) (ns : list bool),
     options_compression c = PG_COMPRESSION_GZIP ->
     JsonLinesCopyToOneRow fuel c vs ns = Some (Ok c') ->
     exists out calls,
       deflate_run Z_NO_FLUSH (to_strm c) (c_str (c_str (row_to_json vs ns) ++ [NL]))
         out (to_strm c') calls /\
       sink c' ++ fe_msgbuf c' = sink c ++ fe_msgbuf c ++ out /\
       zcalls c' = zcalls c ++ calls /\
       Forall is_row_call calls /\ count_deflateEnd calls = 0%nat) /\
  (forall (fuel : nat) (c c' : CopyToStateJsonLines),
     options_compression c = PG_COMPRESSION_GZIP ->
     JsonLinesCopyToEnd fuel c = Some (Ok c') ->
     exists out calls,
       deflate_run Z_FINISH (to_strm c) [] out (to_strm c') calls /\
       sink c' ++ fe_msgbuf c' = sink c ++ fe_msgbuf c ++ out /\
       zcalls c' = zcalls c ++ calls ++ [CallDeflateEnd] /\
       calls <> [] /\ Forall is_finish_call calls) /\
  (deflate_drains pending_out ->
   forall (c : CopyToStateJsonLines) (rows : list (list Datum * list bool)),
   options_compression c = PG_COMPRESSION_GZIP ->
   exists fuel0, forall fuel, (fuel0 <= fuel)%nat ->
     exists o, DoCopyTo fuel c rows = Some o /\
       forall c', o = Ok c' ->
         exists level s0 out_rows s_rows row_calls out_finish finish_calls,
           compress_specification PG_COMPRESSION_GZIP (compression_detail_str c) =
             Some level /\
           deflateInit2 level = Some s0 /\
           rows_run s0 rows out_rows s_rows row_calls /\
           deflate_run Z_FINISH s_rows [] out_finish (to_strm c') finish_calls /\
           sink c' ++ fe_msgbuf c' =
             sink c ++ fe_msgbuf c ++ out_rows ++ out_finish /\
           zcalls c' = zcalls c ++ row_calls ++ finish_calls ++ [CallDeflateEnd] /\
           Forall is_row_call row_calls /\
           finish_calls <> [] /\ Forall is_finish_call finish_calls /\
           count_deflateEnd (row_calls ++ finish_calls ++ [CallDeflateEnd]) = 1%nat).
Proof.
  assert (forall calls, Forall is_row_call calls -> count_deflateEnd calls = 0%nat)
    as Hrow0.
  { intros calls Hall. apply count_deflateEnd_deflate.
    eapply Forall_impl; [exact Hall|]. intros call [n ->]. by eexists _, _. }
  assert (forall calls, Forall is_finish_call calls -> count_deflateEnd calls = 0%nat)
    as Hfin0.
  { intros calls Hall. apply count_deflateEnd_deflate.
    eapply Forall_impl; [exact Hall|]. intros call ->. by eexists _, _. }
  split_and!.
  - intros fuel c c' vs ns Hgzip Hrow.
    destruct (JsonLinesCopyToOneRow_run _ _ _ _ _ Hgzip Hrow)
      as (out & calls & Hrun & Hout & Hcalls & Hall).
    exists out, calls. split_and!; try done. by apply Hrow0.
  - intros fuel c c' Hgzip Hend. by apply (JsonLinesCopyToEnd_run fuel).
  - intros Hdrain c rows Hgzip.
  assert (forall fuel c', DoCopyTo fuel c rows = Some (Ok c') ->
            exists level s0 out_rows s_rows row_calls out_finish finish_calls,
              compress_specification PG_COMPRESSION_GZIP (compression_detail_str c) =
                Some level /\
              deflateInit2 level = Some s0 /\
              rows_run s0 rows out_rows s_rows row_calls /\
              deflate_run Z_FINISH s_rows [] out_finish (to_strm c') finish_calls /\
              sink c' ++ fe_msgbuf c' =
                sink c ++ fe_msgbuf c ++ out_rows ++ out_finish /\
              zcalls c' = zcalls c ++ row_calls ++ finish_calls ++ [CallDeflateEnd] /\
              Forall is_row_call row_calls /\
              finish_calls <> [] /\ Forall is_finish_call finish_calls /\
              count_deflateEnd (row_calls ++ finish_calls ++ [CallDeflateEnd]) = 1%nat)
    as Hcalls.
  { intros fuel c'. unfold DoCopyTo.
    destruct (JsonLinesCopyToStart c) as [c1| |] eqn:Hstart; try done.
    destruct (JsonLinesCopyToStart_gzip _ _ Hgzip Hstart)
      as (level & Hspec & Hinit & Ho1 & Hs1 & Hb1 & Hz1).
    destruct (CopyToRows fuel c1 rows) as [[c2| |]|] eqn:Hrows; try done.
    destruct (CopyToRows_run _ _ _ _ Ho1 Hrows)
      as (out_rows & row_calls & Hrun2 & Hout2 & Hz2 & Hall2).
    destruct (CopyToRows_calls _ _ _ _ Hrows) as (Ho2 & _).
    intros Hend.
    destruct (JsonLinesCopyToEnd_run fuel c2 c' ltac:(congruence) Hend)
      as (out_finish & finish_calls & Hrun3 & Hout3 & Hz3 & Hne & Hall3).
    exists level, (to_strm c1), out_rows, (to_strm c2), row_calls, out_finish,
           finish_calls.
    split_and!; try done.
    - rewrite Hout3, app_assoc, Hout2, Hs1, Hb1. by rewrite <- !app_assoc.
    - by rewrite Hz3, Hz2, Hz1, <- app_assoc.
    - rewrite !count_deflateEnd_app, (Hrow0 _ Hall2), (Hfin0 _ Hall3). done. }
  assert (exists fuel0 o, DoCopyTo fuel0 c rows = Some o /\
            forall fuel, (fuel0 <= fuel)%nat -> DoCopyTo fuel c rows = Some o)
    as (fuel0 & o & Hrun & Hmono).
  { unfold DoCopyTo.
    destruct (JsonLinesCopyToStart c) as [c1| |]; [|by exists O; eauto..].
    destruct (CopyToRows_total pending_out rows Hdrain c1) as (f1 & o1 & Hrows).
    destruct o1 as [c2| |].
    - destruct (JsonLinesCopyToEnd_total pending_out c2 Hdrain) as (f2 & o2 & Hend).
      exists (max f1 f2), o2.
      assert (forall fuel, (max f1 f2 <= fuel)%nat ->
                match CopyToRows fuel c1 rows with
                | Some (Ok cstate2) => JsonLinesCopyToEnd fuel cstate2
                | other => other
                end = Some o2) as Hall.
      { intros fuel Hle. rewrite (CopyToRows_mono _ fuel _ _ _ Hrows) by lia.
        apply (JsonLinesCopyToEnd_mono f2); [done|lia]. }
      split; [by apply Hall|done].
    - exists f1, (Raise e).
      assert (forall fuel, (f1 <= fuel)%nat ->
                match CopyToRows fuel c1 rows with
                | Some (Ok cstate2) => JsonLinesCopyToEnd fuel cstate2
                | other => other
                end = Some (Raise e)) as Hall
        by (intros fuel Hle; by rewrite (CopyToRows_mono _ fuel _ _ _ Hrows) by lia).
      split; [by apply Hall|done].
    - exists f1, Undefined.
      assert (forall fuel, (f1 <= fuel)%nat ->
                match CopyToRows fuel c1 rows with
                | Some (Ok cstate2) => JsonLinesCopyToEnd fuel cstate2
                | other => other
                end = Some Undefined) as Hall
        by (intros fuel Hle; by rewrite (CopyToRows_mono _ fuel _ _ _ Hrows) by lia).
      split; [by apply Hall|done]. }
  exists fuel0. intros fuel Hle. exists o. split; [by apply Hmono|].
  intros c' ->. apply (Hcalls fuel). by apply Hmono.
Qed.

End Finish.

Lemma holding_deflate_drains :
  @deflate_drains Toy.toy_types ToyMore.holding_host Toy.toy_pending_out.
Proof.
  intros s next_in flush.
  change (@deflate Toy.toy_types ToyMore.holding_host s next_in GZIP_CHUNK_SIZE flush)
    with (ToyMore.holding_deflate s next_in GZIP_CHUNK_SIZE flush).
  assert (0 < GZIP_CHUNK_SIZE) as Hpos by (unfold GZIP_CHUNK_SIZE; lia).
  revert Hpos. generalize GZIP_CHUNK_SIZE. intros chunk Hpos.
  unfold ToyMore.holding_deflate, Toy.toy_pending_out.
  destruct (decide (flush = Z_FINISH)); cbn [z_out z_next z_avail_in]; intros Hfull.
  - rewrite length_take, length_app in Hfull.
    rewrite !length_drop, length_app. lia.
  - simpl in Hfull. lia.
Qed.

Section FinishExamples.
#[local] Existing Instance Toy.toy_types.

(** Two rows written through the gzip path with a [deflate] that holds
    everything back until the finish: after the rows nothing has been sent;
    the copy makes two calls without flush, of 16 and 17 bytes, one call
    with the finish hint and no input, one [deflateEnd], and what has been
    sent is what the finish call wrote. *)
Lemma finish_runs_once_at_end_witness :
  @deflate_drains Toy.toy_types ToyMore.holding_host Toy.toy_pending_out /\
  options_compression (Toy.writer PG_COMPRESSION_GZIP) = PG_COMPRESSION_GZIP /\
  (exists c1 c2,
     @JsonLinesCopyToStart Toy.toy_types ToyMore.holding_host
       (Toy.writer PG_COMPRESSION_GZIP) = Ok c1 /\
     @CopyToRows Toy.toy_types ToyMore.holding_host 1 c1 Toy.two_rows = Some (Ok c2) /\
     sink c2 = [] /\ to_strm c2 = Toy.two_lines) /\
  exists c' level s0 out_rows s_rows row_calls out_finish finish_calls,
    @DoCopyTo Toy.toy_types ToyMore.holding_host 1 (Toy.writer PG_COMPRESSION_GZIP)
      Toy.two_rows = Some (Ok c') /\
    @deflateInit2 Toy.toy_types ToyMore.holding_host level = Some s0 /\
    @rows_run Toy.toy_types ToyMore.holding_host s0 Toy.two_rows out_rows s_rows
      row_calls /\
    @deflate_run Toy.toy_types ToyMore.holding_host Z_FINISH s_rows [] out_finish
      (to_strm c') finish_calls /\
    sink c' ++ fe_msgbuf c' = out_rows ++ out_finish /\
    zcalls c' = row_calls ++ finish_calls ++ [CallDeflateEnd] /\
    sink c' = Toy.two_lines /\ to_strm c' = [] /\
    zcalls c' = [CallDeflate Z_NO_FLUSH 16; CallDeflate Z_NO_FLUSH 17;
                 CallDeflate Z_FINISH 0; CallDeflateEnd].
Proof.
  split_and!; [exact holding_deflate_drains|reflexivity| |].
  - eexists _, _. split_and!; [reflexivity|vm_compute; reflexivity|reflexivity..].
  - destruct (@finish_runs_once_at_end Toy.toy_types ToyMore.holding_host
                Toy.toy_pending_out) as (_ & _ & Hcopy).
    destruct (Hcopy holding_deflate_drains (Toy.writer PG_COMPRESSION_GZIP)
                Toy.two_rows eq_refl) as (fuel0 & Hrun).
    destruct (Hrun (max fuel0 1) ltac:(lia)) as (o & Ho & Hdone).
    assert (exists x,
              @DoCopyTo Toy.toy_types ToyMore.holding_host 1
                (Toy.writer PG_COMPRESSION_GZIP) Toy.two_rows = Some (Ok x) /\
              sink x = Toy.two_lines /\ to_strm x = [] /\
              zcalls x = [CallDeflate Z_NO_FLUSH 16; CallDeflate Z_NO_FLUSH 17;
                          CallDeflate Z_FINISH 0; CallDeflateEnd])
      as (x & Hx & Hsink & Hstrm & Hz)
      by (eexists; split_and!; [vm_compute; reflexivity|reflexivity..]).
    assert (o = Ok x) as ->.
    { unfold DoCopyTo in Ho, Hx.
      destruct (@JsonLinesCopyToStart Toy.toy_types ToyMore.holding_host
                  (Toy.writer PG_COMPRESSION_GZIP)) as [c1| |]; [|congruence..].
      destruct (@CopyToRows Toy.toy_types ToyMore.holding_host 1 c1 Toy.two_rows)
        as [[c2| |]|] eqn:Hrows; try done.
      rewrite (CopyToRows_mono 1 (max fuel0 1) _ _ _ Hrows) in Ho by lia.
      rewrite (JsonLinesCopyToEnd_mono 1 (max fuel0 1) _ _ Hx) in Ho by lia.
      congruence. }
    destruct (Hdone x eq_refl)
      as (level & s0 & out_rows & s_rows & row_calls & out_finish & finish_calls &
          _ & Hinit & Hrows & Hfinish & Hout & Hcalls & _).
    exists x, level, s0, out_rows, s_rows, row_calls, out_finish, finish_calls.
    split_and!; done.
Defined.

End FinishExamples.

(** ** Round trip *)

Section RoundTrip.
Context {host_types : HostTypes} {host : Host}.

(** The uncompressed write path sends each row's text and a newline. *)
Lemma CopyToRows_plain (fuel : nat) (rows : list (list Datum * list bool)) :
  forall c, options_compression c = PG_COMPRESSION_NONE -> fe_msgbuf c = [] ->
  exists c', CopyToRows fuel c rows = Some (Ok c') /\
    sink c' = sink c ++ encode_rows rows /\ fe_msgbuf c' = [] /\
    zcalls c' = zcalls c.
Proof.
  induction rows as [|[vs ns] rows IH]; intros c Hnone Hbuf; simpl.
  - exists c. unfold encode_rows. simpl. by rewrite app_nil_r.
  - unfold JsonLinesCopyToOneRow. rewrite Hnone.
    set (c1 := CopyToFlushData _).
    destruct (IH c1) as (c' & Hrows & Hsink & Hbuf' & Hz); [done..|].
    exists c'. split_and!; try done.
    rewrite Hsink. subst c1. unfold encode_rows. simpl.
    by rewrite Hbuf, app_nil_l, <- !app_assoc.
Qed.

(** A column loop in which every listed column is null or convertible
    succeeds. *)
Lemma foreach_attnum_ok (desc : list FormData_pg_attribute) (jb : Jsonb)
    (attnums : list Z) :
  forall a, buf a = [] ->
  Forall (in_bounds desc (values a) (nulls a)) attnums ->
  (forall attnum att, attnum ∈ attnums ->
     desc !! Z.to_nat (attnum - 1) = Some att ->
     (getKeyJsonValueFromContainer jb (attname att) = None \/
      getKeyJsonValueFromContainer jb (attname att) = Some jbvNull) \/
     exists v str d,
       getKeyJsonValueFromContainer jb (attname att) = Some v /\ v <> jbvNull /\
       GetJsonbValueAsCString v [] = Ok str /\
       InputFunctionCall (atttypid att) (c_str str) (atttypmod att) = Some d) ->
  exists a', foreach_attnum desc jb attnums a = Ok a'.
Proof.
  induction attnums as [|attnum0 attnums IH]; intros a Hbuf Hall Hcols; simpl;
    [by eexists|].
  apply Forall_cons in Hall as [Hb0 Hall].
  assert (exists a1, decode_column desc jb a attnum0 = Ok a1) as [a1 Hcol].
  { destruct Hb0 as (H1 & Hd & Hvs & Hns).
    destruct (lookup_lt_is_Some_2 desc _ Hd) as [att Hatt].
    rewrite (decode_column_unfold _ _ _ _ att) by done. simpl.
    destruct (Hcols attnum0 att (list_elem_of_here _ _) Hatt)
      as [[Hk|Hk]|(v & str & d & Hk & Hnn & Hstr & Hin)]; rewrite Hk.
    - by eexists.
    - by eexists.
    - destruct (is_jbvNull v) eqn:Hv; [by apply is_jbvNull_true in Hv|].
      rewrite Hbuf, Hstr. simpl. rewrite Hin. by eexists. }
  rewrite Hcol. simpl.
  destruct (decode_column_inv _ _ _ _ _ Hcol Hbuf) as (Hb1 & Hv1 & Hn1 & _).
  apply IH; [done| |].
  - eapply Forall_impl; [exact Hall|].
    intros x (? & ? & ? & ?). unfold in_bounds. rewrite Hv1, Hn1. done.
  - intros attnum att Hin. apply Hcols. by apply list_elem_of_further.
Qed.

Lemma all_attnums_elem (desc : list FormData_pg_attribute) (i : nat) :
  (i < length desc)%nat ->
  Z.of_nat (S i) ∈ all_attnums desc /\ Z.to_nat (Z.of_nat (S i) - 1) = i.
Proof.
  intros Hi. split; [|lia]. unfold all_attnums.
  apply list_elem_of_fmap_2, elem_of_seq. lia.
Qed.

Lemma all_attnums_bounds (desc : list FormData_pg_attribute)
    (vs : list Datum) (ns : list bool) :
  length vs = length desc -> length ns = length desc ->
  Forall (in_bounds desc vs ns) (all_attnums desc).
Proof.
  intros Hvs Hns. unfold all_attnums. apply Forall_fmap, Forall_seq.
  intros j Hj. unfold in_bounds. simpl. rewrite Hvs, Hns. lia.
Qed.

(** A cell that came as a JSON string, number or boolean: the decoder
    renders its text and the input function gives the cell back. *)
Lemma cell_as_json_decodes (att : FormData_pg_attribute) (d : Datum)
    (v : JsonbValue) :
  cell_as_json att d v ->
  v <> jbvNull /\
  exists str, GetJsonbValueAsCString v [] = Ok str /\
    InputFunctionCall (atttypid att) (c_str str) (atttypmod att) = Some d.
Proof.
  destruct v as [|val|numeric|[|]| | | |]; simpl; try done.
  - intros [Hc Hin]. split; [done|]. exists val. by rewrite c_str_c_string.
  - intros [Hc Hin]. split; [done|]. exists (numeric_out numeric).
    by rewrite c_str_c_string.
  - intros Hin. split; [done|]. by exists (bs "true").
  - intros Hin. split; [done|]. by exists (bs "false").
Qed.

(** Decoding the text of one row gives back its cells. *)
Lemma decode_line_round_trip (c : CopyFromStateJsonLines)
    (values0 : list Datum) (nulls0 : list bool) (vs : list Datum) (ns : list bool) :
  host_carries_row (tupdesc (base c)) vs ns ->
  attnumlist (base c) = all_attnums (tupdesc (base c)) ->
  length values0 = length (tupdesc (base c)) ->
  length nulls0 = length (tupdesc (base c)) ->
  line_buf c = c_str (row_to_json vs ns) ->
  exists r, decode_line c values0 nulls0 None = Ok r /\
    returned r = true /\ state_after r = c /\
    length (values_after r) = length (tupdesc (base c)) /\
    length (nulls_after r) = length (tupdesc (base c)) /\
    cells (values_after r) (nulls_after r) = cells vs ns.
Proof.
  intros (Hnl & Hlv & Hln & jb & Hjson & Hcols) Hattnums Hv0 Hn0 Hline.
  set (desc := tupdesc (base c)) in *.
  unfold decode_line. rewrite Hline, c_str_idemp, Hjson. fold desc. rewrite Hattnums.
  destruct (foreach_attnum_ok desc jb (all_attnums desc)
              {| values := values0; nulls := nulls0; buf := [] |} eq_refl)
    as [a' Hloop].
  { by apply all_attnums_bounds. }
  { intros attnum att Hin Hatt. specialize (Hcols _ _ Hatt).
    destruct (cell vs ns _) as [d|]; [|by left].
    right. destruct Hcols as (v & Hk & Hcell).
    destruct (cell_as_json_decodes _ _ _ Hcell) as (Hnn & str & Hstr & Hconv).
    by exists v, str, d. }
  rewrite Hloop. simpl. eexists. split; [reflexivity|]. simpl.
  destruct (foreach_attnum_inv _ _ _ _ _ Hloop eq_refl) as (_ & Hv' & Hn' & Hdone & _).
  simpl in Hv', Hn'. split_and!; try done; try congruence.
  unfold cells. rewrite Hn', Hn0, Hln.
  apply list_fmap_ext. intros i x Hi. apply lookup_seq in Hi as [-> Hi]. simpl.
  destruct (all_attnums_elem desc i Hi) as [Hin Hidx].
  destruct (lookup_lt_is_Some_2 desc i Hi) as [att Hatt].
  specialize (Hdone _ Hin). rewrite Hidx in Hdone.
  destruct (Hdone att Hatt) as [Hnull Hval].
  specialize (Hcols i att Hatt).
  destruct (cell vs ns i) as [d|].
  - destruct Hcols as (v & Hk & Hjson').
    destruct (cell_as_json_decodes _ _ _ Hjson') as (Hnn & str & Hstr & Hin').
    destruct (Hval v Hk Hnn) as (str' & d' & Hstr' & Hin'' & _ & Hcell).
    rewrite Hcell. congruence.
  - by destruct (Hnull Hcols) as [_ ?].
Qed.

Lemma CopyFrom_S (rows_fuel fuel : nat) (c : CopyFromStateJsonLines)
    (values0 : list Datum) (nulls0 : list bool) :
  CopyFrom (S rows_fuel) fuel c values0 nulls0 =
    match JsonLinesCopyFromOneRow fuel c values0 nulls0 None with
    | None => None
    | Some (Ok r) =>
        if returned r then
          match CopyFrom rows_fuel fuel (state_after r)
                         (values_after r) (nulls_after r) with
          | Some (Ok rows) =>
              Some (Ok (cells (values_after r) (nulls_after r) :: rows))
          | other => other
          end
        else Some (Ok [])
    | Some (Raise e) => Some (Raise e)
    | Some Undefined => Some Undefined
    end.
Proof. reflexivity. Qed.

(** Reading back what the write path sent, in any chunks. *)
Lemma CopyFrom_encoded (fuel : nat) (desc : list FormData_pg_attribute)
    (rows : list (list Datum * list bool)) :
  Forall (fun row => host_carries_row desc row.1 row.2) rows ->
  forall (c : CopyFromStateJsonLines) (values0 : list Datum) (nulls0 : list bool),
  input_buf_inv c -> compression c = PG_COMPRESSION_NONE ->
  tupdesc (base c) = desc -> attnumlist (base c) = all_attnums desc ->
  length values0 = length desc -> length nulls0 = length desc ->
  nonempty_chunks (source (base c)) ->
  pending c = encode_rows rows ->
  (read_fuel (source (base c)) <= fuel)%nat ->
  CopyFrom (S (length rows)) fuel c values0 nulls0 =
    Some (Ok ((fun row => cells row.1 row.2) <$> rows)).
Proof.
  induction 1 as [|[vs ns] rows Hrow Hrows IH];
    intros c values0 nulls0 Hinv Hnone Hdesc Hattnums Hv0 Hn0 Hne Hpend Hfuel.
  - destruct (JsonLineReadLine_eof fuel c Hinv Hnone) as (c' & Hread & _);
      [rewrite Hpend; apply not_elem_of_nil|done|].
    simpl. unfold JsonLinesCopyFromOneRow. by rewrite Hread.
  - simpl in Hrow.
    assert (pending c = c_str (row_to_json vs ns) ++ NL :: encode_rows rows) as Hpend'.
    { rewrite Hpend. unfold encode_rows. simpl. by rewrite <- app_assoc. }
    destruct Hrow as (Hnl & Hrest).
    destruct (JsonLineReadLine_line fuel c _ _ Hinv Hnone Hne Hpend' Hnl)
      as (c' & Hread & Hline & Hpend1 & (Hc1 & Ht1 & Ha1 & _) & Hinv1 & Hne1 & Hfuel1);
      [|done|].
    { pose proof (c_str_is_c_string (row_to_json vs ns)) as Hcs.
      intros Hin. eapply Forall_forall in Hcs; [|exact Hin]. done. }
    destruct (decode_line_round_trip c' values0 nulls0 vs ns)
      as (r & Hdec & Hret & Hstate & Hlv & Hln & Hcells); try congruence.
    { rewrite Ht1, Hdesc. by split. }
    simpl length. rewrite CopyFrom_S.
    unfold JsonLinesCopyFromOneRow. rewrite Hread, Hdec, Hret, Hstate.
    rewrite (IH c' (values_after r) (nulls_after r)); try congruence; try lia.
    by rewrite Hcells.
Qed.

(** C1: rows of text, number, boolean and null cells, which PostgreSQL's
    own functions turn into a JSON object with a string, a number, a boolean
    or a null (or nothing) under each column's name ([host_carries_row], an
    assumption on the host alone), are written by the uncompressed one-row
    routine as one line each; reading those bytes back with the one-row
    routine, in whatever non-empty chunks the source delivers them, finds
    each column by name, renders its text, converts it, and gives the same
    cells, value for value and null for null, in column order, and then end
    of input. *)
Theorem encode_then_decode (fuel_w : nat) (desc : list FormData_pg_attribute)
    (cto : CopyToStateJsonLines) (rows : list (list Datum * list bool)) :
  options_compression cto = PG_COMPRESSION_NONE ->
  fe_msgbuf cto = [] -> sink cto = [] ->
  Forall (fun row => host_carries_row desc row.1 row.2) rows ->
  exists cto', CopyToRows fuel_w cto rows = Some (Ok cto') /\
    forall (c : CopyFromStateJsonLines) (values0 : list Datum) (nulls0 : list bool)
           (fuel : nat),
      input_buf_inv c -> INPUT_BUF_BYTES c = 0 ->
      compression c = PG_COMPRESSION_NONE ->
      tupdesc (base c) = desc -> attnumlist (base c) = all_attnums desc ->
      length values0 = length desc -> length nulls0 = length desc ->
      nonempty_chunks (source (base c)) ->
      concat (source (base c)) = sink cto' ->
      (read_fuel (source (base c)) <= fuel)%nat ->
      CopyFrom (S (length rows)) fuel c values0 nulls0 =
        Some (Ok ((fun row => cells row.1 row.2) <$> rows)).
Proof.
  intros Hnone Hbuf Hsink Hrows.
  destruct (CopyToRows_plain fuel_w rows cto Hnone Hbuf) as (cto' & Hwrite & Hsink' & _).
  exists cto'. split; [done|].
  intros c values0 nulls0 fuel Hinv Hdrained Hplain Hdesc Hattnums Hv0 Hn0 Hne Hcat Hfuel.
  apply (CopyFrom_encoded fuel desc rows Hrows); try done.
  unfold pending. rewrite unread_drained by lia.
  by rewrite Hcat, Hsink', Hsink.
Qed.

End RoundTrip.

Section RoundTripExamples.
#[local] Existing Instance ToyMore.typed_types.
#[local] Existing Instance ToyMore.typed_host.

Lemma typed_rows_carried :
  Forall (fun row => host_carries_row ToyMore.desc_abc row.1 row.2) ToyMore.typed_rows.
Proof.
  repeat (apply Forall_cons; split); [| |apply Forall_nil_2];
    (split_and!; [by_compute|reflexivity|reflexivity|];
     eexists; split; [vm_compute; reflexivity|];
     intros [|[|[|i]]] att Hatt; simpl in Hatt; [| | |discriminate];
     injection Hatt as <-; vm_compute;
     try (by right);
     eexists; (split; [reflexivity|]); vm_compute;
     try reflexivity; (split; [|reflexivity]);
     repeat constructor; discriminate).
Qed.

(** The rows [(1, "x", true)] and [(2, NULL, false)], written and read back
    in two chunks cut in the middle of the second line. *)
Lemma encode_then_decode_witness :
  options_compression ToyMore.typed_writer = PG_COMPRESSION_NONE /\
  Forall (fun row => host_carries_row ToyMore.desc_abc row.1 row.2)
    ToyMore.typed_rows /\
  input_buf_inv
    (ToyMore.typed_reader [take 30 ToyMore.typed_lines; drop 30 ToyMore.typed_lines]) /\
  nonempty_chunks [take 30 ToyMore.typed_lines; drop 30 ToyMore.typed_lines] /\
  exists cto',
    CopyToRows 0 ToyMore.typed_writer ToyMore.typed_rows = Some (Ok cto') /\
    sink cto' = ToyMore.typed_lines /\
    CopyFrom 3 140
        (ToyMore.typed_reader [take 30 ToyMore.typed_lines; drop 30 ToyMore.typed_lines])
        [ToyMore.VInt (bs "9"); ToyMore.VText (bs "old"); ToyMore.VBool false]
        [false; false; false] =
      Some (Ok [[Some (ToyMore.VInt (bs "1")); Some (ToyMore.VText (bs "x"));
                 Some (ToyMore.VBool true)];
                [Some (ToyMore.VInt (bs "2")); None; Some (ToyMore.VBool false)]]).
Proof.
  assert (input_buf_inv
            (ToyMore.typed_reader
               [take 30 ToyMore.typed_lines; drop 30 ToyMore.typed_lines]))
    as Hinv by example_inv.
  assert (nonempty_chunks [take 30 ToyMore.typed_lines; drop 30 ToyMore.typed_lines])
    as Hne by (repeat constructor; discriminate).
  split_and!; [reflexivity|exact typed_rows_carried|done|done|].
  destruct (@encode_then_decode ToyMore.typed_types ToyMore.typed_host 0
              ToyMore.desc_abc ToyMore.typed_writer ToyMore.typed_rows
              eq_refl eq_refl eq_refl typed_rows_carried)
    as (cto' & Hwrite & Hread).
  assert (exists x, CopyToRows 0 ToyMore.typed_writer ToyMore.typed_rows =
                      Some (Ok x) /\ sink x = ToyMore.typed_lines) as (x & Hx & Hsink)
    by (eexists; split; [vm_compute; reflexivity|reflexivity]).
  rewrite Hx in Hwrite. injection Hwrite as ->.
  exists cto'. split_and!; [done|done|].
  apply (Hread (ToyMore.typed_reader
                  [take 30 ToyMore.typed_lines; drop 30 ToyMore.typed_lines])
           [ToyMore.VInt (bs "9"); ToyMore.VText (bs "old"); ToyMore.VBool false]
           [false; false; false] 140%nat Hinv eq_refl eq_refl eq_refl eq_refl
           eq_refl eq_refl Hne).
  - rewrite Hsink. reflexivity.
  - by_compute.
Defined.

End RoundTripExamples.

(** ** Blank lines *)

Section BlankLines.
Context {host_types : HostTypes} {host : Host}.

(** With the newline of a blank line next in the input buffer, in any
    compression mode, the empty line goes to [jsonb_in]. *)
Lemma blank_line_next (fuel : nat) (c : CopyFromStateJsonLines)
    (values0 : list Datum) (nulls0 : list bool) (rowinfo : option CopyFromRowInfo)
    (post : list byte) :
  input_buf_inv c -> unread c = NL :: post -> jsonb_in [] = None ->
  JsonLinesCopyFromOneRow (S fuel) c values0 nulls0 rowinfo =
    Some (Raise ErrInvalidJsonb).
Proof.
  intros Hinv Hun Hjson.
  pose proof (unread_length c Hinv) as Hlen. rewrite Hun in Hlen. simpl in Hlen.
  unfold JsonLinesCopyFromOneRow, JsonLineReadLine. simpl.
  unfold JsonLineReadLine_body.
  set (c0 := set_line_buf [] c).
  assert (input_buf_inv c0) as Hinv0 by exact Hinv.
  assert (unread c0 = [] ++ NL :: post) as Hun0 by exact Hun.
  assert (0 < INPUT_BUF_BYTES c0) as Hpos by (change (0 < INPUT_BUF_BYTES c); lia).
  destruct (decide (INPUT_BUF_BYTES c0 <= 0)); [lia|]. simpl.
  assert (strchr (unread c0 ++ [NUL]) NL = Some (length (@nil byte))) as Hscan.
  { rewrite Hun0, <- app_assoc. simpl.
    apply (strchr_first [] (post ++ [NUL])); apply not_elem_of_nil. }
  destruct (scan_newline_some c0 _ Hinv0 Hpos Hscan)
    as (_ & c' & -> & Hline & _).
  unfold decode_line. rewrite Hline, Hun0. simpl. by rewrite Hjson.
Qed.

(** The copy of a stream with a blank line behind lines free of NUL. *)
Lemma CopyFrom_blank_line (fuel : nat) (before : list (list byte)) (rest : list byte) :
  jsonb_in [] = None ->
  Forall (fun line => (NL ∉ line) /\ (NUL ∉ line)) before ->
  forall (rows_fuel : nat) (c : CopyFromStateJsonLines)
         (values0 : list Datum) (nulls0 : list bool),
  input_buf_inv c -> compression c = PG_COMPRESSION_NONE ->
  nonempty_chunks (source (base c)) ->
  pending c = lines_stream before ++ NL :: rest ->
  (read_fuel (source (base c)) <= fuel)%nat -> (length before <= rows_fuel)%nat ->
  CopyFrom (S rows_fuel) fuel c values0 nulls0 =
    Some (decode_lines (tupdesc (base c)) (attnumlist (base c)) before values0 nulls0
            ≫= fun _ => Raise ErrInvalidJsonb).
Proof.
  intros Hjson Hlines.
  induction Hlines as [|line lines [Hnl Hnul] Hlines IH];
    intros rows_fuel c values0 nulls0 Hinv Hnone Hne Hpend Hfuel Hrows.
  - destruct (JsonLineReadLine_line fuel c [] rest)
      as (c' & Hread & Hline & _); try done; try apply not_elem_of_nil.
    rewrite CopyFrom_S. unfold JsonLinesCopyFromOneRow. rewrite Hread.
    unfold decode_line. rewrite Hline. simpl. by rewrite Hjson.
  - assert (pending c = line ++ NL :: (lines_stream lines ++ NL :: rest)) as Hpend'.
    { rewrite Hpend. unfold lines_stream. simpl. by rewrite <- !app_assoc. }
    destruct (JsonLineReadLine_line fuel c _ _ Hinv Hnone Hne Hpend' Hnl Hnul)
      as (c' & Hread & Hline & Hpend1 & (Hc1 & Ht1 & Ha1 & _) & Hinv1 & Hne1 & Hfuel1);
      [done|].
    simpl in Hrows. destruct rows_fuel as [|rows_fuel]; [lia|].
    rewrite CopyFrom_S.
    unfold JsonLinesCopyFromOneRow. rewrite Hread. unfold decode_line.
    rewrite Hline, Ht1, Ha1. simpl.
    destruct (jsonb_in (c_str line)) as [jb|]; [|done].
    destruct (foreach_attnum _ jb _ _) as [a| |]; simpl; [|done..].
    rewrite <- CopyFrom_S.
    rewrite (IH rows_fuel c' (values a) (nulls a)); try congruence; try lia.
    rewrite Ht1, Ha1.
    by destruct (decode_lines _ _ lines (values a) (nulls a)).
Qed.

(** C10 (amended: no NUL byte before the blank line): a blank line is not
    skipped.  In any compression mode, when the newline of an empty line is
    the next unread byte, the zero-length line goes to [jsonb_in], which
    rejects the empty string, and the one-row routine and the driver raise
    the invalid-JSON error.  And for every uncompressed stream that holds an
    empty line behind lines free of NUL, in whatever non-empty chunks it
    comes, the copy never completes: it ends with the error of an earlier
    line that fails, else with the invalid-JSON error of the blank line. *)
Theorem blank_line_aborts (fuel rows_fuel : nat) (before : list (list byte))
    (rest : list byte) :
  jsonb_in [] = None ->
  (forall (c : CopyFromStateJsonLines) (values0 : list Datum) (nulls0 : list bool)
          (post : list byte),
     input_buf_inv c -> unread c = NL :: post -> (1 <= fuel)%nat ->
     (forall rowinfo,
        JsonLinesCopyFromOneRow fuel c values0 nulls0 rowinfo =
          Some (Raise ErrInvalidJsonb)) /\
     CopyFrom (S rows_fuel) fuel c values0 nulls0 = Some (Raise ErrInvalidJsonb)) /\
  (Forall (fun line => (NL ∉ line) /\ (NUL ∉ line)) before ->
   forall (c : CopyFromStateJsonLines) (values0 : list Datum) (nulls0 : list bool),
     input_buf_inv c -> compression c = PG_COMPRESSION_NONE ->
     nonempty_chunks (source (base c)) ->
     pending c = lines_stream before ++ NL :: rest ->
     (read_fuel (source (base c)) <= fuel)%nat -> (length before <= rows_fuel)%nat ->
     exists o, CopyFrom (S rows_fuel) fuel c values0 nulls0 = Some o /\
       (forall rows, o <> Ok rows) /\
       (forall rows,
          decode_lines (tupdesc (base c)) (attnumlist (base c)) before
            values0 nulls0 = Ok rows ->
          o = Raise ErrInvalidJsonb)).
Proof.
  intros Hjson. split.
  - intros c values0 nulls0 post Hinv Hun Hfuel.
    destruct fuel as [|fuel]; [lia|].
    assert (forall rowinfo,
              JsonLinesCopyFromOneRow (S fuel) c values0 nulls0 rowinfo =
                Some (Raise ErrInvalidJsonb)) as Hrow
      by (intros rowinfo; by apply (blank_line_next fuel c _ _ _ post)).
    split; [done|]. rewrite CopyFrom_S. by rewrite Hrow.
  - intros Hlines c values0 nulls0 Hinv Hnone Hne Hpend Hfuel Hrows.
    eexists. split.
    + by apply (CopyFrom_blank_line fuel before rest).
    + destruct (decode_lines _ _ before values0 nulls0); simpl; split; done.
Qed.

End BlankLines.

Section BlankLinesExamples.
#[local] Existing Instance Toy.toy_types.
#[local] Existing Instance Toy.toy_host.

(** The line [{"a":1,"b":"x"}], a blank line and the line
    [{"a":2,"b":null}], cut in two chunks between the two newlines: the
    copy ends with the invalid-JSON error. *)
Lemma blank_line_aborts_witness :
  jsonb_in [] = None /\
  Forall (fun line => (NL ∉ line) /\ (NUL ∉ line)) [Toy.line_1x] /\
  input_buf_inv
    (Toy.reader_of [Toy.line_1x ++ [NL]; NL :: Toy.line_2null ++ [NL]]) /\
  nonempty_chunks [Toy.line_1x ++ [NL]; NL :: Toy.line_2null ++ [NL]] /\
  pending (Toy.reader_of [Toy.line_1x ++ [NL]; NL :: Toy.line_2null ++ [NL]]) =
    lines_stream [Toy.line_1x] ++ NL :: Toy.line_2null ++ [NL] /\
  CopyFrom 3 80 (Toy.reader_of [Toy.line_1x ++ [NL]; NL :: Toy.line_2null ++ [NL]])
      Toy.old_values Toy.old_nulls = Some (Raise ErrInvalidJsonb) /\
  input_buf_inv (Toy.reader_holding (NL :: Toy.line_2null ++ [NL])) /\
  forall rowinfo,
    JsonLinesCopyFromOneRow 80 (Toy.reader_holding (NL :: Toy.line_2null ++ [NL]))
      Toy.old_values Toy.old_nulls rowinfo = Some (Raise ErrInvalidJsonb).
Proof.
  assert (Forall (fun line => (NL ∉ line) /\ (NUL ∉ line)) [Toy.line_1x]) as Hlines
    by by_compute.
  assert (input_buf_inv
            (Toy.reader_of [Toy.line_1x ++ [NL]; NL :: Toy.line_2null ++ [NL]]))
    as Hinv by example_inv.
  assert (nonempty_chunks [Toy.line_1x ++ [NL]; NL :: Toy.line_2null ++ [NL]]) as Hne
    by (repeat constructor; discriminate).
  assert (input_buf_inv (Toy.reader_holding (NL :: Toy.line_2null ++ [NL])))
    as Hinv' by example_inv.
  destruct (@blank_line_aborts Toy.toy_types Toy.toy_host 80 2 [Toy.line_1x]
              (Toy.line_2null ++ [NL]) eq_refl) as [Hnext Hstream].
  split_and!; [reflexivity|done|done|done|reflexivity| |done|].
  - destruct (Hstream Hlines
                (Toy.reader_of [Toy.line_1x ++ [NL]; NL :: Toy.line_2null ++ [NL]])
                Toy.old_values Toy.old_nulls Hinv eq_refl Hne eq_refl)
      as (o & Hcopy & _ & Herr); [by_compute|simpl; lia|].
    rewrite Hcopy. f_equal. eapply Herr. vm_compute. reflexivity.
  - intros rowinfo.
    destruct (Hnext (Toy.reader_holding (NL :: Toy.line_2null ++ [NL]))
                Toy.old_values Toy.old_nulls (Toy.line_2null ++ [NL]) Hinv' eq_refl)
      as [Hrow _]; [lia|]. apply Hrow.
Defined.

(** C10 as stated fails: the stream [{"a":1,"b":"x"} NUL newline newline]
    holds an empty line, and the parser would reject an empty line, yet the
    scan stops at the NUL, the whole chunk goes to the line buffer, the
    reader ends at end of input and the copy completes with no row and no
    error. *)
Lemma blank_line_after_NUL_is_ignored :
  jsonb_in [] = None /\
  nonempty_chunks [ToyMore.object_nul_blank] /\
  concat [ToyMore.object_nul_blank] = (Toy.line_1x ++ [NUL; NL]) ++ NL :: [] /\
  (forall fuel rows_fuel,
     CopyFrom (S rows_fuel) (S (S fuel)) (Toy.reader_of [ToyMore.object_nul_blank])
       Toy.old_values Toy.old_nulls = Some (Ok [])) /\
  forall fuel rows_fuel e,
    CopyFrom rows_fuel fuel (Toy.reader_of [ToyMore.object_nul_blank])
      Toy.old_values Toy.old_nulls <> Some (Raise e).
Proof.
  assert (forall fuel rows_fuel,
            CopyFrom (S rows_fuel) (S (S fuel)) (Toy.reader_of [ToyMore.object_nul_blank])
              Toy.old_values Toy.old_nulls = Some (Ok [])) as Hdone
    by (intros fuel rows_fuel; vm_compute; reflexivity).
  split_and!; [reflexivity|repeat constructor; discriminate|reflexivity|exact Hdone|].
  intros fuel rows_fuel e.
  destruct rows_fuel as [|rows_fuel]; [done|].
  destruct fuel as [|[|fuel]]; [by vm_compute|by vm_compute|].
  by rewrite Hdone.
Qed.

End BlankLinesExamples.

(** * Further properties *)

(** ** The uncompressed line reader on arbitrary bytes *)

Section PlainReader.
Context {host_types : HostTypes} {host : Host}.

(** One scan, whatever the bytes: nothing is lost, and a line ends only at
    a newline. *)
Lemma scan_newline_conserves (c : CopyFromStateJsonLines) :
  input_buf_inv c -> 0 < INPUT_BUF_BYTES c ->
  exists c', base c' = base c /\ same_table c c' /\ input_buf_inv c' /\
    ((scan_newline c = Continue c' /\
      line_buf c' ++ unread c' = line_buf c ++ unread c /\
      INPUT_BUF_BYTES c' = 0) \/
     (scan_newline c = Break c' false /\
      line_buf c' ++ NL :: unread c' = line_buf c ++ unread c)).
Proof.
  intros Hinv Hpos.
  destruct (strchr (unread c ++ [NUL]) NL) as [k|] eqn:Hscan.
  - destruct (scan_newline_some c k Hinv Hpos Hscan)
      as (Hk & c' & Hs & Hline & Hun & _ & _ & Hbase & Htab & Hinv' & _).
    exists c'. split_and!; try done. right. split; [done|].
    destruct (strchr_Some _ _ Hscan) as (Hat & _).
    rewrite lookup_app_l in Hat by done.
    rewrite Hline, Hun, <- app_assoc. f_equal.
    by apply take_drop_middle.
  - destruct (scan_newline_none c Hinv Hpos Hscan)
      as (c' & Hs & Hline & _ & _ & Hz & Hbase & Htab & Hinv' & _).
    exists c'. split_and!; try done. left. split_and!; try done.
    rewrite unread_drained by lia. by rewrite Hline, app_nil_r.
Qed.

Lemma load_more_plain_bytes (c c' : CopyFromStateJsonLines) :
  compression c = PG_COMPRESSION_NONE -> load_more c = Ok c' ->
  bytes_seen c' = bytes_seen c /\ filename (base c') = filename (base c).
Proof.
  intros Hnone. unfold load_more. rewrite Hnone.
  destruct (CopyFromGetData (source (base c)) INPUT_BUF_SIZE) as [data rest] eqn:E.
  assert (0 < INPUT_BUF_SIZE) as Hsize by (unfold INPUT_BUF_SIZE; lia).
  destruct (CopyFromGetData_spec _ _ _ _ Hsize E) as (_ & Hcat & _).
  intros [= <-]. unfold bytes_seen. simpl. split; [|done].
  rewrite <- Hcat, length_app. lia.
Qed.

(** What the loop keeps, turn after turn. *)
Lemma read_loop_plain (fuel : nat) :
  forall c : CopyFromStateJsonLines,
  input_buf_inv c -> compression c = PG_COMPRESSION_NONE ->
  (turns_left c < fuel)%nat ->
  exists r c', JsonLineReadLine_loop fuel c = Some (Ok (r, c')) /\
    same_table c c' /\ input_buf_inv c' /\
    bytes_seen c' = bytes_seen c /\
    filename (base c') = filename (base c) /\
    (if r then line_buf c' ++ pending c' = line_buf c ++ pending c /\
               INPUT_BUF_BYTES c' <= 0 /\
               (nonempty_chunks (source (base c)) -> source (base c') = [])
     else line_buf c' ++ NL :: pending c' = line_buf c ++ pending c).
Proof.
  induction fuel as [|fuel IH]; intros c Hinv Hnone Hfuel; [lia|].
  simpl. unfold JsonLineReadLine_body.
  assert (forall c1 : CopyFromStateJsonLines,
    input_buf_inv c1 -> compression c1 = PG_COMPRESSION_NONE ->
    0 < INPUT_BUF_BYTES c1 ->
    (2 * source_fuel (source (base c1)) < fuel)%nat ->
    exists r c', match scan_newline c1 with
                 | Continue c2 => JsonLineReadLine_loop fuel c2
                 | Break c2 result => Some (Ok (result, c2))
                 end = Some (Ok (r, c')) /\
      same_table c1 c' /\ input_buf_inv c' /\
      bytes_seen c' = bytes_seen c1 /\
      filename (base c') = filename (base c1) /\
      (if r then line_buf c' ++ pending c' = line_buf c1 ++ pending c1 /\
                 INPUT_BUF_BYTES c' <= 0 /\
                 (nonempty_chunks (source (base c1)) -> source (base c') = [])
       else line_buf c' ++ NL :: pending c' = line_buf c1 ++ pending c1)) as Hscan.
  { intros c1 Hinv1 Hnone1 Hpos1 Hfuel1.
    destruct (scan_newline_conserves c1 Hinv1 Hpos1)
      as (c2 & Hb2 & Ht2 & Hi2 & [(-> & Hcons & Hz)|(-> & Hcons)]).
    - destruct (IH c2) as (r & c' & Hloop & Ht' & Hi' & Hbytes & Hfile & Hr); try done.
      + destruct Ht2 as (? & _). congruence.
      + unfold turns_left, source_fuel in *. rewrite Hb2.
        destruct (decide (0 < INPUT_BUF_BYTES c2)); lia.
      + exists r, c'. split_and!; try done.
        * destruct Ht' as (? & ? & ? & ?), Ht2 as (? & ? & ? & ?).
          unfold same_table. split_and!; congruence.
        * unfold bytes_seen in *. by rewrite <- Hb2.
        * by rewrite <- Hb2.
        * assert (line_buf c2 ++ pending c2 = line_buf c1 ++ pending c1) as Heq
            by (unfold pending; rewrite Hb2, !app_assoc; by rewrite Hcons).
          destruct r; rewrite <- Heq; [|done]. rewrite Hb2 in Hr. done.
    - exists false, c2. split_and!; try done.
      + unfold bytes_seen. by rewrite Hb2.
      + by rewrite Hb2.
      + unfold pending. rewrite Hb2.
        rewrite (app_assoc (line_buf c1)), <- Hcons. by rewrite <- app_assoc. }
  destruct (decide (INPUT_BUF_BYTES c <= 0)) as [Hdrained|Hunread].
  - destruct (load_more_plain c Hnone)
      as (c1 & data & src' & Hget & Hload & Hun1 & Hbytes1 & _ & Hsrc1 & Hline1 & Htab1 & Hinv1 & _).
    rewrite Hload. simpl.
    destruct (load_more_plain_bytes _ _ Hnone Hload) as [Hseen1 Hfile1].
    assert (0 < INPUT_BUF_SIZE) as Hsize by (unfold INPUT_BUF_SIZE; lia).
    destruct (CopyFromGetData_spec _ _ _ _ Hsize Hget) as (_ & Hcat & Hle & Hlt & Hne').
    assert (pending c1 = pending c) as Hpend1.
    { unfold pending. rewrite Hun1, Hsrc1, Hcat. by rewrite unread_drained. }
    destruct (decide (INPUT_BUF_BYTES c1 <= 0)) as [Hz|Hpos1]; simpl.
    + exists true, c1. split_and!; try done; [by rewrite Hline1, Hpend1|].
      intros Hne. destruct (Hne' Hne) as [_ Hdata]. rewrite Hsrc1.
      destruct data; [|simpl in *; lia].
      destruct (source (base c)) as [|chunk src]; [by injection Hget as <-|].
      by destruct Hdata.
    + assert (data <> []) as Hdata by (intros ->; simpl in *; lia).
      specialize (Hlt Hdata).
      destruct (Hscan c1 Hinv1) as (r & c' & Hloop & Ht' & Hi' & Hb' & Hf' & Hr).
      * destruct Htab1 as (? & _). congruence.
      * lia.
      * rewrite Hsrc1. unfold turns_left, source_fuel in *.
        destruct (decide (0 < INPUT_BUF_BYTES c)); lia.
      * exists r, c'. split_and!; try done; try congruence.
        -- destruct Ht' as (? & ? & ? & ?), Htab1 as (? & ? & ? & ?).
           unfold same_table. split_and!; congruence.
        -- rewrite Hline1, Hpend1 in Hr. destruct r; [|done].
           destruct Hr as (? & ? & Hsrc). split_and!; try done.
           intros Hne. apply Hsrc. rewrite Hsrc1. by apply Hne'.
  - simpl. apply Hscan; try done; [lia|].
    unfold turns_left, source_fuel in *.
    destruct (decide (0 < INPUT_BUF_BYTES c)); lia.
Qed.

End PlainReader.

Section PlainReaderProperties.
Context {host_types : HostTypes} {host : Host}.

Lemma JsonLineReadLine_loop_mono (fuel : nat) :
  forall (fuel' : nat) (c : CopyFromStateJsonLines) o,
  JsonLineReadLine_loop fuel c = Some o -> (fuel <= fuel')%nat ->
  JsonLineReadLine_loop fuel' c = Some o.
Proof.
  induction fuel as [|fuel IH]; intros fuel' c o; simpl; [done|].
  intros Hloop Hle. destruct fuel' as [|fuel']; [lia|]. simpl.
  destruct (JsonLineReadLine_body c) as [[c1|c1 r]| |]; try done.
  apply (IH fuel'); [done|lia].
Qed.

(** X2: the uncompressed line reader always comes to an end, whatever
    bytes the source holds: with [read_fuel] turns it returns either a line
    or end of input, and it never raises an error. *)
Theorem line_reader_terminates (fuel : nat) (c : CopyFromStateJsonLines) :
  input_buf_inv c -> compression c = PG_COMPRESSION_NONE ->
  (read_fuel (source (base c)) <= fuel)%nat ->
  exists r c', JsonLineReadLine fuel c = Some (Ok (r, c')) /\ input_buf_inv c'.
Proof.
  intros Hinv Hnone Hfuel. unfold JsonLineReadLine.
  pose proof (turns_left_read_fuel c) as Hturns.
  destruct (read_loop_plain fuel (set_line_buf [] c)) as (r & c' & Hloop & _ & Hinv' & _);
    try done.
  - unfold turns_left in *. simpl. unfold INPUT_BUF_BYTES in *. simpl. lia.
  - by exists r, c'.
Qed.

(** X3: the uncompressed line reader neither drops nor reorders bytes.
    When it returns a line, the line, a newline and what is still pending
    are exactly what was pending before; when it returns end of input, the
    line buffer and what is pending are what was pending before, and from a
    source without empty chunks nothing is pending any more: the bytes of an
    unterminated tail are all in the line buffer when they are given up. *)
Theorem line_reader_conserves_bytes (fuel : nat) (c c' : CopyFromStateJsonLines)
    (r : bool) :
  input_buf_inv c -> compression c = PG_COMPRESSION_NONE ->
  JsonLineReadLine fuel c = Some (Ok (r, c')) ->
  if r then
    line_buf c' ++ pending c' = pending c /\
    (nonempty_chunks (source (base c)) -> line_buf c' = pending c)
  else line_buf c' ++ NL :: pending c' = pending c.
Proof.
  intros Hinv Hnone Hread. unfold JsonLineReadLine in Hread.
  set (c0 := set_line_buf [] c) in *.
  destruct (read_loop_plain (max fuel (S (turns_left c0))) c0)
    as (r0 & c0' & Hloop & _ & Hinv' & _ & _ & Hr); try done; [lia|].
  rewrite (JsonLineReadLine_loop_mono _ _ _ _ Hread) in Hloop by lia.
  injection Hloop as <- <-.
  change (line_buf c0) with (@nil byte) in Hr.
  change (pending c0) with (pending c) in Hr.
  change (source (base c0)) with (source (base c)) in Hr.
  destruct r; [|done]. destruct Hr as (Hcons & Hz & Hsrc). simpl in Hcons.
  split; [done|].
  intros Hne. rewrite <- Hcons. unfold pending.
  rewrite (Hsrc Hne), unread_drained by done. by rewrite !app_nil_r.
Qed.

End PlainReaderProperties.

Section PlainReaderExamples.
#[local] Existing Instance Toy.toy_types.
#[local] Existing Instance Toy.toy_host.

Lemma line_reader_terminates_witness :
  input_buf_inv (Toy.reader_of [Toy.a_nul_b ++ [NL]; Toy.line_1x]) /\
  (read_fuel [Toy.a_nul_b ++ [NL]; Toy.line_1x] <= 44)%nat /\
  exists r c',
    JsonLineReadLine 44 (Toy.reader_of [Toy.a_nul_b ++ [NL]; Toy.line_1x]) =
      Some (Ok (r, c')) /\ input_buf_inv c'.
Proof.
  assert (input_buf_inv (Toy.reader_of [Toy.a_nul_b ++ [NL]; Toy.line_1x])) as Hinv
    by example_inv.
  assert (read_fuel [Toy.a_nul_b ++ [NL]; Toy.line_1x] <= 44)%nat as Hfuel by by_compute.
  split_and!; [done|done|].
  exact (@line_reader_terminates Toy.toy_types Toy.toy_host 44 _ Hinv eq_refl Hfuel).
Defined.

(** The unterminated tail [{"a":2,] after a complete line: the second read
    ends with end of input and the seven bytes in the line buffer. *)
Lemma line_reader_conserves_bytes_witness :
  input_buf_inv (Toy.reader_holding (take 7 Toy.line_2null)) /\
  JsonLineReadLine 2 (Toy.reader_holding (take 7 Toy.line_2null)) =
    Some (Ok (true,
              set_base (consume_source [] 0)
                (set_input [NUL] 0 0
                   (set_line_buf (take 7 Toy.line_2null)
                      (Toy.reader_holding (take 7 Toy.line_2null)))))) /\
  nonempty_chunks (source (base (Toy.reader_holding (take 7 Toy.line_2null)))) /\
  line_buf (set_base (consume_source [] 0)
              (set_input [NUL] 0 0
                 (set_line_buf (take 7 Toy.line_2null)
                    (Toy.reader_holding (take 7 Toy.line_2null))))) =
    pending (Toy.reader_holding (take 7 Toy.line_2null)).
Proof.
  assert (input_buf_inv (Toy.reader_holding (take 7 Toy.line_2null))) as Hinv
    by example_inv.
  assert (JsonLineReadLine 2 (Toy.reader_holding (take 7 Toy.line_2null)) =
    Some (Ok (true,
              set_base (consume_source [] 0)
                (set_input [NUL] 0 0
                   (set_line_buf (take 7 Toy.line_2null)
                      (Toy.reader_holding (take 7 Toy.line_2null))))))) as Hread
    by (vm_compute; reflexivity).
  split_and!; [done|done|apply Forall_nil_2|].
  destruct (@line_reader_conserves_bytes Toy.toy_types Toy.toy_host 2 _ _ true
              Hinv eq_refl Hread) as [_ Htail].
  apply Htail. apply Forall_nil_2.
Defined.

End PlainReaderExamples.

(** ** The line reader in every compression mode *)

Section AnyModeReader.
Context {host_types : HostTypes} {host : Host}.

Lemma refill_raw_frame (c : CopyFromStateJsonLines) :
  same_table c (refill_raw c) /\
  filename (base (refill_raw c)) = filename (base c) /\
  bytes_seen (refill_raw c) = bytes_seen c /\
  line_buf (refill_raw c) = line_buf c.
Proof.
  unfold refill_raw. destruct (decide (RAW_BUF_BYTES c = 0)); [|done].
  destruct (CopyFromGetData (source (base c)) RAW_BUF_SIZE) as [data rest] eqn:E.
  assert (0 < RAW_BUF_SIZE) as Hsize by (unfold RAW_BUF_SIZE; lia).
  destruct (CopyFromGetData_spec _ _ _ _ Hsize E) as (_ & Hcat & _).
  unfold same_table, bytes_seen. simpl. split_and!; try done.
  rewrite <- Hcat, length_app. lia.
Qed.

Lemma load_more_frame (c c1 : CopyFromStateJsonLines) :
  load_more c = Ok c1 ->
  same_table c c1 /\ filename (base c1) = filename (base c) /\
  bytes_seen c1 = bytes_seen c /\ line_buf c1 = line_buf c.
Proof.
  unfold load_more. destruct (compression c) eqn:Hc.
  - intros Hload.
    assert (load_more c = Ok c1) as Hload' by (unfold load_more; by rewrite Hc).
    destruct (load_more_plain_bytes _ _ Hc Hload') as [? ?].
    destruct (load_more_plain c Hc)
      as (c1' & data & rest & _ & Hl & _ & _ & _ & _ & Hline & Htab & _).
    rewrite Hload' in Hl. injection Hl as <-. done.
  - unfold read_gzip. destruct (decide (z_ret _ < 0)); [done|].
    intros [= <-]. destruct (refill_raw_frame c) as (Ht & Hf & Hb & Hl).
    unfold same_table, bytes_seen in *. simpl. done.
  - by intros [= <-].
  - by intros [= <-].
Qed.

Lemma scan_newline_frame (c : CopyFromStateJsonLines) :
  match scan_newline c with
  | Continue c' | Break c' _ =>
      base c' = base c /\ compression c' = compression c
  end.
Proof. unfold scan_newline. by destruct (strchr _ _). Qed.

Lemma JsonLineReadLine_body_frame (c : CopyFromStateJsonLines) (step : loop_step) :
  JsonLineReadLine_body c = Ok step ->
  match step with
  | Continue c' | Break c' _ =>
      same_table c c' /\ filename (base c') = filename (base c) /\
      bytes_seen c' = bytes_seen c
  end.
Proof.
  assert (forall c1, same_table c c1 -> filename (base c1) = filename (base c) ->
            bytes_seen c1 = bytes_seen c ->
            match scan_newline c1 with
            | Continue c' | Break c' _ =>
                same_table c c' /\ filename (base c') = filename (base c) /\
                bytes_seen c' = bytes_seen c
            end) as Hscan.
  { intros c1 (? & ? & ? & ?) Hf Hb. pose proof (scan_newline_frame c1) as Hfr.
    destruct (scan_newline c1) as [c'|c' r]; destruct Hfr as [Hbase Hcomp];
      unfold same_table, bytes_seen in *; rewrite Hbase; split_and!; congruence. }
  unfold JsonLineReadLine_body.
  destruct (decide (INPUT_BUF_BYTES c <= 0)).
  - destruct (load_more c) as [c1| |] eqn:Hload; simpl; try done.
    destruct (load_more_frame _ _ Hload) as (Ht & Hf & Hb & _).
    destruct (decide (INPUT_BUF_BYTES c1 <= 0)); simpl; intros [= <-]; [done|].
    by apply Hscan.
  - simpl. intros [= <-]. by apply Hscan.
Qed.

Lemma JsonLineReadLine_loop_frame (fuel : nat) :
  forall (c c' : CopyFromStateJsonLines) (r : bool),
  JsonLineReadLine_loop fuel c = Some (Ok (r, c')) ->
  same_table c c' /\ filename (base c') = filename (base c) /\
  bytes_seen c' = bytes_seen c.
Proof.
  induction fuel as [|fuel IH]; intros c c' r; simpl; [done|].
  destruct (JsonLineReadLine_body c) as [step| |] eqn:Hbody; try done.
  pose proof (JsonLineReadLine_body_frame _ _ Hbody) as Hstep.
  destruct step as [c1|c1 r1].
  - intros Hloop. destruct (IH _ _ _ Hloop) as ((? & ? & ? & ?) & ? & ?).
    destruct Hstep as ((? & ? & ? & ?) & ? & ?).
    unfold same_table. split_and!; congruence.
  - by intros [= <- <-].
Qed.

(** X4: in every compression mode one call of the line reader adds to
    [bytes_processed] exactly the number of bytes it took from the source
    (compressed bytes in gzip mode), however many refills it made. *)
Theorem bytes_processed_counts_source (fuel : nat) (c c' : CopyFromStateJsonLines)
    (r : bool) :
  JsonLineReadLine fuel c = Some (Ok (r, c')) ->
  bytes_processed (base c') =
    bytes_processed (base c) +
    (Z.of_nat (length (concat (source (base c)))) -
     Z.of_nat (length (concat (source (base c'))))).
Proof.
  unfold JsonLineReadLine. intros Hloop.
  destruct (JsonLineReadLine_loop_frame _ _ _ _ Hloop) as (_ & _ & Hseen).
  unfold bytes_seen in Hseen. simpl in Hseen. lia.
Qed.

(** X6: the one-row routine never touches the descriptor, the column
    list, the compression mode or [cur_lineno].  A returned row reports, when
    the caller asks, that unchanged [cur_lineno] as its line number and the
    byte length of the assembled line as its length; at end of input the
    caller's arrays and row info are handed back as they were. *)
Theorem row_info_reports_line (fuel : nat) (c : CopyFromStateJsonLines)
    (values0 : list Datum) (nulls0 : list bool) (rowinfo : option CopyFromRowInfo)
    (res : row_result) :
  JsonLinesCopyFromOneRow fuel c values0 nulls0 rowinfo = Some (Ok res) ->
  same_table c (state_after res) /\
  (returned res = true ->
     rowinfo_after res =
       (fun _ => {| lineno := cur_lineno (base c);
                    tuplen := Z.of_nat (length (line_buf (state_after res))) |})
         <$> rowinfo) /\
  (returned res = false ->
     values_after res = values0 /\ nulls_after res = nulls0 /\
     rowinfo_after res = rowinfo).
Proof.
  unfold JsonLinesCopyFromOneRow.
  destruct (JsonLineReadLine fuel c) as [[[r c1]| |]|] eqn:Hread; try done.
  unfold JsonLineReadLine in Hread.
  destruct (JsonLineReadLine_loop_frame _ _ _ _ Hread) as (Ht & _).
  change (same_table c c1) in Ht.
  destruct r.
  - intros [= <-]. simpl. split_and!; done.
  - unfold decode_line. destruct (jsonb_in _); [|done].
    destruct (foreach_attnum _ _ _ _); simpl; try done.
    intros [= <-]. simpl. split_and!; [done| |done].
    intros _. destruct Ht as (_ & _ & _ & ->). done.
Qed.

Lemma c_str_elem (mem : list byte) (x : byte) : x ∈ c_str mem -> x ∈ mem.
Proof.
  induction mem as [|b mem IH]; simpl; [done|].
  destruct (decide (b = NUL)); [by intros ?%elem_of_nil|].
  intros [->|Hin]%elem_of_cons; [apply list_elem_of_here|].
  by apply list_elem_of_further, IH.
Qed.

Lemma c_str_app_nul (u r : list byte) :
  NL ∉ c_str (u ++ NUL :: r) -> NL ∉ c_str u.
Proof.
  induction u as [|b u IH]; simpl; [intros _; apply not_elem_of_nil|].
  destruct (decide (b = NUL)); [done|].
  rewrite !not_elem_of_cons. intros [? ?]. split; [done|by apply IH].
Qed.

Lemma c_str_app_no_newline (a b : list byte) :
  NL ∉ c_str a -> NL ∉ c_str b -> NL ∉ c_str (a ++ b).
Proof.
  intros Ha Hb. induction a as [|x a IH]; simpl in *; [done|].
  destruct (decide (x = NUL)); [done|].
  apply not_elem_of_cons in Ha as [? ?].
  apply not_elem_of_cons. split; [done|by apply IH].
Qed.

Lemma scan_newline_no_newline (c : CopyFromStateJsonLines) :
  input_buf_inv c -> 0 < INPUT_BUF_BYTES c ->
  NL ∉ c_str (line_buf c) ->
  match scan_newline c with
  | Continue c' | Break c' _ => NL ∉ c_str (line_buf c')
  end.
Proof.
  intros Hinv Hpos Hline.
  destruct (strchr (unread c ++ [NUL]) NL) as [k|] eqn:Hscan.
  - destruct (scan_newline_some c k Hinv Hpos Hscan) as (Hk & c' & -> & -> & _).
    apply c_str_app_no_newline; [done|].
    destruct (strchr_Some _ _ Hscan) as (_ & Hnl & _).
    rewrite take_app_le in Hnl by lia.
    intros Hin. by apply Hnl, c_str_elem.
  - destruct (scan_newline_none c Hinv Hpos Hscan) as (c' & -> & -> & _).
    apply c_str_app_no_newline; [done|].
    apply strchr_None in Hscan. by apply c_str_app_nul in Hscan.
Qed.

Lemma JsonLineReadLine_loop_no_newline (fuel : nat) :
  z_contract inflate ->
  forall (c c' : CopyFromStateJsonLines) (r : bool),
  raw_buf_inv c -> input_buf_inv c -> NL ∉ c_str (line_buf c) ->
  JsonLineReadLine_loop fuel c = Some (Ok (r, c')) ->
  NL ∉ c_str (line_buf c').
Proof.
  intros Hz. induction fuel as [|fuel IH]; intros c c' r Hraw Hinv Hline; simpl; [done|].
  destruct (JsonLineReadLine_body c) as [step| |] eqn:Hbody; try done.
  pose proof (JsonLineReadLine_body_inv _ _ Hz Hraw Hinv Hbody) as Hstep.
  assert (match step with
          | Continue c1 | Break c1 _ => NL ∉ c_str (line_buf c1)
          end) as Hline1.
  { revert Hbody. unfold JsonLineReadLine_body.
    destruct (decide (INPUT_BUF_BYTES c <= 0)).
    - destruct (load_more c) as [c1| |] eqn:Hload; simpl; try done.
      destruct (load_more_frame _ _ Hload) as (_ & _ & _ & Hl1).
      destruct (load_more_inv _ _ Hz Hraw Hinv Hload) as [_ Hinv1].
      destruct (decide (INPUT_BUF_BYTES c1 <= 0)); simpl; intros [= <-].
      + by rewrite Hl1.
      + apply scan_newline_no_newline; [done|lia|by rewrite Hl1].
    - simpl. intros [= <-]. apply scan_newline_no_newline; [done|lia|done]. }
  destruct step as [c1|c1 r1].
  - destruct Hstep. by apply IH.
  - by intros [= <- <-].
Qed.

(** X5: with a zlib that keeps to its buffers, in every compression mode
    the text the line reader leaves for [jsonb_in] (the line buffer read as
    a C string) never holds a newline byte, whatever bytes came in. *)
Theorem parser_never_sees_newline (fuel : nat) (c c' : CopyFromStateJsonLines)
    (r : bool) :
  z_contract inflate -> raw_buf_inv c -> input_buf_inv c ->
  JsonLineReadLine fuel c = Some (Ok (r, c')) ->
  NL ∉ c_str (line_buf c').
Proof.
  intros Hz Hraw Hinv. unfold JsonLineReadLine.
  apply (JsonLineReadLine_loop_no_newline fuel Hz); try done.
  apply not_elem_of_nil.
Qed.

End AnyModeReader.

Section AnyModeReaderExamples.
#[local] Existing Instance Toy.toy_types.
#[local] Existing Instance Toy.toy_host.

(** Two chunks of 16 and 17 bytes: reading the first line takes the first
    chunk only. *)
Lemma bytes_processed_counts_source_witness :
  exists c',
    JsonLineReadLine 3 (Toy.reader_of [Toy.line_1x ++ [NL]; Toy.line_2null ++ [NL]]) =
      Some (Ok (false, c')) /\
    source (base c') = [Toy.line_2null ++ [NL]] /\
    bytes_processed (base c') =
      bytes_processed
        (base (Toy.reader_of [Toy.line_1x ++ [NL]; Toy.line_2null ++ [NL]])) +
      (Z.of_nat (length (concat (source (base
         (Toy.reader_of [Toy.line_1x ++ [NL]; Toy.line_2null ++ [NL]]))))) -
       Z.of_nat (length (concat (source (base c'))))).
Proof.
  eexists. split; [vm_compute; reflexivity|]. split; [reflexivity|].
  eapply (@bytes_processed_counts_source Toy.toy_types Toy.toy_host 3 _ _ false).
  vm_compute. reflexivity.
Defined.

(** A gzip reader whose decompressed bytes are [a NUL b newline c] and then
    a newline: the assembled line holds a newline after the NUL, the text
    given to the parser is [a]. *)
Lemma parser_never_sees_newline_witness :
  z_contract inflate /\
  raw_buf_inv (Toy.gzip_reader [Toy.a_nul_b ++ [NL; x63]; [NL]]) /\
  input_buf_inv (Toy.gzip_reader [Toy.a_nul_b ++ [NL; x63]; [NL]]) /\
  exists c',
    JsonLineReadLine 3 (Toy.gzip_reader [Toy.a_nul_b ++ [NL; x63]; [NL]]) =
      Some (Ok (false, c')) /\
    line_buf c' = Toy.a_nul_b ++ [NL; x63] /\
    (NL ∉ c_str (line_buf c')).
Proof.
  assert (raw_buf_inv (Toy.gzip_reader [Toy.a_nul_b ++ [NL; x63]; [NL]])) as Hraw
    by (unfold raw_buf_inv, stream_buffer_inv, RAW_BUF_SIZE; simpl; lia).
  assert (input_buf_inv (Toy.gzip_reader [Toy.a_nul_b ++ [NL; x63]; [NL]])) as Hinv
    by (split; [unfold stream_buffer_inv, INPUT_BUF_SIZE; simpl; lia|simpl; lia]).
  split_and!; [exact toy_inflate_contract|done|done|].
  eexists. split; [vm_compute; reflexivity|]. split; [reflexivity|].
  eapply (@parser_never_sees_newline Toy.toy_types Toy.toy_host 3 _ _ false
            toy_inflate_contract Hraw Hinv).
  vm_compute. reflexivity.
Defined.

(** The line [{"a":1,"b":"x"}] read with row info asked for: line number
    0, as before the call, and length 15. *)
Lemma row_info_reports_line_witness :
  exists res,
    JsonLinesCopyFromOneRow 1 (Toy.reader_holding (Toy.line_1x ++ [NL]))
      Toy.old_values Toy.old_nulls (Some {| lineno := 7; tuplen := 7 |}) =
      Some (Ok res) /\
    returned res = true /\
    cur_lineno (base (state_after res)) = 0 /\
    rowinfo_after res = Some {| lineno := 0; tuplen := 15 |}.
Proof.
  eexists. split; [vm_compute; reflexivity|].
  match goal with
  | |- _ /\ _ /\ rowinfo_after ?res = _ =>
      destruct (@row_info_reports_line Toy.toy_types Toy.toy_host 1
                  (Toy.reader_holding (Toy.line_1x ++ [NL]))
                  Toy.old_values Toy.old_nulls
                  (Some {| lineno := 7; tuplen := 7 |}) res
                  ltac:(vm_compute; reflexivity)) as (_ & Hinfo & _)
  end.
  split_and!; [reflexivity|reflexivity|exact (Hinfo eq_refl)].
Defined.

End AnyModeReaderExamples.

(** ** The row decoder: columns left alone, the error that is reported *)

Section DecoderMore.
Context {host_types : HostTypes} {host : Host}.

(** One column: the other array slots are as before, and a column that is
    absent or null in the object keeps the value its slot had. *)
Lemma decode_column_lookup (desc : list FormData_pg_attribute) (jb : Jsonb)
    (a a' : row_arrays) (attnum : Z) :
  decode_column desc jb a attnum = Ok a' ->
  (forall j, j <> Z.to_nat (attnum - 1) ->
     values a' !! j = values a !! j /\ nulls a' !! j = nulls a !! j) /\
  (forall j att, desc !! j = Some att ->
     (getKeyJsonValueFromContainer jb (attname att) = None \/
      getKeyJsonValueFromContainer jb (attname att) = Some jbvNull) ->
     values a' !! j = values a !! j).
Proof.
  intros Hdec.
  destruct (decode_column_bounds _ _ _ _ _ Hdec) as (att & Hatt & H1 & Hvs & Hns).
  rewrite (decode_column_unfold _ _ _ _ att) in Hdec by done.
  set (i := Z.to_nat (attnum - 1)) in *. simpl in Hdec.
  destruct (getKeyJsonValueFromContainer jb (attname att)) as [v|] eqn:Hkey.
  - destruct (is_jbvNull v) eqn:Hv.
    + injection Hdec as <-. simpl. split; [|done].
      intros j Hj. by lookup_insert.
    + destruct (GetJsonbValueAsCString v (buf a)) as [str| |]; try done.
      simpl in Hdec. destruct (InputFunctionCall _ _ _) as [d|]; [|done].
      injection Hdec as <-. simpl. split.
      * intros j Hj. by lookup_insert.
      * intros j att' Hatt' Hnull. destruct (decide (j = i)) as [->|Hne].
        -- assert (att' = att) as -> by congruence. rewrite Hkey in Hnull.
           destruct Hnull as [|[= ->]]; done.
        -- by lookup_insert.
  - injection Hdec as <-. simpl. split; [|done].
    intros j Hj. by lookup_insert.
Qed.

Lemma foreach_attnum_lookup (desc : list FormData_pg_attribute) (jb : Jsonb)
    (attnums : list Z) :
  forall a a', foreach_attnum desc jb attnums a = Ok a' ->
  length (values a') = length (values a) /\
  length (nulls a') = length (nulls a) /\
  (forall j, (forall attnum, attnum ∈ attnums -> Z.to_nat (attnum - 1) <> j) ->
     values a' !! j = values a !! j /\ nulls a' !! j = nulls a !! j) /\
  (forall j att, desc !! j = Some att ->
     (getKeyJsonValueFromContainer jb (attname att) = None \/
      getKeyJsonValueFromContainer jb (attname att) = Some jbvNull) ->
     values a' !! j = values a !! j).
Proof.
  induction attnums as [|attnum0 attnums IH]; simpl; intros a a' Hloop.
  - injection Hloop as <-. done.
  - destruct (decode_column desc jb a attnum0) as [a1| |] eqn:Hcol; try done.
    simpl in Hloop.
    destruct (decode_column_lookup _ _ _ _ _ Hcol) as [Hother1 Hnull1].
    destruct (IH _ _ Hloop) as (Hlv & Hln & Hother & Hnull).
    assert (length (values a1) = length (values a) /\
            length (nulls a1) = length (nulls a)) as [Hlv1 Hln1].
    { destruct (decode_column_bounds _ _ _ _ _ Hcol) as (att & Hatt & ? & ? & ?).
      rewrite (decode_column_unfold _ _ _ _ att) in Hcol by done. simpl in Hcol.
      destruct (getKeyJsonValueFromContainer jb (attname att)) as [v|].
      - destruct (is_jbvNull v).
        + injection Hcol as <-. simpl. by rewrite length_insert.
        + destruct (GetJsonbValueAsCString v (buf a)); try done. simpl in Hcol.
          destruct (InputFunctionCall _ _ _); [|done].
          injection Hcol as <-. simpl. by rewrite !length_insert.
      - injection Hcol as <-. simpl. by rewrite length_insert. }
    split_and!; try congruence.
    + intros j Hj.
      destruct (Hother j) as [-> ->];
        [intros attnum Hin; apply Hj; by apply list_elem_of_further|].
      apply Hother1. intros ->. by apply (Hj attnum0 (list_elem_of_here _ _)).
    + intros j att Hatt Hkey. rewrite (Hnull j att Hatt Hkey). by apply (Hnull1 j att).
Qed.

(** X7: a decoded row changes the caller's arrays only where the column
    list says.  The slots of columns that are not listed keep their value
    and their null flag; the value slot of a listed column that is absent or
    null in the object keeps the value it had (only its null flag is set);
    the arrays keep their lengths. *)
Theorem unlisted_columns_untouched (c : CopyFromStateJsonLines)
    (values0 : list Datum) (nulls0 : list bool) (rowinfo : option CopyFromRowInfo)
    (jb : Jsonb) (r : row_result) :
  jsonb_in (c_str (line_buf c)) = Some jb ->
  decode_line c values0 nulls0 rowinfo = Ok r ->
  length (values_after r) = length values0 /\
  length (nulls_after r) = length nulls0 /\
  (forall j, (forall attnum, attnum ∈ attnumlist (base c) ->
                             Z.to_nat (attnum - 1) <> j) ->
     values_after r !! j = values0 !! j /\ nulls_after r !! j = nulls0 !! j) /\
  (forall j att, tupdesc (base c) !! j = Some att ->
     (getKeyJsonValueFromContainer jb (attname att) = None \/
      getKeyJsonValueFromContainer jb (attname att) = Some jbvNull) ->
     values_after r !! j = values0 !! j).
Proof.
  intros Hjson Hdec. unfold decode_line in Hdec. rewrite Hjson in Hdec.
  destruct (foreach_attnum _ jb _ _) as [a'| |] eqn:Hloop; try done.
  simpl in Hdec. injection Hdec as <-. simpl.
  exact (foreach_attnum_lookup _ _ _ _ _ Hloop).
Qed.

Lemma foreach_attnum_app (desc : list FormData_pg_attribute) (jb : Jsonb)
    (l1 l2 : list Z) :
  forall a, foreach_attnum desc jb (l1 ++ l2) a =
            foreach_attnum desc jb l1 a ≫= foreach_attnum desc jb l2.
Proof.
  induction l1 as [|attnum l1 IH]; intros a; simpl; [done|].
  destruct (decode_column desc jb a attnum); simpl; [apply IH|done..].
Qed.

(** X8: the error of a row names the first listed column that fails.
    When the columns listed before it decode and its own text is rejected by
    the input function of its type, the one-row routine raises the conversion
    error carrying that text and that column's name; the columns listed
    after it are not looked at. *)
Theorem first_failing_column_is_reported (fuel : nat) (c c1 : CopyFromStateJsonLines)
    (values0 : list Datum) (nulls0 : list bool) (rowinfo : option CopyFromRowInfo)
    (jb : Jsonb) (before after : list Z) (attnum : Z) (a : row_arrays)
    (att : FormData_pg_attribute) (v : JsonbValue) (str : list byte) :
  JsonLineReadLine fuel c = Some (Ok (false, c1)) ->
  jsonb_in (c_str (line_buf c1)) = Some jb ->
  attnumlist (base c1) = before ++ attnum :: after ->
  foreach_attnum (tupdesc (base c1)) jb before
    {| values := values0; nulls := nulls0; buf := [] |} = Ok a ->
  in_bounds (tupdesc (base c1)) values0 nulls0 attnum ->
  tupdesc (base c1) !! Z.to_nat (attnum - 1) = Some att ->
  getKeyJsonValueFromContainer jb (attname att) = Some v -> v <> jbvNull ->
  GetJsonbValueAsCString v [] = Ok str ->
  InputFunctionCall (atttypid att) (c_str str) (atttypmod att) = None ->
  JsonLinesCopyFromOneRow fuel c values0 nulls0 rowinfo =
    Some (Raise (ErrConvert str (attname att))).
Proof.
  intros Hread Hjson Hlist Hbefore (H1 & _ & Hvs & Hns) Hatt Hkey Hnn Hstr Hconv.
  unfold JsonLinesCopyFromOneRow, decode_line. rewrite Hread, Hjson, Hlist.
  rewrite foreach_attnum_app, Hbefore. simpl.
  destruct (foreach_attnum_inv _ _ _ _ _ Hbefore eq_refl) as (Hbuf & Hlv & Hln & _).
  simpl in Hlv, Hln.
  rewrite (decode_column_unfold _ _ _ _ att) by (done || lia). simpl.
  rewrite Hkey, Hbuf, Hstr. simpl.
  destruct (is_jbvNull v) eqn:Hv; [by apply is_jbvNull_true in Hv|].
  by rewrite Hconv.
Qed.

Lemma decode_column_raises (desc : list FormData_pg_attribute) (jb : Jsonb)
    (a : row_arrays) (attnum : Z) (e : pg_error) :
  decode_column desc jb a attnum = Raise e ->
  e = ErrUnrecognizedJsonbType \/ exists text name, e = ErrConvert text name.
Proof.
  unfold decode_column.
  destruct (desc !! Z.to_nat (attnum - 1)) as [att|]; [|done].
  destruct (decide (1 <= attnum /\ _)); [|done].
  destruct (getKeyJsonValueFromContainer jb (attname att)) as [v|]; [|done].
  destruct v; simpl; try done;
    try (intros [= <-]; by left);
    (destruct (InputFunctionCall _ _ _); [done|]; intros [= <-]; right; eauto).
Qed.

Lemma foreach_attnum_raises (desc : list FormData_pg_attribute) (jb : Jsonb)
    (attnums : list Z) (e : pg_error) :
  forall a, foreach_attnum desc jb attnums a = Raise e ->
  e = ErrUnrecognizedJsonbType \/ exists text name, e = ErrConvert text name.
Proof.
  induction attnums as [|attnum attnums IH]; intros a; simpl; [done|].
  destruct (decode_column desc jb a attnum) as [a1| |] eqn:Hcol; simpl; try done.
  - apply IH.
  - intros [= <-]. by eapply decode_column_raises.
Qed.

Lemma JsonLineReadLine_loop_raises (fuel : nat) (e : pg_error) :
  forall c : CopyFromStateJsonLines,
  JsonLineReadLine_loop fuel c = Some (Raise e) ->
  e = ErrDecompress /\ compression c = PG_COMPRESSION_GZIP.
Proof.
  induction fuel as [|fuel IH]; intros c; simpl; [done|].
  destruct (JsonLineReadLine_body c) as [step| |] eqn:Hbody.
  - pose proof (JsonLineReadLine_body_frame _ _ Hbody) as Hstep.
    destruct step as [c1|c1 r]; [|done].
    intros Hloop. destruct (IH _ Hloop) as [-> Hc]. split; [done|].
    destruct Hstep as ((? & _) & _). congruence.
  - intros [= <-]. revert Hbody. unfold JsonLineReadLine_body.
    destruct (decide (INPUT_BUF_BYTES c <= 0)); [|done].
    unfold load_more. destruct (compression c) eqn:Hc.
    + destruct (CopyFromGetData _ _). simpl. by destruct (decide _).
    + unfold read_gzip. destruct (decide (z_ret _ < 0)).
      * by intros [= <-].
      * simpl. by destruct (decide _).
    + simpl. by destruct (decide _).
    + simpl. by destruct (decide _).
  - done.
Qed.

(** X10: the errors of the read path.  Whatever the input, an error of the
    one-row routine is a decompression error, raised in gzip mode only, an
    invalid JSON line, a JSON value of an unexpected kind, or a value the
    column's input function rejects. *)
Theorem read_path_errors (fuel : nat) (c : CopyFromStateJsonLines)
    (values0 : list Datum) (nulls0 : list bool) (rowinfo : option CopyFromRowInfo)
    (e : pg_error) :
  JsonLinesCopyFromOneRow fuel c values0 nulls0 rowinfo = Some (Raise e) ->
  (e = ErrDecompress /\ compression c = PG_COMPRESSION_GZIP) \/
  e = ErrInvalidJsonb \/ e = ErrUnrecognizedJsonbType \/
  exists text name, e = ErrConvert text name.
Proof.
  unfold JsonLinesCopyFromOneRow.
  destruct (JsonLineReadLine fuel c) as [[[r c1]| |]|] eqn:Hread; try done.
  - destruct r; [done|]. unfold decode_line.
    destruct (jsonb_in _) as [jb|]; [|intros [= <-]; auto].
    destruct (foreach_attnum _ _ _ _) as [a| |] eqn:Hloop; simpl; try done.
    intros [= <-]. right. right. by eapply foreach_attnum_raises.
  - intros [= <-]. left. unfold JsonLineReadLine in Hread.
    by apply JsonLineReadLine_loop_raises in Hread.
Qed.

End DecoderMore.

Section DecoderMoreExamples.
#[local] Existing Instance Toy.toy_types.
#[local] Existing Instance Toy.toy_host.

(** The line [{"a":2,"b":null}] decoded for column [b] alone into arrays
    that hold the row [(9, "old")]: column [a] keeps 9 and its flag, column
    [b] keeps the value "old" under a null flag now set. *)
Lemma unlisted_columns_untouched_witness :
  exists r,
    jsonb_in (c_str (line_buf (ToyMore.reader_b_only Toy.line_2null))) =
      Some ToyMore.object_2null /\
    decode_line (ToyMore.reader_b_only Toy.line_2null)
      Toy.old_values Toy.old_nulls None = Ok r /\
    values_after r !! 0%nat = Some (Toy.DInt (bs "9")) /\
    nulls_after r !! 0%nat = Some false /\
    values_after r !! 1%nat = Some (Toy.DText (bs "old")) /\
    nulls_after r = [false; true].
Proof.
  eexists. split; [vm_compute; reflexivity|]. split; [vm_compute; reflexivity|].
  match goal with
  | |- values_after ?r !! _ = _ /\ _ =>
      destruct (@unlisted_columns_untouched Toy.toy_types Toy.toy_host
                  (ToyMore.reader_b_only Toy.line_2null)
                  Toy.old_values Toy.old_nulls None ToyMore.object_2null r
                  ltac:(vm_compute; reflexivity) ltac:(vm_compute; reflexivity))
        as (_ & _ & Hother & Hnull)
  end.
  destruct (Hother 0%nat) as [Hv Hn].
  { intros attnum [->|[]%elem_of_nil]%elem_of_cons. done. }
  split_and!; [exact Hv|exact Hn| |reflexivity].
  apply (Hnull 1%nat Toy.att_b); [reflexivity|right; reflexivity].
Defined.

(** The line [{"a":"x","b":"y"}] with the columns listed as [b], [a]:
    [b] decodes, the text [x] of [a] is no integer, the error names [a]. *)
Lemma first_failing_column_is_reported_witness :
  JsonLinesCopyFromOneRow 1 (ToyMore.reader_b_then_a (Toy.line_bad_int ++ [NL]))
    Toy.old_values Toy.old_nulls None =
    Some (Raise (ErrConvert (bs "x") (bs "a"))).
Proof.
  eapply (@first_failing_column_is_reported Toy.toy_types Toy.toy_host 1
            (ToyMore.reader_b_then_a (Toy.line_bad_int ++ [NL])) _
            Toy.old_values Toy.old_nulls None _ [2] [] 1 _ Toy.att_a
            (jbvString (bs "x")) (bs "x")).
  - vm_compute. reflexivity.
  - vm_compute. reflexivity.
  - reflexivity.
  - vm_compute. reflexivity.
  - unfold in_bounds. simpl. lia.
  - reflexivity.
  - reflexivity.
  - discriminate.
  - reflexivity.
  - reflexivity.
Defined.

(** The line [{"a":]: the error of the row is the invalid-JSON error. *)
Lemma read_path_errors_witness :
  JsonLinesCopyFromOneRow 1 (Toy.reader_holding (Toy.line_not_json ++ [NL]))
    Toy.old_values Toy.old_nulls None = Some (Raise ErrInvalidJsonb) /\
  ((ErrInvalidJsonb = ErrDecompress /\
    compression (Toy.reader_holding (Toy.line_not_json ++ [NL])) = PG_COMPRESSION_GZIP) \/
   ErrInvalidJsonb = ErrInvalidJsonb \/ ErrInvalidJsonb = ErrUnrecognizedJsonbType \/
   exists text name, ErrInvalidJsonb = ErrConvert text name).
Proof.
  split; [vm_compute; reflexivity|].
  apply (@read_path_errors Toy.toy_types Toy.toy_host 1
           (Toy.reader_holding (Toy.line_not_json ++ [NL]))
           Toy.old_values Toy.old_nulls None ErrInvalidJsonb).
  vm_compute. reflexivity.
Defined.

End DecoderMoreExamples.

(** ** The whole copy of an uncompressed stream *)

Section WholeCopy.
Context {host_types : HostTypes} {host : Host}.

(** X9: an uncompressed copy is a function of the bytes of the stream.
    When the stream is a list of lines free of NUL bytes, each with its
    newline, followed by a tail without newline, the driver returns exactly
    what decoding those lines one after the other gives (the rows, or the
    error of the first line that fails), in whatever non-empty chunks the
    source delivers the bytes; the tail gives no row and no error. *)
Theorem copy_from_decodes_each_line (fuel : nat) (lines : list (list byte))
    (tail : list byte) :
  Forall (fun line => (NL ∉ line) /\ (NUL ∉ line)) lines -> NL ∉ tail ->
  forall (c : CopyFromStateJsonLines) (values0 : list Datum) (nulls0 : list bool),
  input_buf_inv c -> compression c = PG_COMPRESSION_NONE ->
  nonempty_chunks (source (base c)) ->
  pending c = lines_stream lines ++ tail ->
  (read_fuel (source (base c)) <= fuel)%nat ->
  CopyFrom (S (length lines)) fuel c values0 nulls0 =
    Some (decode_lines (tupdesc (base c)) (attnumlist (base c)) lines values0 nulls0).
Proof.
  intros Hlines Htail.
  induction Hlines as [|line lines [Hnl Hnul] Hlines IH];
    intros c values0 nulls0 Hinv Hnone Hne Hpend Hfuel.
  - destruct (JsonLineReadLine_eof fuel c Hinv Hnone) as (c' & Hread & _);
      [by rewrite Hpend|done|].
    simpl. unfold JsonLinesCopyFromOneRow. by rewrite Hread.
  - assert (pending c = line ++ NL :: (lines_stream lines ++ tail)) as Hpend'.
    { rewrite Hpend. unfold lines_stream. simpl. by rewrite <- !app_assoc. }
    destruct (JsonLineReadLine_line fuel c _ _ Hinv Hnone Hne Hpend' Hnl Hnul)
      as (c' & Hread & Hline & Hpend1 & (Hc1 & Ht1 & Ha1 & _) & Hinv1 & Hne1 & Hfuel1);
      [done|].
    simpl length. rewrite CopyFrom_S.
    unfold JsonLinesCopyFromOneRow. rewrite Hread. unfold decode_line.
    rewrite Hline, Ht1, Ha1. simpl.
    destruct (jsonb_in (c_str line)) as [jb|]; [|done].
    destruct (foreach_attnum _ jb _ _) as [a| |]; simpl; [|done..].
    rewrite <- CopyFrom_S.
    rewrite (IH c' (values a) (nulls a)); try congruence; try lia.
    rewrite Ht1, Ha1.
    by destruct (decode_lines _ _ lines (values a) (nulls a)).
Qed.

End WholeCopy.

Section WholeCopyExamples.
#[local] Existing Instance Toy.toy_types.
#[local] Existing Instance Toy.toy_host.

(** The two lines of the scenario and an unterminated [{"a":], delivered in
    three chunks cut inside the lines: the rows [(1, "x")] and [(2, NULL)]. *)
Lemma copy_from_decodes_each_line_witness :
  Forall (fun line => (NL ∉ line) /\ (NUL ∉ line)) [Toy.line_1x; Toy.line_2null] /\
  (NL ∉ Toy.line_not_json) /\
  input_buf_inv (Toy.reader_of ToyMore.ragged_chunks) /\
  nonempty_chunks ToyMore.ragged_chunks /\
  pending (Toy.reader_of ToyMore.ragged_chunks) =
    lines_stream [Toy.line_1x; Toy.line_2null] ++ Toy.line_not_json /\
  CopyFrom 3 100 (Toy.reader_of ToyMore.ragged_chunks) Toy.old_values Toy.old_nulls =
    Some (Ok [[Some (Toy.DInt (bs "1")); Some (Toy.DText (bs "x"))];
              [Some (Toy.DInt (bs "2")); None]]).
Proof.
  assert (Forall (fun line => (NL ∉ line) /\ (NUL ∉ line))
            [Toy.line_1x; Toy.line_2null]) as Hlines by by_compute.
  assert (NL ∉ Toy.line_not_json) as Htail by by_compute.
  assert (input_buf_inv (Toy.reader_of ToyMore.ragged_chunks)) as Hinv by example_inv.
  assert (nonempty_chunks ToyMore.ragged_chunks) as Hne
    by (repeat constructor; discriminate).
  split_and!; [done|done|done|done|reflexivity|].
  change 3%nat with (S (length [Toy.line_1x; Toy.line_2null])).
  etrans.
  - apply (@copy_from_decodes_each_line Toy.toy_types Toy.toy_host 100
             [Toy.line_1x; Toy.line_2null] Toy.line_not_json Hlines Htail
             (Toy.reader_of ToyMore.ragged_chunks) Toy.old_values Toy.old_nulls
             Hinv eq_refl Hne eq_refl).
    vm_compute. lia.
  - vm_compute. reflexivity.
Defined.

End WholeCopyExamples.

(** ** The start routine on file names with a dot *)

Section ReadStartMore.
Context {host_types : HostTypes} {host : Host}.

(** X1: on a file name that holds a dot the start routine never misbehaves.
    It selects gzip exactly when the name ends in ".gz" (the last dot counts,
    the comparison is exact) and no compression otherwise; its only error is
    a failing [inflateInit2], on a ".gz" name; and the state it leaves has
    empty buffers that meet the invariants the line reader relies on. *)
Theorem start_selects_by_extension (c : CopyFromStateJsonLines) (name : list byte) :
  filename (base c) = Some name -> c_string name -> DOT ∈ name ->
  match JsonLinesCopyFromStart c with
  | Ok c' =>
      (compression c' = PG_COMPRESSION_GZIP <-> exists p, name = p ++ bs ".gz") /\
      (compression c' = PG_COMPRESSION_NONE <-> ~ exists p, name = p ++ bs ".gz") /\
      base c' = base c /\ line_buf c' = [] /\ INPUT_BUF_BYTES c' = 0 /\
      input_reached_eof c' = false /\ input_reached_error c' = false /\
      input_buf_inv c' /\
      (compression c' = PG_COMPRESSION_GZIP -> raw_buf_inv c' /\ RAW_BUF_BYTES c' = 0)
  | Raise e =>
      e = ErrCompressionInit /\ (exists p, name = p ++ bs ".gz") /\
      inflateInit2 (15 + 32) = None
  | Undefined => False
  end.
Proof.
  intros Hfile Hname Hdot. unfold JsonLinesCopyFromStart. rewrite Hfile.
  destruct (strrchr name DOT) as [extension|] eqn:Hext;
    [|by apply strrchr_None in Hext].
  pose proof (extension_is_gz name extension Hname Hext) as Hgz.
  assert (forall c1 : CopyFromStateJsonLines,
            input_buf_inv (set_line_buf []
              (set_input_reached false false (set_input (input_buf c1) 0 0 c1))))
    as Hinv.
  { intros c1. split; [|simpl; lia].
    unfold stream_buffer_inv, INPUT_BUF_SIZE. simpl. lia. }
  destruct (decide (strcmp extension (bs ".gz") = 0)) as [Hz|Hnz].
  - apply Hgz in Hz. unfold initialize_inflate_gzip.
    destruct (inflateInit2 (15 + 32)); simpl; [|done].
    split_and!; done.
  - simpl. assert (~ exists p, name = p ++ bs ".gz") as Hno
      by (intros Hs; by apply Hgz in Hs).
    split_and!; try done.
Qed.

End ReadStartMore.

Section ReadStartExamples.
#[local] Existing Instance Toy.toy_types.
#[local] Existing Instance Toy.toy_host.

(** The names [rows.json.gz] and [rows.gz.json]: gzip for the first, no
    compression for the second. *)
Lemma start_selects_by_extension_witness :
  (exists c', JsonLinesCopyFromStart (ToyMore.reader_for (bs "rows.json.gz")) = Ok c' /\
              compression c' = PG_COMPRESSION_GZIP /\ input_buf_inv c') /\
  (exists c', JsonLinesCopyFromStart (ToyMore.reader_for (bs "rows.gz.json")) = Ok c' /\
              compression c' = PG_COMPRESSION_NONE /\ input_buf_inv c').
Proof.
  pose proof (@start_selects_by_extension Toy.toy_types Toy.toy_host
                (ToyMore.reader_for (bs "rows.json.gz")) (bs "rows.json.gz")
                eq_refl ltac:(by_compute) ltac:(by_compute)) as Hgz.
  pose proof (@start_selects_by_extension Toy.toy_types Toy.toy_host
                (ToyMore.reader_for (bs "rows.gz.json")) (bs "rows.gz.json")
                eq_refl ltac:(by_compute) ltac:(by_compute)) as Hplain.
  split.
  - destruct (JsonLinesCopyFromStart (ToyMore.reader_for (bs "rows.json.gz")))
      as [c'| |] eqn:Hstart; [|by vm_compute in Hstart..].
    destruct Hgz as (Hc & _ & _ & _ & _ & _ & _ & Hinv & _).
    exists c'. split_and!; [done| |done].
    apply Hc. by exists (bs "rows.json").
  - destruct (JsonLinesCopyFromStart (ToyMore.reader_for (bs "rows.gz.json")))
      as [c'| |] eqn:Hstart; [|by vm_compute in Hstart..].
    destruct Hplain as (Hc & _ & _ & _ & _ & _ & _ & Hinv & _).
    exists c'. split_and!; [done| |done].
    destruct (compression c') eqn:Hcomp; try done;
      vm_compute in Hstart; injection Hstart as <-; done.
Defined.

End ReadStartExamples.

(** ** The decompression adapter *)

Section GzipReader.
Context {host_types : HostTypes} {host : Host}.

Lemma inflate_step_line_buf (c : CopyFromStateJsonLines) (line : list byte) :
  inflate_step (set_line_buf line c) = inflate_step c /\
  source (base (refill_raw (set_line_buf line c))) = source (base (refill_raw c)).
Proof.
  unfold inflate_step, unfed, refill_raw, RAW_BUF_BYTES. simpl.
  destruct (decide (raw_buf_len c - raw_buf_index c = 0)); [|done].
  by destruct (CopyFromGetData (source (base c)) RAW_BUF_SIZE).
Qed.

(** X11: in gzip mode the row read follows the one [inflate] call of the
    refill.  With the input buffer drained, a negative return of [inflate]
    aborts the copy with the decompression error; a call that succeeds but
    writes no byte makes the routine report end of input, with no row and
    the arrays untouched, whatever the source still holds. *)
Theorem gzip_row_read_follows_inflate (fuel : nat) (c : CopyFromStateJsonLines)
    (values0 : list Datum) (nulls0 : list bool) (rowinfo : option CopyFromRowInfo) :
  compression c = PG_COMPRESSION_GZIP -> INPUT_BUF_BYTES c <= 0 ->
  (z_ret (inflate_step c) < 0 ->
     JsonLinesCopyFromOneRow (S fuel) c values0 nulls0 rowinfo =
       Some (Raise ErrDecompress)) /\
  (0 <= z_ret (inflate_step c) -> z_out (inflate_step c) = [] ->
     exists c',
       JsonLinesCopyFromOneRow (S fuel) c values0 nulls0 rowinfo =
         Some (Ok {| returned := false; state_after := c';
                     values_after := values0; nulls_after := nulls0;
                     rowinfo_after := rowinfo |}) /\
       line_buf c' = [] /\
       source (base c') = source (base (refill_raw c))).
Proof.
  intros Hgzip Hdrained.
  destruct (inflate_step_line_buf c []) as [Hstep Hsrc].
  unfold JsonLinesCopyFromOneRow, JsonLineReadLine. simpl.
  unfold JsonLineReadLine_body.
  change (INPUT_BUF_BYTES (set_line_buf [] c)) with (INPUT_BUF_BYTES c).
  destruct (decide (INPUT_BUF_BYTES c <= 0)); [|done].
  unfold load_more. change (compression (set_line_buf [] c)) with (compression c).
  rewrite Hgzip. unfold read_gzip.
  change (inflate _ _ INPUT_BUF_SIZE Z_NO_FLUSH)
    with (inflate_step (set_line_buf [] c)).
  rewrite Hstep. split.
  - intros Hneg. by destruct (decide (z_ret (inflate_step c) < 0)).
  - intros Hok Hout. destruct (decide (z_ret (inflate_step c) < 0)); [lia|].
    rewrite Hout. simpl. eexists. split; [reflexivity|]. simpl. split; [|done].
    destruct (refill_raw_frame (set_line_buf [] c)) as (_ & _ & _ & Hline).
    exact Hline.
Qed.

Lemma refill_raw_unfed (c : CopyFromStateJsonLines) :
  raw_buf_inv c -> raw_buf_filled c ->
  raw_buf_filled (refill_raw c) /\
  unfed (refill_raw c) ++ concat (source (base (refill_raw c))) =
    unfed c ++ concat (source (base c)) /\
  unfed (refill_raw c) =
    drop (Z.to_nat (raw_buf_index (refill_raw c))) (raw_buf (refill_raw c)).
Proof.
  intros (H0 & Hle & _) Hfilled. unfold raw_buf_filled in *.
  unfold refill_raw. destruct (decide (RAW_BUF_BYTES c = 0)) as [Hz|Hnz].
  - destruct (CopyFromGetData (source (base c)) RAW_BUF_SIZE) as [data rest] eqn:E.
    assert (0 < RAW_BUF_SIZE) as Hsize by (unfold RAW_BUF_SIZE; lia).
    destruct (CopyFromGetData_spec _ _ _ _ Hsize E) as (_ & Hcat & _).
    unfold unfed, buf_slice, RAW_BUF_BYTES. simpl.
    rewrite Z.sub_0_r, Nat2Z.id, firstn_all.
    unfold RAW_BUF_BYTES in Hz. rewrite Hz. simpl. by rewrite drop_0.
  - split_and!; try done.
    unfold unfed, buf_slice, RAW_BUF_BYTES. apply take_ge.
    rewrite length_drop. lia.
Qed.

(** X12: the decompression adapter hands the compressed stream to [inflate]
    in order, without gap or repetition.  With a zlib that keeps to its
    buffers, what one [read_gzip] call offers to [inflate] is the head of the
    compressed bytes not yet fed (raw buffer, then source); afterwards the
    bytes not yet fed are those same bytes without the ones [inflate]
    consumed; and the unread input is exactly what [inflate] wrote. *)
Theorem read_gzip_feeds_in_order (c c' : CopyFromStateJsonLines) :
  z_contract inflate -> raw_buf_inv c -> raw_buf_filled c ->
  read_gzip c = Ok c' ->
  exists consumed : nat,
    Z.of_nat consumed =
      Z.of_nat (length (unfed (refill_raw c))) - z_avail_in (inflate_step c) /\
    unfed (refill_raw c) `prefix_of` unfed c ++ concat (source (base c)) /\
    unfed c' ++ concat (source (base c')) =
      drop consumed (unfed c ++ concat (source (base c))) /\
    unread c' = z_out (inflate_step c) /\
    raw_buf_filled c' /\ raw_buf_inv c'.
Proof.
  intros Hz Hraw Hfilled Hread.
  destruct (refill_raw_unfed c Hraw Hfilled) as (Hfilled1 & Hstream & Hoffered).
  pose proof (refill_raw_inv c Hraw) as (H0 & Hle & Hcap).
  unfold raw_buf_filled in Hfilled1.
  assert (0 <= INPUT_BUF_SIZE) as Hsize by (unfold INPUT_BUF_SIZE; lia).
  destruct (Hz (strm (refill_raw c)) (unfed (refill_raw c)) INPUT_BUF_SIZE Z_NO_FLUSH Hsize)
    as [[Hin0 Hin] Hout].
  fold (inflate_step c) in Hin0, Hin, Hout.
  assert (Z.of_nat (length (unfed (refill_raw c))) = RAW_BUF_BYTES (refill_raw c))
    as Hlen.
  { rewrite Hoffered, length_drop. unfold RAW_BUF_BYTES. lia. }
  unfold read_gzip in Hread.
  change (inflate _ _ INPUT_BUF_SIZE Z_NO_FLUSH) with (inflate_step c) in Hread.
  destruct (decide (z_ret (inflate_step c) < 0)); [done|].
  injection Hread as <-.
  exists (Z.to_nat (Z.of_nat (length (unfed (refill_raw c))) - z_avail_in (inflate_step c))).
  split; [lia|]. split; [eexists; by rewrite <- Hstream|].
  split_and!.
  - rewrite <- Hstream. rewrite drop_app_le by lia. f_equal.
    unfold unfed at 1. unfold buf_slice, RAW_BUF_BYTES. simpl.
    rewrite take_ge by (rewrite length_drop; unfold RAW_BUF_BYTES; lia).
    rewrite Hlen, Hoffered, drop_drop. f_equal. unfold RAW_BUF_BYTES in *. lia.
  - unfold unread, buf_slice, INPUT_BUF_BYTES. simpl. rewrite drop_0.
    replace (Z.to_nat _) with (length (z_out (inflate_step c))) by lia.
    by rewrite take_app_length.
  - unfold raw_buf_filled. simpl. done.
  - unfold raw_buf_inv, stream_buffer_inv. simpl. unfold RAW_BUF_BYTES in *. lia.
Qed.

End GzipReader.

Section GzipReaderExamples.
#[local] Existing Instance Toy.toy_types.

(** With the strict toy zlib: a source that does not start with the gzip
    magic aborts the copy; a source whose first chunk is the magic alone
    ends the copy at once, the chunk with the line still in the source. *)
Lemma gzip_row_read_follows_inflate_witness :
  @JsonLinesCopyFromOneRow Toy.toy_types ToyMore.strict_host 1
    (Toy.gzip_reader [Toy.line_1x ++ [NL]]) Toy.old_values Toy.old_nulls None =
    Some (Raise ErrDecompress) /\
  exists c',
    @JsonLinesCopyFromOneRow Toy.toy_types ToyMore.strict_host 1
      (Toy.gzip_reader ToyMore.magic_then_line) Toy.old_values Toy.old_nulls None =
      Some (Ok {| returned := false; state_after := c';
                  values_after := Toy.old_values; nulls_after := Toy.old_nulls;
                  rowinfo_after := None |}) /\
    source (base c') = [Toy.line_1x ++ [NL]].
Proof.
  destruct (@gzip_row_read_follows_inflate Toy.toy_types ToyMore.strict_host 0
              (Toy.gzip_reader [Toy.line_1x ++ [NL]]) Toy.old_values Toy.old_nulls None
              eq_refl ltac:(by_compute)) as [Herr _].
  destruct (@gzip_row_read_follows_inflate Toy.toy_types ToyMore.strict_host 0
              (Toy.gzip_reader ToyMore.magic_then_line) Toy.old_values Toy.old_nulls None
              eq_refl ltac:(by_compute)) as [_ Heof].
  split.
  - apply Herr. by_compute.
  - destruct Heof as (c' & Hrow & _ & Hsrc); [by_compute|reflexivity|].
    exists c'. split; [exact Hrow|]. rewrite Hsrc. vm_compute. reflexivity.
Defined.

(** With the pass-through toy zlib: one adapter call on a fresh gzip reader
    feeds and consumes the whole first chunk; the second chunk is what is
    not yet fed. *)
Lemma read_gzip_feeds_in_order_witness :
  @z_contract Toy.toy_types (@inflate Toy.toy_types Toy.toy_host) /\
  raw_buf_inv (Toy.gzip_reader [Toy.line_1x ++ [NL]; [NL]]) /\
  raw_buf_filled (Toy.gzip_reader [Toy.line_1x ++ [NL]; [NL]]) /\
  exists c',
    @read_gzip Toy.toy_types Toy.toy_host (Toy.gzip_reader [Toy.line_1x ++ [NL]; [NL]]) =
      Ok c' /\
    unread c' = Toy.line_1x ++ [NL] /\
    unfed c' ++ concat (source (base c')) = [NL].
Proof.
  assert (raw_buf_inv (Toy.gzip_reader [Toy.line_1x ++ [NL]; [NL]])) as Hraw
    by (unfold raw_buf_inv, stream_buffer_inv, RAW_BUF_SIZE; simpl; lia).
  assert (raw_buf_filled (Toy.gzip_reader [Toy.line_1x ++ [NL]; [NL]])) as Hfilled
    by reflexivity.
  split_and!; [exact toy_inflate_contract|done|done|].
  eexists. split; [vm_compute; reflexivity|].
  match goal with
  | |- unread ?c' = _ /\ _ =>
      destruct (@read_gzip_feeds_in_order Toy.toy_types Toy.toy_host
                  (Toy.gzip_reader [Toy.line_1x ++ [NL]; [NL]]) c'
                  toy_inflate_contract Hraw Hfilled ltac:(vm_compute; reflexivity))
        as (consumed & Hconsumed & _ & Hrest & Hunread & _)
  end.
  split.
  - rewrite Hunread. vm_compute. reflexivity.
  - rewrite Hrest.
    assert (Z.of_nat consumed = 16) as H16
      by (rewrite Hconsumed; vm_compute; reflexivity).
    assert (consumed = 16%nat) as -> by lia.
    vm_compute. reflexivity.
Defined.

End GzipReaderExamples.

(** ** The write path: what reaches the destination *)

Section WriterOutput.
Context {host_types : HostTypes} {host : Host}.

(** X13: an uncompressed COPY TO sends one line per row and nothing else.
    With a valid compression specification the copy completes, whatever the
    rows, and has sent exactly the JSON text of each row followed by a
    newline, in row order; nothing stays in the message buffer and zlib is
    never called.  With an invalid specification it fails before any row. *)
Theorem plain_copy_to_sends_lines (fuel : nat) (c : CopyToStateJsonLines)
    (rows : list (list Datum * list bool)) :
  options_compression c = PG_COMPRESSION_NONE -> fe_msgbuf c = [] ->
  match compress_specification PG_COMPRESSION_NONE (compression_detail_str c) with
  | Some level =>
      exists c', DoCopyTo fuel c rows = Some (Ok c') /\
        sink c' = sink c ++ encode_rows rows /\ fe_msgbuf c' = [] /\
        zcalls c' = zcalls c /\ compression_level c' = level
  | None => DoCopyTo fuel c rows = Some (Raise ErrInvalidCompressionSpec)
  end.
Proof.
  intros Hnone Hbuf. unfold DoCopyTo, JsonLinesCopyToStart. rewrite Hnone.
  destruct (compress_specification _ _) as [level|]; [|done].
  simpl. rewrite Hnone. simpl.
  destruct (CopyToRows_plain fuel rows (set_level level c) Hnone Hbuf)
    as (c' & Hrows & Hsink & Hbuf' & Hcalls).
  rewrite Hrows.
  destruct (CopyToRows_calls _ _ _ _ Hrows) as (Hopt & _).
  unfold JsonLinesCopyToEnd.
  destruct (decide (options_compression c' = PG_COMPRESSION_GZIP)) as [Hgz|_].
  { rewrite Hopt in Hgz. simpl in Hgz. congruence. }
  exists c'. split_and!; try done.
  clear Hsink Hbuf' Hcalls Hopt. revert c' Hrows.
  generalize (set_level level c), (eq_refl : compression_level (set_level level c) = level).
  induction rows as [|[vs ns] rows IH]; intros c0 Hlevel c' Hrows; simpl in Hrows.
  - by injection Hrows as <-.
  - destruct (JsonLinesCopyToOneRow fuel c0 vs ns) as [[c1| |]|] eqn:Hrow; try done.
    apply (IH c1); [|done].
    revert Hrow. unfold JsonLinesCopyToOneRow.
    destruct (options_compression c0).
    + by intros [= <-].
    + unfold write_gzip. simpl.
      generalize (c_str (c_str (row_to_json vs ns) ++ [NL])).
      generalize (set_inbuf (c_str (row_to_json vs ns) ++ [NL]) c0),
        (eq_refl : compression_level
                     (set_inbuf (c_str (row_to_json vs ns) ++ [NL]) c0) =
                   compression_level c0).
      rewrite Hlevel. clear. revert c1.
      induction fuel as [|fuel IHf]; intros c1 c2 Hl next_in; simpl; [done|].
      destruct (decide (z_ret _ = Z_STREAM_ERROR)); [done|].
      destruct (decide (_ = 0)).
      * apply IHf. by destruct (decide (_ > 0)).
      * intros [= <-]. by destruct (decide (_ > 0)).
    + by intros [= <-].
    + by intros [= <-].
Qed.

Lemma write_gzip_loop_flushes (fuel : nat) :
  forall (c c' : CopyToStateJsonLines) (next_in : list byte) (flush : Z),
  fe_msgbuf c = [] ->
  write_gzip_loop fuel c next_in flush = Some (Ok c') ->
  fe_msgbuf c' = [] /\ sink c `prefix_of` sink c'.
Proof.
  induction fuel as [|fuel IH]; intros c c' next_in flush Hbuf; simpl; [done|].
  destruct (decide (z_ret _ = Z_STREAM_ERROR)); [done|].
  set (r := deflate (to_strm c) next_in GZIP_CHUNK_SIZE flush).
  set (c1 := set_to_strm (z_next r) _ c).
  set (c2 := if decide (_ > 0) then _ else c1).
  assert (fe_msgbuf c2 = [] /\ sink c `prefix_of` sink c2) as [Hbuf2 Hsink2].
  { subst c2. destruct (decide (_ > 0)); simpl; [|done].
    split; [done|]. by apply prefix_app_r. }
  destruct (decide (_ = 0)).
  - intros Hloop. destruct (IH _ _ _ _ Hbuf2 Hloop) as [Hb Hs].
    split; [done|]. by etrans.
  - by intros [= <-].
Qed.

Lemma JsonLinesCopyToOneRow_flushes (fuel : nat) (c c' : CopyToStateJsonLines)
    (vs : list Datum) (ns : list bool) :
  fe_msgbuf c = [] ->
  JsonLinesCopyToOneRow fuel c vs ns = Some (Ok c') ->
  fe_msgbuf c' = [] /\ sink c `prefix_of` sink c' /\
  (options_compression c <> PG_COMPRESSION_NONE ->
   options_compression c <> PG_COMPRESSION_GZIP -> sink c' = sink c).
Proof.
  intros Hbuf. unfold JsonLinesCopyToOneRow.
  destruct (options_compression c) eqn:Hopt.
  - intros [= <-]. simpl. split_and!; [done|by apply prefix_app_r|done].
  - unfold write_gzip. intros Hloop.
    destruct (write_gzip_loop_flushes _ (set_inbuf _ c) _ _ _ Hbuf Hloop). done.
  - by intros [= <-].
  - by intros [= <-].
Qed.

Lemma CopyToRows_flushes (fuel : nat) (rows : list (list Datum * list bool)) :
  forall c c' : CopyToStateJsonLines,
  fe_msgbuf c = [] ->
  CopyToRows fuel c rows = Some (Ok c') ->
  fe_msgbuf c' = [] /\ sink c `prefix_of` sink c' /\
  (options_compression c <> PG_COMPRESSION_NONE ->
   options_compression c <> PG_COMPRESSION_GZIP -> sink c' = sink c).
Proof.
  induction rows as [|[vs ns] rows IH]; intros c c' Hbuf; simpl.
  - by intros [= <-].
  - destruct (JsonLinesCopyToOneRow fuel c vs ns) as [[c1| |]|] eqn:Hrow; try done.
    destruct (JsonLinesCopyToOneRow_flushes _ _ _ _ _ Hbuf Hrow) as (Hb1 & Hs1 & Hn1).
    destruct (JsonLinesCopyToOneRow_calls _ _ _ _ _ Hrow) as (Ho1 & _).
    intros Hrows. destruct (IH _ _ Hb1 Hrows) as (Hb & Hs & Hn).
    split_and!; [done|by etrans|].
    intros H1 H2. rewrite Hn, Hn1 by congruence. done.
Qed.

(** X14: the write path buffers nothing between calls and only ever adds
    to what it has sent.  In every compression mode, a copy that completes
    from an empty message buffer leaves that buffer empty and has extended
    the data sent; with LZ4 or Zstandard selected it completes without
    sending a single byte, whatever the rows. *)
Theorem copy_to_flushes_all (fuel : nat) (c c' : CopyToStateJsonLines)
    (rows : list (list Datum * list bool)) :
  fe_msgbuf c = [] ->
  DoCopyTo fuel c rows = Some (Ok c') ->
  fe_msgbuf c' = [] /\ sink c `prefix_of` sink c' /\
  options_compression c' = options_compression c /\
  (options_compression c <> PG_COMPRESSION_NONE ->
   options_compression c <> PG_COMPRESSION_GZIP -> sink c' = sink c).
Proof.
  intros Hbuf. unfold DoCopyTo.
  destruct (JsonLinesCopyToStart c) as [c1| |] eqn:Hstart; try done.
  destruct (JsonLinesCopyToStart_calls _ _ Hstart) as [Ho1 _].
  assert (fe_msgbuf c1 = [] /\ sink c1 = sink c) as [Hb1 Hs1].
  { revert Hstart. unfold JsonLinesCopyToStart.
    destruct (compress_specification _ _) as [level|]; [|done]. simpl.
    destruct (options_compression c); simpl; try by intros [= <-].
    unfold initialize_deflate_gzip. destruct (deflateInit2 level); [|done].
    simpl. by intros [= <-]. }
  destruct (CopyToRows fuel c1 rows) as [[c2| |]|] eqn:Hrows; try done.
  destruct (CopyToRows_flushes _ _ _ _ Hb1 Hrows) as (Hb2 & Hs2 & Hn2).
  destruct (CopyToRows_calls _ _ _ _ Hrows) as (Ho2 & _).
  unfold JsonLinesCopyToEnd.
  destruct (decide (options_compression c2 = PG_COMPRESSION_GZIP)) as [Hgz|Hngz].
  - unfold end_deflate_gzip, write_gzip.
    destruct (write_gzip_loop fuel c2 (c_str []) Z_FINISH) as [[c3| |]|] eqn:Hloop;
      try done.
    destruct (write_gzip_loop_flushes _ _ _ _ _ Hb2 Hloop) as [Hb3 Hs3].
    destruct (write_gzip_loop_calls _ _ _ _ _ Hloop) as (Ho3 & _).
    intros [= <-]. simpl. split_and!.
    + done.
    + rewrite <- Hs1. by etrans.
    + congruence.
    + intros _ Hne. congruence.
  - intros [= <-]. split_and!.
    + done.
    + by rewrite <- Hs1.
    + congruence.
    + intros H1 H2. rewrite Hn2 by congruence. done.
Qed.

End WriterOutput.

Section WriterOutputExamples.
#[local] Existing Instance Toy.toy_types.
#[local] Existing Instance Toy.toy_host.

(** The two rows of the scenario written without compression: the two
    lines, no zlib call. *)
Lemma plain_copy_to_sends_lines_witness :
  exists c',
    DoCopyTo 0 (Toy.writer PG_COMPRESSION_NONE) Toy.two_rows = Some (Ok c') /\
    sink c' = Toy.two_lines /\ fe_msgbuf c' = [] /\ zcalls c' = [] /\
    compression_level c' = 6.
Proof.
  destruct (@plain_copy_to_sends_lines Toy.toy_types Toy.toy_host 0
              (Toy.writer PG_COMPRESSION_NONE) Toy.two_rows eq_refl eq_refl)
    as (c' & Hcopy & Hsink & Hbuf & Hcalls & Hlevel).
  exists c'. split_and!; [exact Hcopy| |exact Hbuf|exact Hcalls|exact Hlevel].
  rewrite Hsink. vm_compute. reflexivity.
Defined.

(** The two rows of the scenario written with LZ4 selected: the copy
    completes and nothing is sent. *)
Lemma copy_to_flushes_all_witness :
  exists c',
    DoCopyTo 0 (Toy.writer PG_COMPRESSION_LZ4) Toy.two_rows = Some (Ok c') /\
    fe_msgbuf c' = [] /\ sink c' = [].
Proof.
  eexists. split; [vm_compute; reflexivity|].
  match goal with
  | |- fe_msgbuf ?c' = _ /\ _ =>
      destruct (@copy_to_flushes_all Toy.toy_types Toy.toy_host 0
                  (Toy.writer PG_COMPRESSION_LZ4) c' Toy.two_rows
                  eq_refl ltac:(vm_compute; reflexivity))
        as (Hbuf & _ & _ & Hnone)
  end.
  split; [exact Hbuf|]. rewrite Hnone by discriminate. reflexivity.
Defined.

End WriterOutputExamples.

(** ** The options of the write path *)

Section WriteOptionsProperties.
Context {host_types : HostTypes} {host : Host}.
Variable parse_compress_algorithm : list byte -> option pg_compress_algorithm.

(** X15: an option the routine accepts never leaves an algorithm selected
    that the write path does not implement.  From a state with no
    compression or gzip selected, every call that returns leaves no
    compression or gzip selected; it touches the algorithm only for the name
    "compression", and then sets what the value parses to; a name it does
    not know is reported as not handled with the state unchanged; and
    nothing is sent or compressed while options are processed. *)
Theorem accepted_option_is_implemented (c c' : CopyToStateJsonLines)
    (option : DefElem) (handled : bool) :
  c_string (defname option) ->
  implemented (options_compression c) ->
  JsonLinesCopyToProcessOneOption parse_compress_algorithm c option =
    OptionDone handled c' ->
  implemented (options_compression c') /\
  (defname option <> bs "compression" ->
     options_compression c' = options_compression c) /\
  (defname option = bs "compression" ->
     handled = true /\
     parse_compress_algorithm (defGetString option) = Some (options_compression c')) /\
  (defname option <> bs "compression" ->
   defname option <> bs "compression_detail" -> handled = false /\ c' = c) /\
  sink c' = sink c /\ fe_msgbuf c' = fe_msgbuf c /\ zcalls c' = zcalls c.
Proof.
  intros Hname Himpl. unfold JsonLinesCopyToProcessOneOption.
  assert (c_string (bs "compression")) as Hc1 by by_compute.
  assert (c_string (bs "compression_detail")) as Hc2 by by_compute.
  pose proof (strcmp_eq _ _ Hname Hc1) as He1.
  pose proof (strcmp_eq _ _ Hname Hc2) as He2.
  destruct (decide (strcmp (defname option) (bs "compression") = 0)) as [H1|H1].
  - apply He1 in H1.
    destruct (parse_compress_algorithm (defGetString option)) as [algorithm|]; [|done].
    simpl. destruct (decide (algorithm = PG_COMPRESSION_LZ4)); [done|].
    destruct (decide (algorithm = PG_COMPRESSION_ZSTD)); [done|].
    intros [= <- <-]. simpl. split_and!; try done; [].
    unfold implemented. by destruct algorithm; auto.
  - assert (defname option <> bs "compression") as Hne1 by (intros E; by apply He1 in E).
    destruct (decide (strcmp (defname option) (bs "compression_detail") = 0))
      as [H2|H2].
    + apply He2 in H2. intros [= <- <-]. simpl. split_and!; try done.
    + assert (defname option <> bs "compression_detail") as Hne2
        by (intros E; by apply He2 in E).
      intros [= <- <-]. split_and!; done.
Qed.

End WriteOptionsProperties.

Section WriteOptionsExamples.
#[local] Existing Instance Toy.toy_types.
#[local] Existing Instance Toy.toy_host.

(** The option [compression 'gzip'] on a writer without compression. *)
Lemma accepted_option_is_implemented_witness :
  exists c',
    JsonLinesCopyToProcessOneOption ToyMore.toy_parse
      (Toy.writer PG_COMPRESSION_NONE)
      {| defname := bs "compression"; defGetString := bs "gzip" |} =
      OptionDone true c' /\
    options_compression c' = PG_COMPRESSION_GZIP /\
    implemented (options_compression c') /\ sink c' = [].
Proof.
  eexists. split; [vm_compute; reflexivity|].
  match goal with
  | |- options_compression ?c' = _ /\ _ =>
      destruct (@accepted_option_is_implemented Toy.toy_types ToyMore.toy_parse
                  (Toy.writer PG_COMPRESSION_NONE) c'
                  {| defname := bs "compression"; defGetString := bs "gzip" |} true
                  ltac:(by_compute) ltac:(by left) ltac:(vm_compute; reflexivity))
        as (Himpl & _ & _ & _ & Hsink & _)
  end.
  split_and!; [reflexivity|exact Himpl|exact Hsink].
Defined.

End WriteOptionsExamples.
